(** * Marketplace: cart, checkout, order confirmation and payment

A shallow embedding of the order life cycle of the Django marketplace
(cart/cart.py, shopapp/models.py, shopapp/serializers.py,
shopapp/views.py) together with the properties of its specification.

Conventions of the embedding
- A Python [Decimal] whose value is a multiple of 0.01 (every
  [DecimalField] of the models has [decimal_places=2], and sums and
  integer multiples of such values are such values) is the integer
  number of its hundredths. Decimal arithmetic is that of the default
  context: a result is rounded half-even to 28 significant digits, and
  a result beyond the largest exponent raises [Overflow].
- A Python [str] is the [string] of the bytes of its UTF-8 encoding;
  its characters are the code points that these bytes encode.
- Database tables keyed by primary key are [gmap Z _]; tables that are
  only filtered or appended to are lists of rows. The database is one
  of SQLite and PostgreSQL, which check the values of a column
  differently.
- A view is a function from the request and the database to an
  outcome, the new database and the new session. *)

From Stdlib Require Import ZArith List Bool Ascii String Lia.
From stdpp Require Import base option list gmap strings.

Local Open Scope string_scope.
Local Open Scope list_scope.
Local Open Scope Z_scope.

(** ** Python values *)

Definition Decimal := Z.

Inductive Exception :=
| PermissionDenied (detail : string)
| NotAuthenticated
| DoesNotExist (model : string)
| MultipleObjectsReturned (model : string)
| RelatedObjectDoesNotExist (name : string)
| AttributeError (name : string)
| KeyError (key : string)
| ValueError (msg : string)
| OverflowError
| InvalidOperation
| Overflow
| IntegrityError
| DataError
| DatabaseError (msg : string).

Inductive Result (A : Type) :=
| Ok (a : A)
| Raise (e : Exception).
Arguments Ok {A} a.
Arguments Raise {A} e.

Module Py.

Definition byte (c : ascii) : Z := Z.of_nat (nat_of_ascii c).

(** A byte [10xxxxxx] continues a UTF-8 sequence. *)
Definition continuation (b : Z) : bool := (128 <=? b) && (b <=? 191).

(** The second byte of a sequence of three or four bytes: the ranges
    that exclude overlong forms, surrogates and code points beyond
    U+10FFFF. *)
Definition second_of_3 (b0 b1 : Z) : bool :=
  if b0 =? 224 then (160 <=? b1) && (b1 <=? 191)
  else if b0 =? 237 then (128 <=? b1) && (b1 <=? 159)
  else continuation b1.

Definition second_of_4 (b0 b1 : Z) : bool :=
  if b0 =? 240 then (144 <=? b1) && (b1 <=? 191)
  else if b0 =? 244 then (128 <=? b1) && (b1 <=? 143)
  else continuation b1.

(** A byte that starts no well-formed sequence (no [str] has such an
    encoding) counts as one character, which is no digit. *)
Definition stray (b : Z) : Z := 56320 + b.

(** The characters of a string: the code points of its UTF-8
    sequences. *)
Fixpoint decode (s : string) : list Z :=
  match s with
  | EmptyString => []
  | String c0 s1 =>
      let b0 := byte c0 in
      if b0 <? 128 then b0 :: decode s1
      else
        match s1 with
        | EmptyString => stray b0 :: decode s1
        | String c1 s2 =>
            let b1 := byte c1 in
            if (194 <=? b0) && (b0 <=? 223)
            then
              if continuation b1
              then ((b0 - 192) * 64 + (b1 - 128)) :: decode s2
              else stray b0 :: decode s1
            else
              match s2 with
              | EmptyString => stray b0 :: decode s1
              | String c2 s3 =>
                  let b2 := byte c2 in
                  if (224 <=? b0) && (b0 <=? 239)
                  then
                    if second_of_3 b0 b1 && continuation b2
                    then ((b0 - 224) * 4096 + (b1 - 128) * 64 + (b2 - 128)) :: decode s3
                    else stray b0 :: decode s1
                  else
                    match s3 with
                    | EmptyString => stray b0 :: decode s1
                    | String c3 s4 =>
                        let b3 := byte c3 in
                        if (240 <=? b0) && (b0 <=? 244)
                           && second_of_4 b0 b1 && continuation b2 && continuation b3
                        then ((b0 - 240) * 262144 + (b1 - 128) * 4096
                              + (b2 - 128) * 64 + (b3 - 128)) :: decode s4
                        else stray b0 :: decode s1
                    end
              end
        end
  end.

(** [chr(c)] for a code point that is no surrogate, as a string. *)
Definition chr (c : Z) : string :=
  let b (n : Z) := String (ascii_of_nat (Z.to_nat n)) EmptyString in
  if c <? 128 then b c
  else if c <? 2048 then b (192 + c / 64) ++ b (128 + c mod 64)
  else if c <? 65536
  then b (224 + c / 4096) ++ b (128 + (c / 64) mod 64) ++ b (128 + c mod 64)
  else b (240 + c / 262144) ++ b (128 + (c / 4096) mod 64)
       ++ b (128 + (c / 64) mod 64) ++ b (128 + c mod 64).

(** The decimal digits of Unicode 14.0 (the characters with a decimal
    value, [Nd]): each range holds the digits 0 to 9 in order, once or
    several times. *)
Definition decimal_ranges : list (Z * Z) :=
  [ (48, 57); (1632, 1641); (1776, 1785); (1984, 1993); (2406, 2415); (2534, 2543);
    (2662, 2671); (2790, 2799); (2918, 2927); (3046, 3055); (3174, 3183); (3302, 3311);
    (3430, 3439); (3558, 3567); (3664, 3673); (3792, 3801); (3872, 3881); (4160, 4169);
    (4240, 4249); (6112, 6121); (6160, 6169); (6470, 6479); (6608, 6617); (6784, 6793);
    (6800, 6809); (6992, 7001); (7088, 7097); (7232, 7241); (7248, 7257); (42528, 42537);
    (43216, 43225); (43264, 43273); (43472, 43481); (43504, 43513); (43600, 43609);
    (44016, 44025); (65296, 65305); (66720, 66729); (68912, 68921); (69734, 69743);
    (69872, 69881); (69942, 69951); (70096, 70105); (70384, 70393); (70736, 70745);
    (70864, 70873); (71248, 71257); (71360, 71369); (71472, 71481); (71904, 71913);
    (72016, 72025); (72784, 72793); (73040, 73049); (73120, 73129); (92768, 92777);
    (92864, 92873); (93008, 93017); (120782, 120831); (123200, 123209);
    (123632, 123641); (125264, 125273); (130032, 130041) ].

(** The other characters for which [isdigit] holds (superscripts,
    subscripts, circled digits and the like): digits without a decimal
    value. *)
Definition other_digit_ranges : list (Z * Z) :=
  [ (178, 179); (185, 185); (4969, 4977); (6618, 6618); (8304, 8304); (8308, 8313);
    (8320, 8329); (9312, 9320); (9332, 9340); (9352, 9360); (9450, 9450); (9461, 9469);
    (9471, 9471); (10102, 10110); (10112, 10120); (10122, 10130); (68160, 68163);
    (69216, 69224); (69714, 69722); (127232, 127242) ].

Definition in_range (c : Z) (r : Z * Z) : bool := (r.1 <=? c) && (c <=? r.2).

(** The decimal value of a character, for a decimal digit. *)
Definition decimal (c : Z) : option Z :=
  match List.find (in_range c) decimal_ranges with
  | Some r => Some ((c - r.1) mod 10)
  | None => None
  end.

(** [c.isdigit()] for a character. *)
Definition isdigit_char (c : Z) : bool :=
  match decimal c with
  | Some _ => true
  | None => existsb (in_range c) other_digit_ranges
  end.

(** [s.isdigit()]: at least one character, all of them digits. *)
Definition isdigit (s : string) : bool :=
  match decode s with
  | [] => false
  | characters => forallb isdigit_char characters
  end.

(** The loop of [int(s)] over the characters of [s]; [None] at a
    character without a decimal value. *)
Fixpoint int_loop (characters : list Z) (acc : Z) : option Z :=
  match characters with
  | [] => Some acc
  | c :: rest =>
      match decimal c with
      | Some d => int_loop rest (10 * acc + d)
      | None => None
      end
  end.

(** [int(s)] for a string of digits, the strings it is called on here:
    the number that its decimal digits write, ValueError when one of its
    digits has no decimal value. *)
Definition int (s : string) : Result Z :=
  match int_loop (decode s) 0 with
  | Some n => Ok n
  | None =>
      Raise (ValueError ("invalid literal for int() with base 10: '" ++ s ++ "'"))
  end.

(** [len(s)]: the number of characters. *)
Definition len (s : string) : Z := Z.of_nat (length (decode s)).

(** ['\x00' in s]. *)
Definition has_null (s : string) : bool :=
  existsb (fun c => c =? 0) (decode s).

End Py.

(** ** Decimal arithmetic (the default context of [decimal]) *)

Module decimal.

(** [prec = 28]. *)
Definition limit : Z := 10 ^ 28.

(** The number of digits by which [n] exceeds the precision. *)
Fixpoint excess (fuel : nat) (n : Z) : Z :=
  match fuel with
  | O => 0
  | S fuel => if n <? limit then 0 else 1 + excess fuel (n / 10)
  end.

(** [ROUND_HALF_EVEN] to 28 significant digits. *)
Definition round (z : Z) : Z :=
  let n := Z.abs z in
  if n <? limit then z
  else
    let k := excess (Z.to_nat (Z.log2 n)) n in
    let q := n / 10 ^ k in
    let r := n mod 10 ^ k in
    let q' := if (10 ^ k <? 2 * r) || ((10 ^ k =? 2 * r) && Z.odd q)
              then q + 1 else q in
    Z.sgn z * (q' * 10 ^ k).

(** [Emax = 999999]: a result of 10^1000000 or more, which is
    10^1000002 hundredths, overflows. The first test spares the power
    for every number of fewer than 3321928 bits. *)
Definition overflows (z : Z) : bool :=
  if Z.log2 (Z.abs z) <? 3321928 then false
  else 10 ^ 1000002 <=? Z.abs z.

(** What an operation returns whose exact result is [z]. *)
Definition finish (z : Z) : Result Decimal :=
  let r := round z in
  if overflows r then Raise Overflow else Ok r.

(** [a + b] and, for an integer [n], [a * n]. *)
Definition add (a b : Decimal) : Result Decimal := finish (a + b).
Definition mul (a : Decimal) (n : Z) : Result Decimal := finish (a * n).

End decimal.

(** ** The cart (cart/cart.py) *)

Module Cart.

(** The product data stored in a cart line: the serialised product,
    whose ['count'] key is overwritten with the quantity in the cart.
    Of the display fields only the title is kept; ['price'] is the
    string of a two-digit decimal, read back with [Decimal(...)]. *)
Record ProductData := mkProductData {
  title : string;
  price : Decimal;
  count : Z
}.

Record Item := mkItem {
  product_id : string;
  product_data : ProductData
}.

#[export] Instance ProductData_eq_dec : EqDecision ProductData.
Proof. solve_decision. Defined.
#[export] Instance Item_eq_dec : EqDecision Item.
Proof. solve_decision. Defined.

(** [item['product_data']['count'] = c], an update in place. *)
Definition set_count (item : Item) (c : Z) : Item :=
  {| product_id := product_id item;
     product_data := {| title := title (product_data item);
                        price := price (product_data item);
                        count := c |} |}.

(** [list.remove(x)]: drops the first element equal to [x]. *)
Fixpoint list_remove (x : Item) (l : list Item) : list Item :=
  match l with
  | [] => []
  | y :: l' => if decide (y = x) then l' else y :: list_remove x l'
  end.

Section WithCatalog.

(** The catalog collaborator: [Product.objects.get(pk=product_id)]
    followed by [dict(CatalogProductSerializer(product).data)];
    [None] when the lookup raises [Product.DoesNotExist]. *)
Variable catalog : string -> option ProductData.

(** The loop of [add]: the first line with this product id gets its
    count increased; [None] when the loop ends without a match. *)
Fixpoint add_loop (items : list Item) (pid : string) (quantity : Z)
  : option (list Item) :=
  match items with
  | [] => None
  | item :: rest =>
      if (product_id item =? pid)%string
      then Some (set_count item (count (product_data item) + quantity) :: rest)
      else match add_loop rest pid quantity with
           | Some rest' => Some (item :: rest')
           | None => None
           end
  end.

Definition add (items : list Item) (pid : string) (quantity : Z)
  : Result (list Item) :=
  match add_loop items pid quantity with
  | Some items' => Ok items'
  | None =>
      match catalog pid with
      | None => Raise (DoesNotExist "Product")
      | Some data =>
          Ok (items ++ [ {| product_id := pid;
                            product_data := {| title := title data;
                                               price := price data;
                                               count := quantity |} |} ])
      end
  end.

End WithCatalog.

(** The loop of [remove] iterates over the list it mutates. Python's
    list iterator keeps an index: iteration [i] visits [items[i]] of
    the current list and stops when [i] is past its end. [fuel] bounds
    the number of iterations. *)
Fixpoint remove_loop (fuel : nat) (i : nat) (items : list Item)
    (pid : string) (quantity : Z) : list Item :=
  match fuel with
  | O => items
  | S fuel' =>
      match items !! i with
      | None => items
      | Some item =>
          if (product_id item =? pid)%string
          then
            let item' := set_count item (count (product_data item) - quantity) in
            let items1 := <[i := item']> items in
            let items2 := if count (product_data item') <=? 0
                          then list_remove item' items1
                          else items1 in
            remove_loop fuel' (S i) items2 pid quantity
          else remove_loop fuel' (S i) items pid quantity
      end
  end.

(** The list never grows, so its initial length bounds the iterations. *)
Definition remove (items : list Item) (pid : string) (quantity : Z)
  : list Item :=
  remove_loop (length items) 0 items pid quantity.

(** [self.cart['items'] = []]. *)
Definition clear (items : list Item) : list Item := [].

Definition get_cart_products (items : list Item) : list ProductData :=
  map product_data items.

(** The loop of [get_cart_total]: [total += price * count], in the
    arithmetic of [Decimal]. *)
Fixpoint get_cart_total_loop (items : list Item) (total : Decimal)
  : Result Decimal :=
  match items with
  | [] => Ok total
  | item :: rest =>
      match decimal.mul (price (product_data item)) (count (product_data item)) with
      | Raise e => Raise e
      | Ok line =>
          match decimal.add total line with
          | Raise e => Raise e
          | Ok total => get_cart_total_loop rest total
          end
      end
  end.

(** [total = Decimal(0)], then the loop. *)
Definition get_cart_total (items : list Item) : Result Decimal :=
  get_cart_total_loop items 0.

(** A call of the cart interface, and a sequence of calls. An [add]
    that raises leaves the cart as it was. *)
Inductive Call :=
| Add (pid : string) (quantity : Z)
| Remove (pid : string) (quantity : Z).

Definition call (catalog : string -> option ProductData)
    (items : list Item) (c : Call) : list Item :=
  match c with
  | Add pid q =>
      match add catalog items pid q with
      | Ok items' => items'
      | Raise _ => items
      end
  | Remove pid q => remove items pid q
  end.

Definition calls (catalog : string -> option ProductData)
    (cs : list Call) (items : list Item) : list Item :=
  fold_left (call catalog) cs items.

End Cart.

(** ** The models (shopapp/models.py)

Foreign keys hold the primary key of the row they point to. The
[createdAt] column of an order ([auto_now_add], never written
again) is left out. *)

Module Product.
Record t := mk {
  title : string;
  count : Z;
  price : Decimal
}.
End Product.

Module Order.
Record t := mk {
  profile : option Z;
  deliveryType : string;
  paymentType : string;
  totalCost : Decimal;
  status : string;
  city : string;
  address : string
}.

(** [Order.objects.create(profile=p)]: every other column takes its
    default, the empty string for a [CharField] and 0 for [totalCost]. *)
Definition create (p : option Z) : t :=
  {| profile := p; deliveryType := ""; paymentType := ""; totalCost := 0;
     status := ""; city := ""; address := "" |}.

Definition set_status (o : t) (s : string) : t :=
  {| profile := profile o; deliveryType := deliveryType o;
     paymentType := paymentType o; totalCost := totalCost o;
     status := s; city := city o; address := address o |}.

Definition set_totalCost (o : t) (c : Decimal) : t :=
  {| profile := profile o; deliveryType := deliveryType o;
     paymentType := paymentType o; totalCost := c;
     status := status o; city := city o; address := address o |}.
End Order.

Module OrderItem.
Record t := mk {
  order : Z;
  product : Z;
  quantity : Z
}.
End OrderItem.

Module OrderDeliveryType.
Record t := mk {
  type : string;
  min_cost : Decimal;
  delivery_cost : Decimal
}.
End OrderDeliveryType.

Module Payment.
Record t := mk {
  order : Z;
  number : string;
  name : string;
  year : string;
  month : string;
  code : string
}.
End Payment.

(** The database backends of the model. *)
Inductive Vendor :=
| sqlite
| postgresql.

(** The database: its backend, and one component per table.
    [Order_next_pk] is the next value of the auto-increment key of the
    order table. *)
Record DB := mkDB {
  vendor : Vendor;
  Product_objects : gmap Z Product.t;
  Order_objects : gmap Z Order.t;
  Order_next_pk : Z;
  OrderItem_objects : list OrderItem.t;
  OrderDeliveryType_objects : list OrderDeliveryType.t;
  Payment_objects : list Payment.t
}.

Definition set_Order_objects (db : DB) (orders : gmap Z Order.t) : DB :=
  {| vendor := vendor db;
     Product_objects := Product_objects db;
     Order_objects := orders;
     Order_next_pk := Order_next_pk db;
     OrderItem_objects := OrderItem_objects db;
     OrderDeliveryType_objects := OrderDeliveryType_objects db;
     Payment_objects := Payment_objects db |}.

(** What the database makes of a value written to a column. A
    [PositiveSmallIntegerField] column has the check [>= 0] on both
    backends; PostgreSQL stores it as a [smallint] and refuses what is
    outside of that type before it looks at the check, SQLite stores
    every integer of 64 bits and its driver refuses the others. *)
Definition PositiveSmallIntegerField_write (v : Vendor) (value : Z)
  : option Exception :=
  match v with
  | sqlite =>
      if (value <? - 2 ^ 63) || (2 ^ 63 <=? value) then Some OverflowError
      else if value <? 0 then Some IntegrityError
      else None
  | postgresql =>
      if (value <? -32768) || (32767 <? value) then Some DataError
      else if value <? 0 then Some IntegrityError
      else None
  end.

(** A [DecimalField(max_digits=n, decimal_places=2)] column takes a
    value of at most [n] digits. For SQLite the value is first written
    out with [quantize] in a context of [n] digits, which raises
    [InvalidOperation] for a longer one; PostgreSQL gets the value and
    refuses a longer one itself. *)
Definition DecimalField_write (v : Vendor) (n : Z) (value : Decimal)
  : option Exception :=
  if Z.abs value <? 10 ^ n then None
  else Some match v with
            | sqlite => InvalidOperation
            | postgresql => DataError
            end.

(** The row of key [pk] of the order table, rewritten. *)
Definition Order_UPDATE (pk : Z) (o : Order.t) (db : DB) : DB :=
  set_Order_objects db (<[pk := o]> (Order_objects db)).

(** [order.save()] of the instance loaded under key [pk]: every column
    is written; the values of the text columns are those of the row or
    validated ones, [totalCost] is whatever was assigned. *)
Definition Order_save (pk : Z) (o : Order.t) (db : DB) : Result DB :=
  match DecimalField_write (vendor db) 13 (Order.totalCost o) with
  | Some e => Raise e
  | None => Ok (Order_UPDATE pk o db)
  end.

(** [Order.objects.create(profile=p)]: a row under a fresh key. *)
Definition Order_objects_create (p : option Z) (db : DB) : Z * DB :=
  (Order_next_pk db,
   {| vendor := vendor db;
      Product_objects := Product_objects db;
      Order_objects := <[Order_next_pk db := Order.create p]> (Order_objects db);
      Order_next_pk := Order_next_pk db + 1;
      OrderItem_objects := OrderItem_objects db;
      OrderDeliveryType_objects := OrderDeliveryType_objects db;
      Payment_objects := Payment_objects db |}).

(** A row appended to the table of order items. *)
Definition OrderItem_INSERT (i : OrderItem.t) (db : DB) : DB :=
  {| vendor := vendor db;
     Product_objects := Product_objects db;
     Order_objects := Order_objects db;
     Order_next_pk := Order_next_pk db;
     OrderItem_objects := OrderItem_objects db ++ [i];
     OrderDeliveryType_objects := OrderDeliveryType_objects db;
     Payment_objects := Payment_objects db |}.

(** [OrderItem.objects.create(order=..., product=..., quantity=...)]:
    no validator runs; the database checks the quantity. *)
Definition OrderItem_objects_create (i : OrderItem.t) (db : DB) : Result DB :=
  match PositiveSmallIntegerField_write (vendor db) (OrderItem.quantity i) with
  | Some e => Raise e
  | None => Ok (OrderItem_INSERT i db)
  end.

Definition Payment_objects_create (p : Payment.t) (db : DB) : DB :=
  {| vendor := vendor db;
     Product_objects := Product_objects db;
     Order_objects := Order_objects db;
     Order_next_pk := Order_next_pk db;
     OrderItem_objects := OrderItem_objects db;
     OrderDeliveryType_objects := OrderDeliveryType_objects db;
     Payment_objects := Payment_objects db ++ [p] |}.

(** [OrderDeliveryType.objects.get(type=ty)]: the column is not unique,
    so the lookup fails on no row and on more than one. *)
Definition OrderDeliveryType_objects_get (db : DB) (ty : string)
  : Result OrderDeliveryType.t :=
  match List.filter (fun r => (OrderDeliveryType.type r =? ty)%string)
                    (OrderDeliveryType_objects db) with
  | [] => Raise (DoesNotExist "OrderDeliveryType")
  | [r] => Ok r
  | _ => Raise (MultipleObjectsReturned "OrderDeliveryType")
  end.

(** ** Requests, sessions and responses *)

(** The value stored in the session under [CART_SESSION_ID]: the dict
    [{'items': [...]}], or the empty dict left by [dict.clear()]. *)
Inductive CartDict :=
| EmptyDict
| ItemsDict (items : list Cart.Item).

Record Session := mkSession {
  session_cart : option CartDict;
  session_order_id : option Z
}.

(** [Cart(request)]: a missing or falsy entry is replaced by
    [{'items': []}], which is also stored in the session. *)
Definition Cart_init (s : Session) : Session * list Cart.Item :=
  match session_cart s with
  | Some (ItemsDict items) => (s, items)
  | Some EmptyDict | None =>
      ({| session_cart := Some (ItemsDict []);
          session_order_id := session_order_id s |}, [])
  end.

(** [request.user]: anonymous, or a user with or without a profile. *)
Inductive User :=
| AnonymousUser
| AuthenticatedUser (profile : option Z).

(** [request.user.profile]. *)
Definition user_profile (u : User) : Result Z :=
  match u with
  | AnonymousUser => Raise (AttributeError "profile")
  | AuthenticatedUser None => Raise (RelatedObjectDoesNotExist "profile")
  | AuthenticatedUser (Some p) => Ok p
  end.

Record Request (A : Type) := mkRequest {
  user : User;
  session : Session;
  data : A
}.
Arguments mkRequest {A} user session data.
Arguments user {A} r.
Arguments session {A} r.
Arguments data {A} r.

(** The messages of a serializer's [errors]. *)
Inductive ErrorDetail :=
| required
| blank
| max_length (n : Z)
| null_characters
| max_digits (n : Z)
| message (msg : string).

Inductive Body :=
| NoBody
| Detail (detail : string)
| OrderId (orderId : Z)
| Errors (errors : list (string * ErrorDetail)).

Record Response := mkResponse {
  status_code : Z;
  body : Body
}.

Definition HTTP_200_OK : Z := 200.
Definition HTTP_201_CREATED : Z := 201.
Definition HTTP_400_BAD_REQUEST : Z := 400.
Definition HTTP_403_FORBIDDEN : Z := 403.
Definition HTTP_404_NOT_FOUND : Z := 404.

(** What a view leaves behind: its response or the exception it raised,
    the database and the session. *)
Record Served := mkServed {
  outcome : Result Response;
  db_after : DB;
  session_after : Session
}.

(** ** Serializer fields (rest_framework, as configured by the models)

A field receives the string of the request after [CharField] has
stripped surrounding white space. Every model column here is
[blank=False], so the empty string is refused; [max_length] is the
column's; a [CharField] also refuses null characters. Of the messages
of a field the first is kept. *)

Inductive Validated (A : Type) :=
| Valid (a : A)
| Invalid (e : ErrorDetail).
Arguments Valid {A} a.
Arguments Invalid {A} e.

Definition CharField (max_len : Z) (value : string) : Validated string :=
  if (value =? "")%string then Invalid blank
  else if max_len <? Py.len value then Invalid (max_length max_len)
  else if Py.has_null value then Invalid null_characters
  else Valid value.

(** [DecimalField(max_digits=n, decimal_places=2)] on a value that is
    given in hundredths: at most [n] digits in total ([max_digits]
    stands for the precision messages of the field). *)
Definition DecimalField (n : Z) (value : Decimal) : Validated Decimal :=
  if Z.abs value <? 10 ^ n then Valid value else Invalid (max_digits n).

(** A required field followed by the serializer's [validate_<name>]. *)
Definition required_field {A : Type} (field : A -> Validated A)
    (validate_method : A -> Validated A) (raw : option A) : Validated A :=
  match raw with
  | None => Invalid required
  | Some v =>
      match field v with
      | Valid v' => validate_method v'
      | Invalid e => Invalid e
      end
  end.

(** The same when the [validate_<name>] method can raise an exception
    that is no validation error. *)
Definition required_field_raising {A : Type} (field : A -> Validated A)
    (validate_method : A -> Result (Validated A)) (raw : option A)
  : Result (Validated A) :=
  match raw with
  | None => Ok (Invalid required)
  | Some v =>
      match field v with
      | Valid v' => validate_method v'
      | Invalid e => Ok (Invalid e)
      end
  end.

(** Under [partial=True] a field that is absent is skipped. *)
Definition partial_field {A : Type} (field : A -> Validated A)
    (raw : option A) : Validated (option A) :=
  match raw with
  | None => Valid None
  | Some v =>
      match field v with
      | Valid v' => Valid (Some v')
      | Invalid e => Invalid e
      end
  end.

Definition field_error {A : Type} (name : string) (v : Validated A)
  : list (string * ErrorDetail) :=
  match v with
  | Valid _ => []
  | Invalid e => [(name, e)]
  end.

(** ** PaymentSerializer (shopapp/serializers.py) *)

Module PaymentSerializer.

(** [request.data]: each key present or not. *)
Record Data := mkData {
  number : option string;
  name : option string;
  year : option string;
  month : option string;
  code : option string
}.

Record ValidatedData := mkValidatedData {
  v_number : string;
  v_name : string;
  v_year : string;
  v_month : string;
  v_code : string
}.

Definition validate_year (value : string) : Validated string :=
  if negb (Py.isdigit value) || negb (Py.len value =? 4)
  then Invalid (message "Expiry year must be a 4-digit number.")
  else Valid value.

(** [not value.isdigit() or not (1 <= int(value) <= 12)]: [int] is
    called on a string of digits only, and raises ValueError when one of
    them has no decimal value. *)
Definition validate_month (value : string) : Result (Validated string) :=
  if negb (Py.isdigit value)
  then Ok (Invalid (message "Expiry month must be a number between 01 and 12."))
  else
    match Py.int value with
    | Raise e => Raise e
    | Ok n =>
        if negb ((1 <=? n) && (n <=? 12))
        then Ok (Invalid (message "Expiry month must be a number between 01 and 12."))
        else Ok (Valid value)
    end.

Definition validate_code (value : string) : Validated string :=
  if negb (Py.isdigit value)
     || negb ((3 <=? Py.len value) && (Py.len value <=? 4))
  then Invalid (message "CVV must be a 3 or 4-digit number.")
  else Valid value.

(** The five fields of [Meta.fields], in their order, with the
    [max_length] of the columns of [Payment]. *)
Definition number_field (d : Data) : Validated string :=
  required_field (CharField 8) Valid (number d).
Definition name_field (d : Data) : Validated string :=
  required_field (CharField 100) Valid (name d).
Definition year_field (d : Data) : Validated string :=
  required_field (CharField 4) validate_year (year d).
Definition month_field (d : Data) : Result (Validated string) :=
  required_field_raising (CharField 2) validate_month (month d).
Definition code_field (d : Data) : Validated string :=
  required_field (CharField 4) validate_code (code d).

(** [serializer.errors]: one entry per failing field (none for the
    month when its validation raised: there are no errors to read
    then). *)
Definition errors (d : Data) : list (string * ErrorDetail) :=
  field_error "number" (number_field d) ++ field_error "name" (name_field d)
  ++ field_error "year" (year_field d)
  ++ match month_field d with
     | Ok v => field_error "month" v
     | Raise _ => []
     end
  ++ field_error "code" (code_field d).

(** The validation of [is_valid()]: the errors or the validated data,
    or the exception of [validate_month], which leaves the loop over
    the fields. *)
Definition run_validation (d : Data)
  : Result (list (string * ErrorDetail) + ValidatedData) :=
  match month_field d with
  | Raise e => Raise e
  | Ok month_value =>
      match number_field d, name_field d, year_field d, month_value, code_field d with
      | Valid n, Valid m, Valid y, Valid mo, Valid c =>
          Ok (inr {| v_number := n; v_name := m; v_year := y; v_month := mo;
                     v_code := c |})
      | _, _, _, _, _ => Ok (inl (errors d))
      end
  end.

Definition is_valid (d : Data) : Result bool :=
  match run_validation d with
  | Ok (inr _) => Ok true
  | Ok (inl _) => Ok false
  | Raise e => Raise e
  end.

(** [create]: the payment row for the order of the context. *)
Definition create (context_order : option Z) (v : ValidatedData) (db : DB)
  : Result DB :=
  match context_order with
  | None => Raise (KeyError "order")
  | Some order =>
      Ok (Payment_objects_create
            {| Payment.order := order; Payment.number := v_number v;
               Payment.name := v_name v; Payment.year := v_year v;
               Payment.month := v_month v; Payment.code := v_code v |} db)
  end.

(** [ModelSerializer.update(instance, validated_data)] runs
    [setattr(instance, attr, value)] for the five keys and then
    [instance.save()]. When the instance is an order, the five names
    are no columns of its table: the row that is saved is the one that
    was loaded. *)
Definition update (pk : Z) (instance : Order.t) (v : ValidatedData) (db : DB)
  : Result DB :=
  Order_save pk instance db.

(** [save()]: [update] when the serializer was built with an instance,
    [create] otherwise. *)
Definition save (instance : option (Z * Order.t)) (context_order : option Z)
    (v : ValidatedData) (db : DB) : Result DB :=
  match instance with
  | Some (pk, order) => update pk order v db
  | None => create context_order v db
  end.

End PaymentSerializer.

(** ** OrderConfirmSerializer (shopapp/serializers.py) *)

Module OrderConfirmSerializer.

(** The writable fields of [OrderSerializer.Meta.fields]. *)
Record Data := mkData {
  deliveryType : option string;
  paymentType : option string;
  totalCost : option Decimal;
  status : option string;
  city : option string;
  address : option string
}.

Definition set_totalCost (d : Data) (c : Decimal) : Data :=
  {| deliveryType := deliveryType d; paymentType := paymentType d;
     totalCost := Some c; status := status d; city := city d;
     address := address d |}.

(** The view builds the serializer with [partial=True]. *)
Definition deliveryType_field (d : Data) := partial_field (CharField 20) (deliveryType d).
Definition paymentType_field (d : Data) := partial_field (CharField 20) (paymentType d).
Definition totalCost_field (d : Data) := partial_field (DecimalField 13) (totalCost d).
Definition status_field (d : Data) := partial_field (CharField 20) (status d).
Definition city_field (d : Data) := partial_field (CharField 100) (city d).
Definition address_field (d : Data) := partial_field (CharField 100) (address d).

Definition errors (d : Data) : list (string * ErrorDetail) :=
  field_error "deliveryType" (deliveryType_field d)
  ++ field_error "paymentType" (paymentType_field d)
  ++ field_error "totalCost" (totalCost_field d)
  ++ field_error "status" (status_field d)
  ++ field_error "city" (city_field d)
  ++ field_error "address" (address_field d).

Definition to_internal_value (d : Data) : list (string * ErrorDetail) + Data :=
  match deliveryType_field d, paymentType_field d, totalCost_field d,
        status_field d, city_field d, address_field d with
  | Valid dt, Valid pt, Valid tc, Valid st, Valid ci, Valid ad =>
      inr {| deliveryType := dt; paymentType := pt; totalCost := tc;
             status := st; city := ci; address := ad |}
  | _, _, _, _, _, _ => inl (errors d)
  end.

(** [validate(data)]: the delivery fee rule. A missing key raises
    [KeyError]; a lookup that finds several rows raises too. *)
Definition validate (db : DB) (d : Data) : Result (Validated Data) :=
  match deliveryType d with
  | None => Raise (KeyError "deliveryType")
  | Some delivery_type =>
      match OrderDeliveryType_objects_get db delivery_type with
      | Raise (DoesNotExist _) =>
          Ok (Invalid (message ("Unsupported delivery type: " ++ delivery_type)%string))
      | Raise e => Raise e
      | Ok delivery_payment_parameters =>
          match totalCost d with
          | None => Raise (KeyError "totalCost")
          | Some total =>
              if (delivery_type =? "free")%string
                 && (OrderDeliveryType.min_cost delivery_payment_parameters <? total)
              then Ok (Valid d)
              else
                match decimal.add total (OrderDeliveryType.delivery_cost
                                           delivery_payment_parameters) with
                | Raise e => Raise e
                | Ok total' => Ok (Valid (set_totalCost d total'))
                end
          end
      end
  end.

(** [ModelSerializer.update]: every key of the validated data is set
    on the order. *)
Definition update (instance : Order.t) (d : Data) : Order.t :=
  {| Order.profile := Order.profile instance;
     Order.deliveryType := default (Order.deliveryType instance) (deliveryType d);
     Order.paymentType := default (Order.paymentType instance) (paymentType d);
     Order.totalCost := default (Order.totalCost instance) (totalCost d);
     Order.status := default (Order.status instance) (status d);
     Order.city := default (Order.city instance) (city d);
     Order.address := default (Order.address instance) (address d) |}.

End OrderConfirmSerializer.

(** ** The views (shopapp/views.py) *)

(** One entry of the posted product list: [product['id']] and
    [product['count']]. *)
Module ProductLine.
Record t := mk {
  id : Z;
  count : Z
}.
End ProductLine.

(** [permission_classes = [IsAuthenticated]]. *)
Definition IsAuthenticated (u : User) : bool :=
  match u with
  | AnonymousUser => false
  | AuthenticatedUser _ => true
  end.

(** The loop of [OrderView.post]: one [OrderItem] per posted line. The
    rows created before a failing product lookup or a refused quantity
    stay in the database that is returned with the exception. *)
Fixpoint create_order_items (order : Z) (products_data : list ProductLine.t)
    (db : DB) : option Exception * DB :=
  match products_data with
  | [] => (None, db)
  | product :: rest =>
      match Product_objects db !! ProductLine.id product with
      | None => (Some (DoesNotExist "Product"), db)
      | Some _ =>
          match OrderItem_objects_create
                  {| OrderItem.order := order;
                     OrderItem.product := ProductLine.id product;
                     OrderItem.quantity := ProductLine.count product |} db with
          | Raise e => (Some e, db)
          | Ok db' => create_order_items order rest db'
          end
      end
  end.

(** The order the checkout works on: the one named by the session key
    ['order_id'] when that key is present, a new one otherwise. *)
Definition checkout_order (request : Request (list ProductLine.t)) (db : DB)
  : Result (Z * Order.t) * DB :=
  match session_order_id (session request) with
  | Some pk =>
      match Order_objects db !! pk with
      | Some order => (Ok (pk, order), db)
      | None => (Raise (DoesNotExist "Order"), db)
      end
  | None =>
      match user_profile (user request) with
      | Ok p =>
          let '(pk, db1) := Order_objects_create (Some p) db in
          (Ok (pk, Order.create (Some p)), db1)
      | Raise e => (Raise e, db)
      end
  end.

(** [OrderView.post]. The view declares no permission class. *)
Definition OrderView_post (request : Request (list ProductLine.t)) (db : DB)
  : Served :=
  let products_data := data request in
  let '(session1, cart) := Cart_init (session request) in
  match checkout_order request db with
  | (Raise e, db1) =>
      {| outcome := Raise e; db_after := db1; session_after := session1 |}
  | (Ok (pk, order), db1) =>
      match create_order_items pk products_data db1 with
      | (Some e, db2) =>
          {| outcome := Raise e; db_after := db2; session_after := session1 |}
      | (None, db2) =>
          match Cart.get_cart_total cart with
          | Raise e =>
              {| outcome := Raise e; db_after := db2; session_after := session1 |}
          | Ok total =>
              let order1 := Order.set_totalCost order total in
              let order2 := Order.set_status order1 "accepted" in
              match Order_save pk order2 db2 with
              | Raise e =>
                  {| outcome := Raise e; db_after := db2; session_after := session1 |}
              | Ok db3 =>
                  {| outcome := Ok {| status_code := HTTP_201_CREATED;
                                      body := OrderId pk |};
                     db_after := db3;
                     session_after := {| session_cart := Some EmptyDict;
                                         session_order_id := None |} |}
              end
          end
      end
  end.

(** [OrderDetailView.post]. *)
Definition OrderDetailView_post (pk : Z)
    (request : Request OrderConfirmSerializer.Data) (db : DB) : Served :=
  let stop (r : Result Response) :=
    {| outcome := r; db_after := db; session_after := session request |} in
  if negb (IsAuthenticated (user request)) then stop (Raise NotAuthenticated)
  else
    match Order_objects db !! pk with
    | None =>
        stop (Ok {| status_code := HTTP_404_NOT_FOUND;
                    body := Detail "Order not found." |})
    | Some order =>
        match user_profile (user request) with
        | Raise e => stop (Raise e)
        | Ok p =>
            if negb (bool_decide (Order.profile order = Some p))
            then stop (Raise (PermissionDenied
                         "You do not have permission to update this order."))
            else if (Order.status order =? "paid")%string
            then stop (Ok {| status_code := HTTP_403_FORBIDDEN;
                             body := Detail "Paid orders cannot be updated." |})
            else
              match OrderConfirmSerializer.to_internal_value (data request) with
              | inl errs =>
                  stop (Ok {| status_code := HTTP_400_BAD_REQUEST;
                              body := Errors errs |})
              | inr d =>
                  match OrderConfirmSerializer.validate db d with
                  | Raise e => stop (Raise e)
                  | Ok (Invalid e) =>
                      stop (Ok {| status_code := HTTP_400_BAD_REQUEST;
                                  body := Errors [("non_field_errors", e)] |})
                  | Ok (Valid d') =>
                      let order1 := OrderConfirmSerializer.update order d' in
                      match Order_save pk order1 db with
                      | Raise e => stop (Raise e)
                      | Ok db1 =>
                          let order2 := Order.set_status order1 "confirmed" in
                          match Order_save pk order2 db1 with
                          | Raise e =>
                              {| outcome := Raise e; db_after := db1;
                                 session_after := session request |}
                          | Ok db2 =>
                              {| outcome := Ok {| status_code := HTTP_200_OK;
                                                  body := NoBody |};
                                 db_after := db2;
                                 session_after := session request |}
                          end
                      end
                  end
              end
        end
    end.

(** [PaymentView.post]. The serializer is built as
    [PaymentSerializer(order, data=request.data)]: the order is its
    instance and its context is empty. *)
Definition PaymentView_post (pk : Z)
    (request : Request PaymentSerializer.Data) (db : DB) : Served :=
  let stop (r : Result Response) :=
    {| outcome := r; db_after := db; session_after := session request |} in
  if negb (IsAuthenticated (user request)) then stop (Raise NotAuthenticated)
  else
    match Order_objects db !! pk with
    | None =>
        stop (Ok {| status_code := HTTP_404_NOT_FOUND;
                    body := Detail "Order not found." |})
    | Some order =>
        match user_profile (user request) with
        | Raise e => stop (Raise e)
        | Ok p =>
            if negb (bool_decide (Order.profile order = Some p))
            then stop (Raise (PermissionDenied
                   "You do not have permission to confirm payment for this order."))
            else if (Order.status order =? "paid")%string
            then stop (Ok {| status_code := HTTP_403_FORBIDDEN;
                             body := Detail "Paid orders cannot be updated." |})
            else
              match PaymentSerializer.run_validation (data request) with
              | Raise e => stop (Raise e)
              | Ok (inl errs) =>
                  stop (Ok {| status_code := HTTP_400_BAD_REQUEST;
                              body := Errors errs |})
              | Ok (inr v) =>
                  match PaymentSerializer.save (Some (pk, order)) None v db with
                  | Raise e => stop (Raise e)
                  | Ok db1 =>
                      let order1 := Order.set_status order "paid" in
                      match Order_save pk order1 db1 with
                      | Raise e =>
                          {| outcome := Raise e; db_after := db1;
                             session_after := session request |}
                      | Ok db2 =>
                          {| outcome := Ok {| status_code := HTTP_200_OK;
                                              body := NoBody |};
                             db_after := db2;
                             session_after := session request |}
                      end
                  end
              end
        end
    end.

(** ** Dispatch

    [APIView.handle_exception] turns the exceptions of the framework
    into responses and lets every other exception through (a server
    error). With [ATOMIC_REQUESTS] the database work of a request that
    raised is rolled back; the views open no transaction themselves and
    the setting's default is off. The session of a request that ends in
    a server error is not saved. *)
Definition handle_exception (e : Exception) : Result Response :=
  match e with
  | PermissionDenied detail =>
      Ok {| status_code := HTTP_403_FORBIDDEN; body := Detail detail |}
  | NotAuthenticated =>
      Ok {| status_code := HTTP_403_FORBIDDEN;
            body := Detail "Authentication credentials were not provided." |}
  | _ => Raise e
  end.

Definition dispatch (ATOMIC_REQUESTS : bool) (db : DB) (s : Session)
    (served : Served) : Served :=
  match outcome served with
  | Ok _ => served
  | Raise e =>
      let db' := if ATOMIC_REQUESTS then db else db_after served in
      match handle_exception e with
      | Ok response =>
          {| outcome := Ok response; db_after := db';
             session_after := session_after served |}
      | Raise e' =>
          {| outcome := Raise e'; db_after := db'; session_after := s |}
      end
  end.

(** The core operations: checkout, confirmation and payment. *)
Inductive CoreOp :=
| Checkout (request : Request (list ProductLine.t))
| Confirmation (pk : Z) (request : Request OrderConfirmSerializer.Data)
| Pay (pk : Z) (request : Request PaymentSerializer.Data).

Definition op_session (op : CoreOp) : Session :=
  match op with
  | Checkout request => session request
  | Confirmation _ request => session request
  | Pay _ request => session request
  end.

Definition serve (ATOMIC_REQUESTS : bool) (op : CoreOp) (db : DB) : Served :=
  dispatch ATOMIC_REQUESTS db (op_session op)
    match op with
    | Checkout request => OrderView_post request db
    | Confirmation pk request => OrderDetailView_post pk request db
    | Pay pk request => PaymentView_post pk request db
    end.

(** ** The system: the database and the session store

    A call names the session of its client by its key; a key without an
    entry is a fresh session. The call is served on the session stored
    under the key, and the session it leaves is stored back. *)
Record World := mkWorld {
  world_db : DB;
  world_sessions : gmap Z Session
}.

Definition fresh_session : Session :=
  {| session_cart := None; session_order_id := None |}.

Inductive CoreCall :=
| CheckoutCall (session_key : Z) (u : User) (products_data : list ProductLine.t)
| ConfirmationCall (session_key : Z) (u : User) (pk : Z)
    (order_data : OrderConfirmSerializer.Data)
| PayCall (session_key : Z) (u : User) (pk : Z) (card : PaymentSerializer.Data).

Definition call_session_key (c : CoreCall) : Z :=
  match c with
  | CheckoutCall k _ _ => k
  | ConfirmationCall k _ _ _ => k
  | PayCall k _ _ _ => k
  end.

Definition call_op (c : CoreCall) (s : Session) : CoreOp :=
  match c with
  | CheckoutCall _ u products_data => Checkout (mkRequest u s products_data)
  | ConfirmationCall _ u pk order_data => Confirmation pk (mkRequest u s order_data)
  | PayCall _ u pk card => Pay pk (mkRequest u s card)
  end.

Definition world_step (ATOMIC_REQUESTS : bool) (w : World) (c : CoreCall) : World :=
  let key := call_session_key c in
  let s := default fresh_session (world_sessions w !! key) in
  let served := serve ATOMIC_REQUESTS (call_op c s) (world_db w) in
  {| world_db := db_after served;
     world_sessions := <[key := session_after served]> (world_sessions w) |}.

(** A sequence of core operations, applied from left to right. *)
Definition world_run (ATOMIC_REQUESTS : bool) (cs : list CoreCall) (w : World)
  : World :=
  fold_left (world_step ATOMIC_REQUESTS) cs w.

(** The order of the states of an order: accepted, confirmed, paid. *)
Definition status_rank (s : string) : Z :=
  if (s =? "accepted")%string then 1
  else if (s =? "confirmed")%string then 2
  else if (s =? "paid")%string then 3
  else 0.

(** ** A running example

Two products, the free delivery rule of the tests (free above
2000.00, fee 200.00), one confirmed order (key 1) of profile 7 and
one paid order (key 2) of the same profile. *)

Definition example_order (st : string) : Order.t :=
  {| Order.profile := Some 7; Order.deliveryType := "";
     Order.paymentType := ""; Order.totalCost := 5000; Order.status := st;
     Order.city := ""; Order.address := "" |}.

Definition example_db : DB :=
  {| vendor := sqlite;
     Product_objects := {[ 1 := Product.mk "Test product 1" 10 1000;
                           2 := Product.mk "Test product 2" 10 3000 ]};
     Order_objects := {[ 1 := example_order "confirmed";
                         2 := example_order "paid" ]};
     Order_next_pk := 3;
     OrderItem_objects := [];
     OrderDeliveryType_objects := [OrderDeliveryType.mk "free" 200000 20000];
     Payment_objects := [] |}.

Definition empty_session : Session := fresh_session.

Definition example_card : PaymentSerializer.Data :=
  {| PaymentSerializer.number := Some "12345678";
     PaymentSerializer.name := Some "Annoying Orange";
     PaymentSerializer.year := Some "2025";
     PaymentSerializer.month := Some "02";
     PaymentSerializer.code := Some "123" |}.

Definition example_confirmation (total : Decimal) : OrderConfirmSerializer.Data :=
  {| OrderConfirmSerializer.deliveryType := Some "free";
     OrderConfirmSerializer.paymentType := Some "online";
     OrderConfirmSerializer.totalCost := Some total;
     OrderConfirmSerializer.status := None;
     OrderConfirmSerializer.city := Some "London";
     OrderConfirmSerializer.address := Some "221b, Baker str." |}.

(** ** Predicates of the specification *)

Definition PAID_DETAIL : string := "Paid orders cannot be updated.".

Definition forbidden (served : Served) : Prop :=
  exists detail,
    outcome served = Ok {| status_code := HTTP_403_FORBIDDEN; body := Detail detail |}.


(** A string of between [lo] and [hi] characters, all of them digits
    (the characters for which [isdigit] holds: the decimal digits of
    every script, and digits such as superscripts). *)
Definition digits (lo hi : nat) (s : string) : Prop :=
  Forall (fun c => Py.isdigit_char c = true) (Py.decode s)
  /\ (lo <= length (Py.decode s) <= hi)%nat.

(** A string all of whose characters are decimal digits, which writes
    the number [n]. *)
Definition writes (s : string) (n : Z) : Prop :=
  Forall (fun c => is_Some (Py.decimal c)) (Py.decode s)
  /\ Py.int s = Ok n.

(** A field that is present, not blank, of at most [n] characters and
    without a null character. *)
Definition text (n : nat) (o : option string) : Prop :=
  exists s, o = Some s /\ (1 <= length (Py.decode s) <= n)%nat
            /\ Forall (fun c => c <> 0) (Py.decode s).

(** The card payloads of the specification: a year of exactly 4 digits,
    a month of exactly 2 digits with value 1 to 12, a code of 3 or 4
    digits. *)
Definition year_ok (o : option string) : Prop :=
  exists y, o = Some y /\ digits 4 4 y.
Definition code_ok (o : option string) : Prop :=
  exists c, o = Some c /\ digits 3 4 c.


(** The card payloads the serializer accepts: the month may also have a
    single digit, and the number and the name must fit their columns. *)
Definition month_ok (o : option string) : Prop :=
  exists m n, o = Some m /\ digits 1 2 m /\ writes m n /\ 1 <= n <= 12.

(** A month for which the validation does not end: one or two digits of
    which one has no decimal value (a superscript two, say), so that
    [int] raises. *)
Definition month_raises (o : option string) : Prop :=
  exists m, o = Some m /\ digits 1 2 m
            /\ Exists (fun c => Py.decimal c = None) (Py.decode m).

Definition accepted_card (d : PaymentSerializer.Data) : Prop :=
  text 8 (PaymentSerializer.number d)
  /\ text 100 (PaymentSerializer.name d)
  /\ year_ok (PaymentSerializer.year d)
  /\ month_ok (PaymentSerializer.month d)
  /\ code_ok (PaymentSerializer.code d).

Definition month_7_card : PaymentSerializer.Data :=
  {| PaymentSerializer.number := Some "12345678";
     PaymentSerializer.name := Some "Annoying Orange";
     PaymentSerializer.year := Some "2025";
     PaymentSerializer.month := Some "7";
     PaymentSerializer.code := Some "123" |}.

Definition long_number_card : PaymentSerializer.Data :=
  {| PaymentSerializer.number := Some "123456789";
     PaymentSerializer.name := Some "Annoying Orange";
     PaymentSerializer.year := Some "2025";
     PaymentSerializer.month := Some "02";
     PaymentSerializer.code := Some "123" |}.

(** A month that is a digit without a decimal value: the superscript
    two. *)
Definition superscript_month_card : PaymentSerializer.Data :=
  {| PaymentSerializer.number := Some "12345678";
     PaymentSerializer.name := Some "Annoying Orange";
     PaymentSerializer.year := Some "2025";
     PaymentSerializer.month := Some (Py.chr 178);
     PaymentSerializer.code := Some "123" |}.

(** A year and a month in Arabic-Indic digits: 2025 and 12. *)
Definition arabic_indic_card : PaymentSerializer.Data :=
  {| PaymentSerializer.number := Some "12345678";
     PaymentSerializer.name := Some "Annoying Orange";
     PaymentSerializer.year :=
       Some (Py.chr 1634 ++ Py.chr 1632 ++ Py.chr 1634 ++ Py.chr 1637)%string;
     PaymentSerializer.month := Some (Py.chr 1633 ++ Py.chr 1634)%string;
     PaymentSerializer.code := Some "123" |}.





(** The delivery pricing rules for a delivery type. *)
Definition no_rule (db : DB) (ty : string) : Prop :=
  Forall (fun r => OrderDeliveryType.type r <> ty) (OrderDeliveryType_objects db).

(** The fee of the specification: waived when the type is the free type
    and the subtotal exceeds the rule's minimum, the rule's delivery cost
    otherwise. *)
Definition delivery_fee (ty : string) (rule : OrderDeliveryType.t)
    (subtotal : Decimal) : Decimal :=
  if decide (ty = "free" /\ OrderDeliveryType.min_cost rule < subtotal)
  then 0
  else OrderDeliveryType.delivery_cost rule.

(** The order after a confirmation with the validated data [d], of
    delivery type [ty], and the total [total]. *)
Definition confirmed_order (order : Order.t) (d : OrderConfirmSerializer.Data)
    (ty : string) (total : Decimal) : Order.t :=
  {| Order.profile := Order.profile order;
     Order.deliveryType := ty;
     Order.paymentType :=
       default (Order.paymentType order) (OrderConfirmSerializer.paymentType d);
     Order.totalCost := total;
     Order.status := "confirmed";
     Order.city := default (Order.city order) (OrderConfirmSerializer.city d);
     Order.address := default (Order.address order) (OrderConfirmSerializer.address d) |}.

(** The keys of the order table are below the next key, and every order
    item points to such a key. *)
Definition db_wf (db : DB) : Prop :=
  (forall pk, Order_next_pk db <= pk -> Order_objects db !! pk = None)
  /\ Forall (fun i => OrderItem.order i < Order_next_pk db) (OrderItem_objects db).



(** A checkout whose first line has a negative count and whose second
    line names a product that does not exist. *)
Definition negative_count_checkout : Request (list ProductLine.t) :=
  mkRequest (AuthenticatedUser (Some 7)) empty_session
    [ProductLine.mk 1 (-1); ProductLine.mk 9 1].

(** The order item of a posted line, and the items of an order. *)
Definition line_item (order : Z) (l : ProductLine.t) : OrderItem.t :=
  {| OrderItem.order := order;
     OrderItem.product := ProductLine.id l;
     OrderItem.quantity := ProductLine.count l |}.

Definition order_items_of (order : Z) (db : DB) : list OrderItem.t :=
  List.filter (fun i => OrderItem.order i =? order) (OrderItem_objects db).

Definition add_items (db : DB) (items : list OrderItem.t) : DB :=
  {| vendor := vendor db;
     Product_objects := Product_objects db;
     Order_objects := Order_objects db;
     Order_next_pk := Order_next_pk db;
     OrderItem_objects := OrderItem_objects db ++ items;
     OrderDeliveryType_objects := OrderDeliveryType_objects db;
     Payment_objects := Payment_objects db |}.

(** The order a checkout produces for profile [p] with the total
    [total]. *)
Definition accepted_order (p : Z) (total : Decimal) : Order.t :=
  {| Order.profile := Some p; Order.deliveryType := ""; Order.paymentType := "";
     Order.totalCost := total; Order.status := "accepted";
     Order.city := ""; Order.address := "" |}.


(** The cart of the specification's checkout example: two of product 1
    at 10.00 and one of product 2 at 30.00. *)
Definition example_cart : list Cart.Item :=
  [ {| Cart.product_id := "1";
       Cart.product_data := {| Cart.title := "Test product 1";
                               Cart.price := 1000; Cart.count := 2 |} |};
    {| Cart.product_id := "2";
       Cart.product_data := {| Cart.title := "Test product 2";
                               Cart.price := 3000; Cart.count := 1 |} |} ].

Definition example_session : Session :=
  {| session_cart := Some (ItemsDict example_cart); session_order_id := None |}.

Definition example_checkout : Request (list ProductLine.t) :=
  mkRequest (AuthenticatedUser (Some 7)) example_session
    [ProductLine.mk 1 2; ProductLine.mk 2 1].



(** The invariant of C9 and the inputs under which the operations keep
    it. *)
Definition totalCost_nonneg (db : DB) : Prop :=
  forall pk o, Order_objects db !! pk = Some o -> 0 <= Order.totalCost o.

Definition cart_lines_nonneg (cart : list Cart.Item) : Prop :=
  Forall (fun i => 0 <= Cart.price (Cart.product_data i)
                   /\ 0 <= Cart.count (Cart.product_data i)) cart.

Definition nonneg_inputs (op : CoreOp) (db : DB) : Prop :=
  match op with
  | Checkout request => cart_lines_nonneg (Cart_init (session request)).2
  | Confirmation _ request =>
      (forall c, OrderConfirmSerializer.totalCost (data request) = Some c -> 0 <= c)
      /\ Forall (fun r => 0 <= OrderDeliveryType.delivery_cost r)
                (OrderDeliveryType_objects db)
  | Pay _ _ => True
  end.

(** The session of the operation names no order to check out again. *)
Definition no_pending_order (op : CoreOp) : Prop :=
  session_order_id (op_session op) = None.

(** Every order of [db] is still in [db'], in the same or a later
    state. *)
Definition moves_forward (db db' : DB) : Prop :=
  forall pk o,
    Order_objects db !! pk = Some o ->
    exists o', Order_objects db' !! pk = Some o'
               /\ status_rank (Order.status o) <= status_rank (Order.status o').

(** ** The cart of the specification *)

(** What [remove] is meant to do: the line of the product gets its
    count decreased and is dropped when the count is not positive. *)
Fixpoint remove_spec (items : list Cart.Item) (pid : string) (quantity : Z)
  : list Cart.Item :=
  match items with
  | [] => []
  | item :: rest =>
      if (Cart.product_id item =? pid)%string
      then
        if Cart.count (Cart.product_data item) - quantity <=? 0
        then rest
        else Cart.set_count item (Cart.count (Cart.product_data item) - quantity) :: rest
      else item :: remove_spec rest pid quantity
  end.

(** The sum over the lines of snapshot price times count. *)
Definition cart_sum (items : list Cart.Item) : Decimal :=
  foldr (fun item acc =>
           Cart.price (Cart.product_data item) * Cart.count (Cart.product_data item)
           + acc) 0 items.

(** The sum of the sizes of the lines: when it has at most 28 digits,
    no product and no partial sum of the total is rounded. *)
Definition cart_magnitude (items : list Cart.Item) : Z :=
  foldr (fun item acc =>
           Z.abs (Cart.price (Cart.product_data item)
                  * Cart.count (Cart.product_data item))
           + acc) 0 items.

(** At most one line per product id, and every count positive. *)
Definition cart_invariant (items : list Cart.Item) : Prop :=
  NoDup (Cart.product_id <$> items)
  /\ Forall (fun item => 0 < Cart.count (Cart.product_data item)) items.

Definition positive_call (c : Cart.Call) : Prop :=
  match c with
  | Cart.Add _ quantity => 0 < quantity
  | Cart.Remove _ quantity => 0 < quantity
  end.

(** The catalog of the cart tests: product 1 at 10.00 and product 2 at
    20.00. *)
Definition example_catalog (pid : string) : option Cart.ProductData :=
  if (pid =? "1")%string
  then Some {| Cart.title := "Product 1"; Cart.price := 1000; Cart.count := 100 |}
  else if (pid =? "2")%string
  then Some {| Cart.title := "Product 2"; Cart.price := 2000; Cart.count := 50 |}
  else None.

(** No session of the store names an order to check out again: nothing
    in the code base stores the session key ['order_id']. *)
Definition sessions_clean (sessions : gmap Z Session) : Prop :=
  forall key s, sessions !! key = Some s -> session_order_id s = None.

(** A world on the running example: one client, with the example cart. *)
Definition example_world : World :=
  {| world_db := example_db; world_sessions := {[ 100 := example_session ]} |}.

Definition example_checkout_call : list CoreCall :=
  [ CheckoutCall 100 (AuthenticatedUser (Some 7))
      [ProductLine.mk 1 2; ProductLine.mk 2 1] ].

Definition example_later_calls : list CoreCall :=
  [ ConfirmationCall 100 (AuthenticatedUser (Some 7)) 3 (example_confirmation 5000);
    PayCall 100 (AuthenticatedUser (Some 7)) 3 example_card;
    ConfirmationCall 100 (AuthenticatedUser (Some 7)) 3 (example_confirmation 5000) ].

(** A session that names the paid order of the example. *)
Definition pending_order_session : Session :=
  {| session_cart := None; session_order_id := Some 2 |}.
From stdpp Require Import pretty.

Open Scope string_scope.
Open Scope list_scope.
Open Scope Z_scope.

(** ** Further predicates *)

(** Every order of [db] is still in [db'], with the same owner. *)
Definition keeps_owner (db db' : DB) : Prop :=
  forall pk o,
    Order_objects db !! pk = Some o ->
    exists o', Order_objects db' !! pk = Some o'
               /\ Order.profile o' = Order.profile o.

(** A confirmation without the key ['deliveryType']. *)
Definition confirmation_without_type : OrderConfirmSerializer.Data :=
  {| OrderConfirmSerializer.deliveryType := None;
     OrderConfirmSerializer.paymentType := Some "online";
     OrderConfirmSerializer.totalCost := Some 5000;
     OrderConfirmSerializer.status := None;
     OrderConfirmSerializer.city := None;
     OrderConfirmSerializer.address := None |}.

(** The example database with a second rule for the type 'free'. *)
Definition two_rules_db : DB :=
  {| vendor := vendor example_db;
     Product_objects := Product_objects example_db;
     Order_objects := Order_objects example_db;
     Order_next_pk := Order_next_pk example_db;
     OrderItem_objects := OrderItem_objects example_db;
     OrderDeliveryType_objects :=
       [OrderDeliveryType.mk "free" 200000 20000;
        OrderDeliveryType.mk "free" 100000 10000];
     Payment_objects := Payment_objects example_db |}.


(** A key that the product lookup reads as a number: a string of
    decimal digits, not empty. *)
Definition number_key (pid : string) : Prop :=
  Py.isdigit pid = true /\ exists n, Py.int pid = Ok n.

(** ** The cart views (cart/views.py) *)

(** [Cart.save]: the cart is stored back in the session. *)
Definition Cart_save (s : Session) (items : list Cart.Item) : Session :=
  {| session_cart := Some (ItemsDict items);
     session_order_id := session_order_id s |}.

Module CartAPI.

(** [request.data] after the conversions of the view: [id] is the string
    that [str(...)] gives for the value under ['id'], [count] the integer
    that [int(...)] gives for the value under ['count']; [None] is a
    missing key. Values that [int] refuses are left out. *)
Record Data := mkData {
  id : option string;
  count : option Z
}.

Record Answer := mkAnswer {
  status_code : Z;
  products : list Cart.ProductData
}.

Record Served := mkServed {
  outcome : Result Answer;
  session_after : Session
}.

Definition get (request : Request unit) : Served :=
  let '(session1, cart) := Cart_init (session request) in
  {| outcome := Ok {| status_code := HTTP_200_OK;
                      products := Cart.get_cart_products cart |};
     session_after := session1 |}.

Definition post (catalog : string -> option Cart.ProductData)
    (request : Request Data) : Served :=
  let '(session1, cart) := Cart_init (session request) in
  match id (data request) with
  | None => {| outcome := Raise (KeyError "id"); session_after := session1 |}
  | Some product_id =>
      match count (data request) with
      | None => {| outcome := Raise (KeyError "count"); session_after := session1 |}
      | Some quantity =>
          match Cart.add catalog cart product_id quantity with
          | Raise e => {| outcome := Raise e; session_after := session1 |}
          | Ok cart' =>
              {| outcome := Ok {| status_code := HTTP_200_OK;
                                  products := Cart.get_cart_products cart' |};
                 session_after := Cart_save session1 cart' |}
          end
      end
  end.

Definition delete (request : Request Data) : Served :=
  let '(session1, cart) := Cart_init (session request) in
  match id (data request) with
  | None => {| outcome := Raise (KeyError "id"); session_after := session1 |}
  | Some product_id =>
      match count (data request) with
      | None => {| outcome := Raise (KeyError "count"); session_after := session1 |}
      | Some quantity =>
          let cart' := Cart.remove cart product_id quantity in
          {| outcome := Ok {| status_code := HTTP_200_OK;
                              products := Cart.get_cart_products cart' |};
             session_after := Cart_save session1 cart' |}
      end
  end.

(** The views raise no exception of the framework: an exception is a
    server error, and the session of such a request is not saved. *)
Definition dispatch (s : Session) (served : Served) : Served :=
  match outcome served with
  | Ok _ => served
  | Raise e => {| outcome := Raise e; session_after := s |}
  end.

Definition serve_get (request : Request unit) : Served :=
  dispatch (session request) (get request).

Definition serve_post (catalog : string -> option Cart.ProductData)
    (request : Request Data) : Served :=
  dispatch (session request) (post catalog request).

Definition serve_delete (request : Request Data) : Served :=
  dispatch (session request) (delete request).

End CartAPI.

(** ** Reading orders (OrderSerializer, OrderView.get, OrderDetailView.get)

    Of the representation of an order the key, the columns of the order
    and the products are kept; the display fields of the profile and the
    creation time are left out, as in the models. A product is
    represented by its key and its row. *)

Record OrderRepresentation := mkOrderRepresentation {
  repr_id : Z;
  repr_order : Order.t;
  repr_products : list (Z * Product.t)
}.

(** [[item.product for item in order_items]]: the product of each item,
    in the order of the items. *)
Fixpoint item_products (db : DB) (items : list OrderItem.t)
  : Result (list (Z * Product.t)) :=
  match items with
  | [] => Ok []
  | item :: rest =>
      match Product_objects db !! OrderItem.product item with
      | None => Raise (DoesNotExist "Product")
      | Some product =>
          match item_products db rest with
          | Ok products => Ok ((OrderItem.product item, product) :: products)
          | Raise e => Raise e
          end
      end
  end.

(** [OrderSerializer.get_products]. *)
Definition OrderSerializer_get_products (db : DB) (pk : Z)
  : Result (list (Z * Product.t)) :=
  item_products db
    (List.filter (fun i => OrderItem.order i =? pk) (OrderItem_objects db)).

Definition OrderSerializer_to_representation (db : DB) (row : Z * Order.t)
  : Result OrderRepresentation :=
  match OrderSerializer_get_products db row.1 with
  | Ok products =>
      Ok {| repr_id := row.1; repr_order := row.2; repr_products := products |}
  | Raise e => Raise e
  end.

(** [OrderSerializer(queryset, many=True).data]. *)
Fixpoint OrderSerializer_many (db : DB) (rows : list (Z * Order.t))
  : Result (list OrderRepresentation) :=
  match rows with
  | [] => Ok []
  | row :: rest =>
      match OrderSerializer_to_representation db row with
      | Raise e => Raise e
      | Ok r =>
          match OrderSerializer_many db rest with
          | Ok rs => Ok (r :: rs)
          | Raise e => Raise e
          end
      end
  end.

(** What a reading view answers: a list of orders, a refusal of the
    framework, or an exception. [Profile.objects.get(user=request.user)]
    raises TypeError for the anonymous user. *)
Inductive ReadOutcome :=
| Listed (status_code : Z) (orders : list OrderRepresentation)
| Refused (status_code : Z) (detail : string)
| ReadRaised (e : Exception)
| ReadTypeError.

Definition listed (r : Result (list OrderRepresentation)) : ReadOutcome :=
  match r with
  | Ok orders => Listed HTTP_200_OK orders
  | Raise e => ReadRaised e
  end.

(** [OrderView.get]: the orders of the profile of the user, in the
    order in which the table gives them. The view declares no
    permission class. *)
Definition OrderView_get (u : User) (db : DB) : ReadOutcome :=
  match u with
  | AnonymousUser => ReadTypeError
  | AuthenticatedUser None => ReadRaised (DoesNotExist "Profile")
  | AuthenticatedUser (Some p) =>
      listed (OrderSerializer_many db
                (List.filter
                   (fun row => bool_decide (Order.profile row.2 = Some p))
                   (map_to_list (Order_objects db))))
  end.

(** [OrderDetailView.get]: [Order.objects.filter(pk=order_id)],
    serialised with [many=True]. *)
Definition OrderDetailView_get (pk : Z) (u : User) (db : DB) : ReadOutcome :=
  if negb (IsAuthenticated u)
  then Refused HTTP_403_FORBIDDEN "Authentication credentials were not provided."
  else
    listed (OrderSerializer_many db
              match Order_objects db !! pk with
              | Some order => [(pk, order)]
              | None => []
              end).

(** Every order item points to a product of the table (the foreign key
    of the item, with its cascade). *)
Definition items_have_products (db : DB) : Prop :=
  Forall (fun i => is_Some (Product_objects db !! OrderItem.product i))
         (OrderItem_objects db).

(** The example database after the checkout of the example. *)
Definition checked_out_db : DB :=
  db_after (serve false (Checkout example_checkout) example_db).

(** What the representation of an order shows of a database: the key
    and the row of an order of the table, and the products of the items
    of that order, one per item and in their order. *)
Definition represents (db : DB) (r : OrderRepresentation) : Prop :=
  Order_objects db !! repr_id r = Some (repr_order r)
  /\ map fst (repr_products r)
     = map OrderItem.product (order_items_of (repr_id r) db)
  /\ Forall (fun row => Product_objects db !! row.1 = Some row.2) (repr_products r).


(** ** Categories (models.py) and the category filter of the catalog
    (views.py) *)

(** A file field: the name of its file, empty for no file (the empty
    string and [None] are both falsy), and whether the file is already
    in the storage. *)
Record FieldFile := mkFieldFile {
  file_name : string;
  committed : bool
}.

Module Category.

Record t := mk {
  pk : option Z;
  title : string;
  parent : option Z;
  src : FieldFile;
  alt : string
}.

End Category.

(** [current_category.subcategories.all()]: the categories whose parent
    is the given one (the source orders them by title; they go into a
    set). *)
Definition subcategories_all (categories : gmap Z Category.t) (pk : Z) : list Z :=
  (List.filter (fun row => bool_decide (Category.parent row.2 = Some pk))
     (map_to_list categories)).*1.

(** [list.pop()]: the last element, and the list without it. *)
Definition pop {A : Type} (l : list A) : option (list A * A) :=
  match rev l with
  | [] => None
  | x :: rest => Some (rev rest, x)
  end.

(** The loop of [CatalogFilter.get_all_subcategories]; [None] when the
    fuel runs out before the list of categories to check is empty. *)
Fixpoint get_all_subcategories_loop (fuel : nat) (categories : gmap Z Category.t)
    (categories_to_check : list Z) (subcategories : gset Z) : option (gset Z) :=
  match fuel with
  | O => None
  | S fuel =>
      match pop categories_to_check with
      | None => Some subcategories
      | Some (categories_to_check, current_category) =>
          get_all_subcategories_loop fuel categories
            (categories_to_check ++ subcategories_all categories current_category)
            (subcategories ∪ {[current_category]})
      end
  end.

Definition get_all_subcategories (fuel : nat) (categories : gmap Z Category.t)
    (category : Z) : option (gset Z) :=
  get_all_subcategories_loop fuel categories [category] ∅.

(** [CatalogFilter.filter_by_category] for an integer value, on the rows
    of a queryset given by the key of the product and its category
    column. *)
Definition filter_by_category (fuel : nat) (categories : gmap Z Category.t)
    (queryset : list (Z * option Z)) (value : Z) : option (list (Z * option Z)) :=
  match categories !! value with
  | None => Some []
  | Some _ =>
      match get_all_subcategories fuel categories value with
      | None => None
      | Some subcategories =>
          Some (List.filter
                  (fun product =>
                     match product.2 with
                     | Some category => bool_decide (category ∈ subcategories)
                     | None => false
                     end)
                  queryset)
      end
  end.

(** [has_subcategory categories p k]: category [k] of the table has
    parent [p]. *)
Definition has_subcategory (categories : gmap Z Category.t) (p k : Z) : Prop :=
  exists row, categories !! k = Some row /\ Category.parent row = Some p.

(** A table of categories without a cycle of parents. *)
Definition forest (categories : gmap Z Category.t) : Prop :=
  forall k, ~ tc (has_subcategory categories) k k.

Definition no_file : FieldFile := {| file_name := ""; committed := true |}.

Definition plain_category (title : string) (parent : option Z) : Category.t :=
  {| Category.pk := None; Category.title := title; Category.parent := parent;
     Category.src := no_file; Category.alt := "" |}.

(** Electronics (1) with Phones (2) and Laptops (3), Phones with
    Smartphones (4); Books (5) apart. *)
Definition example_categories : gmap Z Category.t :=
  <[1 := plain_category "Electronics" None]>
  (<[2 := plain_category "Phones" (Some 1)]>
  (<[3 := plain_category "Laptops" (Some 1)]>
  (<[4 := plain_category "Smartphones" (Some 2)]>
  (<[5 := plain_category "Books" None]> ∅)))).

(** Two categories that are each the parent of the other. *)
Definition looping_categories : gmap Z Category.t :=
  <[1 := plain_category "A" (Some 2)]> (<[2 := plain_category "B" (Some 1)]> ∅).

(** What the categories [todo] on top of the list to check contribute:
    after some steps the loop is where it would be without them, with
    the set [s] added. *)
Definition contributes (categories : gmap Z Category.t) (todo : list Z)
    (s : gset Z) : Prop :=
  exists n, forall rest subcategories fuel,
    get_all_subcategories_loop (n + fuel) categories (rest ++ todo) subcategories
    = get_all_subcategories_loop fuel categories rest (subcategories ∪ s).

(** A category from which a cycle of parents can be reached. *)
Definition reaches_cycle (categories : gmap Z Category.t) (x : Z) : Prop :=
  exists y, rtc (has_subcategory categories) x y /\ tc (has_subcategory categories) y y.

(** ** Saving images (models.py)

    [ProductImage.save] and [Category.save] call [Model.save] of the
    framework zero, one or two times. The tables are those of the two
    models; foreign keys are taken to point to existing rows. *)

Module os_path.

(** [p.rfind(c)]: the index of the last [c] in [p], [-1] when there is
    none. *)
Fixpoint rfind_from (c : ascii) (p : string) (i found : Z) : Z :=
  match p with
  | EmptyString => found
  | String x rest => rfind_from c rest (i + 1) (if Ascii.eqb x c then i else found)
  end.

Definition rfind (c : ascii) (p : string) : Z := rfind_from c p 0 (-1).

(** [p[i:]] and [p[:i]] for [0 <= i]. *)
Definition slice_from (i : Z) (p : string) : string :=
  String.substring (Z.to_nat i) (String.length p - Z.to_nat i) p.

Definition slice_to (i : Z) (p : string) : string :=
  String.substring 0 (Z.to_nat i) p.

Definition basename (p : string) : string :=
  slice_from (rfind "/" p + 1) p.

(** [filenameIndex] runs from [sepIndex + 1] up to [dotIndex]: the name
    is split at its last dot when a character before that dot is not a
    dot. *)
Fixpoint has_other_than_dot (p : string) : bool :=
  match p with
  | EmptyString => false
  | String x rest => negb (Ascii.eqb x ".") || has_other_than_dot rest
  end.

Definition splitext (p : string) : string * string :=
  let sepIndex := rfind "/" p in
  let dotIndex := rfind "." p in
  if (dotIndex >? sepIndex)
     && has_other_than_dot
          (String.substring (Z.to_nat (sepIndex + 1))
             (Z.to_nat dotIndex - Z.to_nat (sepIndex + 1)) p)
  then (slice_to dotIndex p, slice_from dotIndex p)
  else (p, "").

End os_path.

(** The keyword arguments of [save] that matter here. *)
Record SaveKwargs := mkSaveKwargs {
  force_insert : bool;
  force_update : bool
}.

Record Table (A : Type) := mkTable {
  rows : gmap Z A;
  next_pk : Z
}.

Arguments mkTable {A} _ _.
Arguments rows {A} _.
Arguments next_pk {A} _.

(** [FileField.pre_save]: a file that is not yet in the storage is
    stored under the name that [upload_to] makes of its name;
    [storage_save] is the name under which the storage keeps it. *)
Definition FileField_pre_save (storage_save : string -> string)
    (upload_to : string -> string) (file : FieldFile) : FieldFile :=
  if negb (file_name file =? "")%string && negb (committed file)
  then {| file_name := storage_save (upload_to (file_name file)); committed := true |}
  else file.

Section ModelSave.

Context {A : Type}.
Variable get_pk : A -> option Z.
Variable set_pk : Z -> A -> A.
Variable pre_save : A -> A.

Definition INSERT (k : Z) (instance : A) (table : Table A) : (Exception + A) * Table A :=
  let instance := set_pk k (pre_save instance) in
  (inr instance,
   {| rows := <[k := instance]> (rows table);
      next_pk := Z.max (next_pk table) (k + 1) |}).

(** [Model.save] with its keyword arguments [force_insert] and
    [force_update]: what it returns (the instance, as it is afterwards)
    or raises, and the table afterwards. An instance without a key is
    inserted under the next key of the table; one with a key is updated
    when its row exists and inserted otherwise (the next key then moves
    past it, as with SQLite). No transaction is open around the call: a
    row written before an exception is raised stays. *)
Definition Model_save (kwargs : SaveKwargs) (instance : A) (table : Table A)
  : (Exception + A) * Table A :=
  if force_insert kwargs && force_update kwargs
  then (inl (ValueError "Cannot force both insert and updating in model saving."), table)
  else
    match get_pk instance with
    | None =>
        if force_update kwargs
        then (inl (ValueError "Cannot force an update in save() with no primary key."),
              table)
        else INSERT (next_pk table) instance table
    | Some k =>
        if force_insert kwargs
        then
          match rows table !! k with
          | Some _ => (inl IntegrityError, table)
          | None => INSERT k instance table
          end
        else
          match rows table !! k with
          | Some _ =>
              let instance := pre_save instance in
              (inr instance, {| rows := <[k := instance]> (rows table);
                                next_pk := next_pk table |})
          | None =>
              if force_update kwargs
              then (inl (DatabaseError "Forced update did not affect any rows."), table)
              else INSERT k instance table
          end
    end.

End ModelSave.

(** [not self.pk]: no key, or the key 0. *)
Definition no_pk (pk : option Z) : bool :=
  match pk with
  | Some k => k =? 0
  | None => true
  end.

Definition with_force_update (kwargs : SaveKwargs) : SaveKwargs :=
  {| force_insert := force_insert kwargs; force_update := true |}.

Module ProductImage.

Record t := mk {
  pk : option Z;
  product : Z;
  src : FieldFile;
  alt : string
}.

Definition set_pk (k : Z) (self : t) : t :=
  {| pk := Some k; product := product self; src := src self; alt := alt self |}.

Definition set_src (file : FieldFile) (self : t) : t :=
  {| pk := pk self; product := product self; src := file; alt := alt self |}.

Definition set_alt (value : string) (self : t) : t :=
  {| pk := pk self; product := product self; src := src self; alt := value |}.

End ProductImage.

(** [product_images_directory_path]. *)
Definition product_images_directory_path (instance : ProductImage.t)
    (filename : string) : string :=
  "products/product_" ++ pretty (ProductImage.product instance) ++ "/images/" ++ filename.

(** [str(instance.pk)] in an f-string. *)
Definition str_pk (pk : option Z) : string :=
  match pk with
  | Some k => pretty k
  | None => "None"
  end.

Definition Category_set_pk (k : Z) (self : Category.t) : Category.t :=
  {| Category.pk := Some k; Category.title := Category.title self;
     Category.parent := Category.parent self; Category.src := Category.src self;
     Category.alt := Category.alt self |}.

Definition Category_set_src (file : FieldFile) (self : Category.t) : Category.t :=
  {| Category.pk := Category.pk self; Category.title := Category.title self;
     Category.parent := Category.parent self; Category.src := file;
     Category.alt := Category.alt self |}.

Definition Category_set_alt (value : string) (self : Category.t) : Category.t :=
  {| Category.pk := Category.pk self; Category.title := Category.title self;
     Category.parent := Category.parent self; Category.src := Category.src self;
     Category.alt := value |}.

Definition Category_set_title (value : string) (self : Category.t) : Category.t :=
  {| Category.pk := Category.pk self; Category.title := value;
     Category.parent := Category.parent self; Category.src := Category.src self;
     Category.alt := Category.alt self |}.

(** [category_image_directory_path]. *)
Definition category_image_directory_path (instance : Category.t)
    (filename : string) : string :=
  "categories/category_" ++ str_pk (Category.pk instance) ++ "/images/" ++ filename.

(** [os.path.splitext(os.path.basename(name))[0]]. *)
Definition stem (name : string) : string :=
  (os_path.splitext (os_path.basename name)).1.

Section Storage.

Variable storage_save : string -> string.

Definition ProductImage_pre_save (self : ProductImage.t) : ProductImage.t :=
  ProductImage.set_src
    (FileField_pre_save storage_save (product_images_directory_path self)
       (ProductImage.src self))
    self.

Definition ProductImage_Model_save :=
  Model_save ProductImage.pk ProductImage.set_pk ProductImage_pre_save.

(** [ProductImage.save]. *)
Definition ProductImage_save (kwargs : SaveKwargs) (self : ProductImage.t)
    (table : Table ProductImage.t) : (Exception + ProductImage.t) * Table ProductImage.t :=
  let first :=
    if no_pk (ProductImage.pk self)
    then ProductImage_Model_save kwargs self table
    else (inr self, table) in
  match first with
  | (inl e, table) => (inl e, table)
  | (inr self, table) =>
      if negb (file_name (ProductImage.src self) =? "")%string
         && (ProductImage.alt self =? "")%string
      then
        let self := ProductImage.set_alt (stem (file_name (ProductImage.src self))) self in
        ProductImage_Model_save (with_force_update kwargs) self table
      else (inr self, table)
  end.

(** [ProductImage.objects.create(product=..., src=..., alt=...)]: a new
    instance, saved with [force_insert=True]. *)
Definition ProductImage_objects_create (product : Z) (src : FieldFile) (alt : string)
    (table : Table ProductImage.t) : (Exception + ProductImage.t) * Table ProductImage.t :=
  ProductImage_save {| force_insert := true; force_update := false |}
    {| ProductImage.pk := None; ProductImage.product := product;
       ProductImage.src := src; ProductImage.alt := alt |}
    table.

Definition Category_pre_save (self : Category.t) : Category.t :=
  Category_set_src
    (FileField_pre_save storage_save (category_image_directory_path self)
       (Category.src self))
    self.

Definition Category_Model_save :=
  Model_save Category.pk Category_set_pk Category_pre_save.

(** [Category.save]. *)
Definition Category_save (kwargs : SaveKwargs) (self : Category.t)
    (table : Table Category.t) : (Exception + Category.t) * Table Category.t :=
  let first :=
    if no_pk (Category.pk self)
    then Category_Model_save kwargs self table
    else (inr self, table) in
  match first with
  | (inl e, table) => (inl e, table)
  | (inr self, table) =>
      if negb (file_name (Category.src self) =? "")%string
         && (Category.alt self =? "")%string
      then
        let self := Category_set_alt (stem (file_name (Category.src self))) self in
        Category_Model_save (with_force_update kwargs) self table
      else (inr self, table)
  end.

(** [Category.objects.create(title=..., parent=..., src=..., alt=...)]. *)
Definition Category_objects_create (title : string) (parent : option Z)
    (src : FieldFile) (alt : string) (table : Table Category.t)
  : (Exception + Category.t) * Table Category.t :=
  Category_save {| force_insert := true; force_update := false |}
    {| Category.pk := None; Category.title := title; Category.parent := parent;
       Category.src := src; Category.alt := alt |}
    table.

End Storage.

(** A storage that keeps every file under the name it is offered. *)
Definition plain_storage (name : string) : string := name.

Definition uploaded (name : string) : FieldFile :=
  {| file_name := name; committed := false |}.

Definition empty_table {A : Type} : Table A := {| rows := ∅; next_pk := 1 |}.

Definition plain_save : SaveKwargs := {| force_insert := false; force_update := false |}.

(** ** Reviews (ReviewSerializer, ReviewView) *)

Definition HTTP_401_UNAUTHORIZED : Z := 401.

Module Review.

Record t := mk {
  product : Z;
  author : string;
  email : string;
  text : string;
  rate : Z
}.

End Review.

Module ReviewSerializer.

(** The validated fields; [date] is read-only. *)
Record ValidatedData := mkValidatedData {
  author : string;
  email : string;
  text : string;
  rate : Z
}.

(** [ReviewSerializer.create]: the ValidationError it raises, or the
    review it creates, and the table of reviews afterwards. *)
Definition create (products : gmap Z Product.t) (product_id : Z)
    (validated_data : ValidatedData) (reviews : list Review.t)
  : (string + Review.t) * list Review.t :=
  match products !! product_id with
  | None => (inl ("Not found product with id: " ++ pretty product_id)%string, reviews)
  | Some _ =>
      let review :=
        {| Review.product := product_id;
           Review.author := author validated_data;
           Review.email := email validated_data;
           Review.text := text validated_data;
           Review.rate := rate validated_data |} in
      (inr review, reviews ++ [review])
  end.

End ReviewSerializer.

(** What [ReviewView] answers: the review, the errors of the fields, a
    detail, or the messages of a ValidationError that the framework
    handled. *)
Inductive ReviewAnswer (Errors : Type) :=
| ReviewCreated (status_code : Z) (review : Review.t)
| ReviewErrors (status_code : Z) (errors : Errors)
| ReviewDetail (status_code : Z) (detail : string)
| ReviewInvalid (status_code : Z) (messages : list string).

Arguments ReviewCreated {Errors} _ _.
Arguments ReviewErrors {Errors} _ _.
Arguments ReviewDetail {Errors} _ _.
Arguments ReviewInvalid {Errors} _ _.

Definition review_status {Errors : Type} (answer : ReviewAnswer Errors) : Z :=
  match answer with
  | ReviewCreated status_code _ => status_code
  | ReviewErrors status_code _ => status_code
  | ReviewDetail status_code _ => status_code
  | ReviewInvalid status_code _ => status_code
  end.

Section ReviewView.

(** The validation of the fields of the serializer is the framework's:
    it gives the errors of the fields or the validated data. *)
Context {Data Errors : Type}.
Variable run_validation : Data -> Errors + ReviewSerializer.ValidatedData.

(** [ReviewView.post]; a ValidationError of [serializer.save()] leaves
    the method. *)
Definition ReviewView_post (u : User) (pk : Z) (data : Data)
    (products : gmap Z Product.t) (reviews : list Review.t)
  : (string + ReviewAnswer Errors) * list Review.t :=
  if negb (IsAuthenticated u)
  then (inr (ReviewDetail HTTP_401_UNAUTHORIZED
               "Authentication required to leave a review."), reviews)
  else
    match run_validation data with
    | inr validated_data =>
        match ReviewSerializer.create products pk validated_data reviews with
        | (inl text, reviews) => (inl text, reviews)
        | (inr review, reviews) => (inr (ReviewCreated HTTP_201_CREATED review), reviews)
        end
    | inl errors => (inr (ReviewErrors HTTP_400_BAD_REQUEST errors), reviews)
    end.

(** The view as the framework runs it: the permission class first, and
    a ValidationError answered with 400 and its messages. *)
Definition ReviewView_dispatch (u : User) (pk : Z) (data : Data)
    (products : gmap Z Product.t) (reviews : list Review.t)
  : ReviewAnswer Errors * list Review.t :=
  if negb (IsAuthenticated u)
  then (ReviewDetail HTTP_403_FORBIDDEN "Authentication credentials were not provided.",
        reviews)
  else
    match ReviewView_post u pk data products reviews with
    | (inl text, reviews) => (ReviewInvalid HTTP_400_BAD_REQUEST [text], reviews)
    | (inr answer, reviews) => (answer, reviews)
    end.

End ReviewView.
(** ** Saving an order *)

Lemma DecimalField_write_None (v : Vendor) (n : Z) (value : Decimal) :
  DecimalField_write v n value = None <-> Z.abs value < 10 ^ n.
Proof.
  unfold DecimalField_write. destruct (Z.ltb_spec (Z.abs value) (10 ^ n)).
  - split; [auto | reflexivity].
  - split; [destruct v; discriminate | lia].
Qed.

Lemma Order_save_Ok (pk : Z) (o : Order.t) (db db' : DB) :
  Order_save pk o db = Ok db' <->
  Z.abs (Order.totalCost o) < 10 ^ 13 /\ db' = Order_UPDATE pk o db.
Proof.
  unfold Order_save. rewrite <- (DecimalField_write_None (vendor db)).
  destruct (DecimalField_write (vendor db) 13 (Order.totalCost o)).
  - split; [discriminate | intros [[=] _]].
  - split; [intros [= <-]; auto | intros [_ ->]; reflexivity].
Qed.

Lemma Order_save_fits (pk : Z) (o : Order.t) (db : DB) :
  Z.abs (Order.totalCost o) < 10 ^ 13 ->
  Order_save pk o db = Ok (Order_UPDATE pk o db).
Proof. intros H. apply Order_save_Ok. auto. Qed.


Lemma Order_UPDATE_twice (pk : Z) (o1 o2 : Order.t) (db : DB) :
  Order_UPDATE pk o2 (Order_UPDATE pk o1 db) = Order_UPDATE pk o2 db.
Proof.
  unfold Order_UPDATE, set_Order_objects. cbn. rewrite insert_insert_eq. reflexivity.
Qed.

(** What the two saves of a view come to: the second one writes the
    same total as the first, so it is refused when the first one is and
    never otherwise. *)
Lemma save_twice {A : Type} (pk : Z) (o1 o2 : Order.t) (db : DB)
    (raised : Exception -> DB -> A) (done : DB -> A) :
  Order.totalCost o2 = Order.totalCost o1 ->
  match Order_save pk o1 db with
  | Raise e => raised e db
  | Ok db1 =>
      match Order_save pk o2 db1 with
      | Raise e => raised e db1
      | Ok db2 => done db2
      end
  end
  = match Order_save pk o1 db with
    | Raise e => raised e db
    | Ok _ => done (Order_UPDATE pk o2 db)
    end.
Proof.
  intros Htotal. unfold Order_save. rewrite Htotal.
  destruct (DecimalField_write (vendor db) 13 (Order.totalCost o1)) eqn:E;
    [reflexivity |].
  change (vendor (Order_UPDATE pk o1 db)) with (vendor db). rewrite E.
  rewrite Order_UPDATE_twice. reflexivity.
Qed.

(** ** The shape of a checkout *)

Lemma add_items_nil (db : DB) : add_items db [] = db.
Proof. destruct db. unfold add_items. cbn. rewrite app_nil_r. reflexivity. Qed.

Lemma add_items_app (db : DB) (l1 l2 : list OrderItem.t) :
  add_items (add_items db l1) l2 = add_items db (l1 ++ l2).
Proof. unfold add_items. cbn. rewrite app_assoc. reflexivity. Qed.

Lemma OrderItem_INSERT_add_items (i : OrderItem.t) (db : DB) :
  OrderItem_INSERT i db = add_items db [i].
Proof. reflexivity. Qed.

Lemma OrderItem_objects_create_Ok (i : OrderItem.t) (db db' : DB) :
  OrderItem_objects_create i db = Ok db' ->
  0 <= OrderItem.quantity i /\ db' = add_items db [i].
Proof.
  unfold OrderItem_objects_create, PositiveSmallIntegerField_write.
  destruct (vendor db);
    repeat (match goal with
            | |- context [if ?b then _ else _] => destruct b eqn:?
            end; try discriminate);
    intros [= <-]; split; try reflexivity; lia.
Qed.

(** The quantities that both backends store. *)
Lemma OrderItem_objects_create_fits (i : OrderItem.t) (db : DB) :
  0 <= OrderItem.quantity i <= 32767 ->
  OrderItem_objects_create i db = Ok (add_items db [i]).
Proof.
  intros H. unfold OrderItem_objects_create, PositiveSmallIntegerField_write.
  destruct (vendor db).
  - destruct (Z.ltb_spec (OrderItem.quantity i) (- 2 ^ 63)); [lia |].
    destruct (Z.leb_spec (2 ^ 63) (OrderItem.quantity i)); [lia |]. cbn [orb].
    destruct (Z.ltb_spec (OrderItem.quantity i) 0); [lia | reflexivity].
  - destruct (Z.ltb_spec (OrderItem.quantity i) (-32768)); [lia |].
    destruct (Z.ltb_spec 32767 (OrderItem.quantity i)); [lia |]. cbn [orb].
    destruct (Z.ltb_spec (OrderItem.quantity i) 0); [lia | reflexivity].
Qed.

(** A negative quantity is refused by both. *)
Lemma OrderItem_objects_create_negative (i : OrderItem.t) (db : DB) :
  OrderItem.quantity i < 0 ->
  exists e, OrderItem_objects_create i db = Raise e.
Proof.
  intros H. unfold OrderItem_objects_create, PositiveSmallIntegerField_write.
  destruct (vendor db).
  - destruct ((OrderItem.quantity i <? - 2 ^ 63) || (2 ^ 63 <=? OrderItem.quantity i));
      [eauto |].
    destruct (Z.ltb_spec (OrderItem.quantity i) 0); [eauto | lia].
  - destruct ((OrderItem.quantity i <? -32768) || (32767 <? OrderItem.quantity i));
      [eauto |].
    destruct (Z.ltb_spec (OrderItem.quantity i) 0); [eauto | lia].
Qed.

(** The loop of the checkout only appends items of its order, with
    quantities that are not negative. *)
Lemma create_order_items_db (order : Z) (lines : list ProductLine.t) (db : DB) :
  exists items,
    (create_order_items order lines db).2 = add_items db items
    /\ Forall (fun i => OrderItem.order i = order /\ 0 <= OrderItem.quantity i) items.
Proof.
  revert db. induction lines as [| l lines IH]; intros db; cbn.
  - exists []. rewrite add_items_nil. auto.
  - destruct (Product_objects db !! ProductLine.id l);
      [| exists []; rewrite add_items_nil; auto].
    destruct (OrderItem_objects_create _ db) as [db' | e] eqn:Hcreate;
      [| exists []; rewrite add_items_nil; auto].
    apply OrderItem_objects_create_Ok in Hcreate as [Hq ->].
    destruct (IH (add_items db [line_item order l])) as (items & Hrun & Hall).
    exists (line_item order l :: items). unfold line_item in Hrun at 1.
    rewrite Hrun, add_items_app. split; [reflexivity |].
    constructor; [split; [reflexivity | exact Hq] | exact Hall].
Qed.

(** What a checkout leaves behind, whatever it is asked to state: the
    exception of the lookup of the order or of the profile, with the
    database as it was; an exception after some items; or the answer
    201, with the items and the order saved. *)
Lemma OrderView_post_cases (request : Request (list ProductLine.t)) (db : DB)
    (P : Served -> Prop) :
  (forall e, checkout_order request db = (Raise e, db) ->
             P {| outcome := Raise e; db_after := db;
                  session_after := (Cart_init (session request)).1 |}) ->
  (forall pk order db1 items,
      checkout_order request db = (Ok (pk, order), db1) ->
      Forall (fun i => OrderItem.order i = pk /\ 0 <= OrderItem.quantity i) items ->
      (forall e, P {| outcome := Raise e; db_after := add_items db1 items;
                      session_after := (Cart_init (session request)).1 |})
      /\ (forall total,
            Cart.get_cart_total (Cart_init (session request)).2 = Ok total ->
            Z.abs total < 10 ^ 13 ->
            P {| outcome := Ok {| status_code := HTTP_201_CREATED; body := OrderId pk |};
                 db_after :=
                   Order_UPDATE pk
                     (Order.set_status (Order.set_totalCost order total) "accepted")
                     (add_items db1 items);
                 session_after := {| session_cart := Some EmptyDict;
                                     session_order_id := None |} |})) ->
  P (OrderView_post request db).
Proof.
  intros Hraise Hrun. unfold OrderView_post.
  destruct (Cart_init (session request)) as [s1 cart]. cbn [fst snd] in *.
  destruct (checkout_order request db) as [[[pk order] | e] db1] eqn:Hcheckout.
  - destruct (create_order_items_db pk (data request) db1) as (items & Hitems & Hall).
    destruct (Hrun pk order db1 items eq_refl Hall) as [Hfail Hdone].
    destruct (create_order_items pk (data request) db1) as [[e |] db2];
      cbn in Hitems; subst db2; [apply Hfail |].
    destruct (Cart.get_cart_total cart) as [total | e]; [| apply Hfail].
    destruct (Order_save pk _ (add_items db1 items)) as [db3 | e] eqn:Hsave;
      [| apply Hfail].
    apply Order_save_Ok in Hsave as [Hfit ->]. apply Hdone; [reflexivity | exact Hfit].
  - assert (db1 = db) as ->.
    { unfold checkout_order in Hcheckout.
      destruct (session_order_id (session request)).
      - destruct (Order_objects db !! z); congruence.
      - destruct (user_profile (user request)); [discriminate | congruence]. }
    apply Hraise. reflexivity.
Qed.

(** The order a checkout works on. *)
Lemma checkout_order_Ok (request : Request (list ProductLine.t)) (db db1 : DB)
    (pk : Z) (order : Order.t) :
  checkout_order request db = (Ok (pk, order), db1) ->
  (session_order_id (session request) = Some pk
   /\ Order_objects db !! pk = Some order /\ db1 = db)
  \/ (session_order_id (session request) = None
      /\ exists p, user_profile (user request) = Ok p
                   /\ pk = Order_next_pk db /\ order = Order.create (Some p)
                   /\ db1 = (Order_objects_create (Some p) db).2).
Proof.
  unfold checkout_order. destruct (session_order_id (session request)) as [opk |].
  - destruct (Order_objects db !! opk) as [o |] eqn:Ho; [| discriminate].
    intros [= <- <- <-]. left. auto.
  - destruct (user_profile (user request)) as [p | e]; [| discriminate].
    cbn. intros [= <- <- <-]. right. split; [reflexivity |]. exists p. auto.
Qed.

(** What a confirmation and a payment leave behind: the database as it
    was, or the row of the order rewritten. *)
Lemma OrderDetailView_post_cases (pk : Z)
    (request : Request OrderConfirmSerializer.Data) (db : DB) (P : Served -> Prop) :
  (forall r, P {| outcome := r; db_after := db; session_after := session request |}) ->
  (forall order p d d',
      Order_objects db !! pk = Some order ->
      user request = AuthenticatedUser (Some p) ->
      Order.profile order = Some p ->
      Order.status order <> "paid" ->
      OrderConfirmSerializer.to_internal_value (data request) = inr d ->
      OrderConfirmSerializer.validate db d = Ok (Valid d') ->
      Z.abs (Order.totalCost (OrderConfirmSerializer.update order d')) < 10 ^ 13 ->
      P {| outcome := Ok {| status_code := HTTP_200_OK; body := NoBody |};
           db_after :=
             Order_UPDATE pk
               (Order.set_status (OrderConfirmSerializer.update order d') "confirmed")
               db;
           session_after := session request |}) ->
  P (OrderDetailView_post pk request db).
Proof.
  intros Hstay Hdone. unfold OrderDetailView_post.
  destruct (user request) as [| [p |]] eqn:Huser; cbn; try apply Hstay.
  - destruct (Order_objects db !! pk) as [order |] eqn:Horder; [| apply Hstay].
    destruct (decide (Order.profile order = Some p)) as [Hown | Hne].
    + rewrite bool_decide_eq_true_2 by exact Hown. cbn.
      destruct (String.eqb_spec (Order.status order) "paid") as [Hpaid | Hst];
        [apply Hstay |].
      destruct (OrderConfirmSerializer.to_internal_value (data request))
        as [errs | d] eqn:Hd; [apply Hstay |].
      destruct (OrderConfirmSerializer.validate db d) as [[d' | e] | e] eqn:Hv;
        try apply Hstay.
      rewrite (save_twice pk _ _ db
                 (fun e db1 => {| outcome := Raise e; db_after := db1;
                                  session_after := session request |})
                 (fun db2 => {| outcome := Ok {| status_code := HTTP_200_OK;
                                                 body := NoBody |};
                                db_after := db2; session_after := session request |}))
        by reflexivity.
      destruct (Order_save pk _ db) as [db1 | e] eqn:Hsave; [| apply Hstay].
      apply Order_save_Ok in Hsave as [Hfit _]. eapply Hdone; solve [reflexivity | eassumption].
    + rewrite bool_decide_eq_false_2 by exact Hne. apply Hstay.
  - destruct (Order_objects db !! pk); apply Hstay.
Qed.

Lemma PaymentView_post_cases (pk : Z)
    (request : Request PaymentSerializer.Data) (db : DB) (P : Served -> Prop) :
  (forall r, P {| outcome := r; db_after := db; session_after := session request |}) ->
  (forall order p v,
      Order_objects db !! pk = Some order ->
      user request = AuthenticatedUser (Some p) ->
      Order.profile order = Some p ->
      Order.status order <> "paid" ->
      PaymentSerializer.run_validation (data request) = Ok (inr v) ->
      Z.abs (Order.totalCost order) < 10 ^ 13 ->
      P {| outcome := Ok {| status_code := HTTP_200_OK; body := NoBody |};
           db_after := Order_UPDATE pk (Order.set_status order "paid") db;
           session_after := session request |}) ->
  P (PaymentView_post pk request db).
Proof.
  intros Hstay Hdone. unfold PaymentView_post.
  destruct (user request) as [| [p |]] eqn:Huser; cbn; try apply Hstay.
  - destruct (Order_objects db !! pk) as [order |] eqn:Horder; [| apply Hstay].
    destruct (decide (Order.profile order = Some p)) as [Hown | Hne].
    + rewrite bool_decide_eq_true_2 by exact Hown. cbn.
      destruct (String.eqb_spec (Order.status order) "paid") as [Hpaid | Hst];
        [apply Hstay |].
      destruct (PaymentSerializer.run_validation (data request))
        as [[errs | v] | e] eqn:Hv; try apply Hstay.
      unfold PaymentSerializer.save, PaymentSerializer.update.
      rewrite (save_twice pk _ _ db
                 (fun e db1 => {| outcome := Raise e; db_after := db1;
                                  session_after := session request |})
                 (fun db2 => {| outcome := Ok {| status_code := HTTP_200_OK;
                                                 body := NoBody |};
                                db_after := db2; session_after := session request |}))
        by reflexivity.
      destruct (Order_save pk order db) as [db1 | e] eqn:Hsave; [| apply Hstay].
      apply Order_save_Ok in Hsave as [Hfit _]. eapply Hdone; solve [reflexivity | eassumption].
    + rewrite bool_decide_eq_false_2 by exact Hne. apply Hstay.
  - destruct (Order_objects db !! pk); apply Hstay.
Qed.

(** ** What the guards of the two owner-only views decide *)

Section Guards.

Variable ATOMIC_REQUESTS : bool.
Variables (db : DB) (pk : Z) (order : Order.t) (p : Z).
Hypothesis Horder : Order_objects db !! pk = Some order.

Section Confirmation.
Variable request : Request OrderConfirmSerializer.Data.
Hypothesis Huser : user request = AuthenticatedUser (Some p).

Lemma confirmation_not_owner :
  Order.profile order <> Some p ->
  serve ATOMIC_REQUESTS (Confirmation pk request) db =
  {| outcome := Ok {| status_code := HTTP_403_FORBIDDEN;
                      body := Detail "You do not have permission to update this order." |};
     db_after := db; session_after := session request |}.
Proof.
  intros Hne. unfold serve, dispatch, OrderDetailView_post.
  rewrite Huser, Horder. cbn.
  rewrite bool_decide_eq_false_2 by exact Hne. cbn.
  destruct ATOMIC_REQUESTS; reflexivity.
Qed.

Lemma confirmation_paid :
  Order.profile order = Some p ->
  Order.status order = "paid" ->
  serve ATOMIC_REQUESTS (Confirmation pk request) db =
  {| outcome := Ok {| status_code := HTTP_403_FORBIDDEN; body := Detail PAID_DETAIL |};
     db_after := db; session_after := session request |}.
Proof.
  intros Hp Hst. unfold serve, dispatch, OrderDetailView_post.
  rewrite Huser, Horder. cbn.
  rewrite bool_decide_eq_true_2 by exact Hp. rewrite Hst. reflexivity.
Qed.

(** Past the guards the view is its serializer part. *)
Lemma confirmation_owner :
  Order.profile order = Some p ->
  Order.status order <> "paid" ->
  OrderDetailView_post pk request db =
  match OrderConfirmSerializer.to_internal_value (data request) with
  | inl errs =>
      {| outcome := Ok {| status_code := HTTP_400_BAD_REQUEST; body := Errors errs |};
         db_after := db; session_after := session request |}
  | inr d =>
      match OrderConfirmSerializer.validate db d with
      | Raise e => {| outcome := Raise e; db_after := db;
                      session_after := session request |}
      | Ok (Invalid e) =>
          {| outcome := Ok {| status_code := HTTP_400_BAD_REQUEST;
                              body := Errors [("non_field_errors", e)] |};
             db_after := db; session_after := session request |}
      | Ok (Valid d') =>
          match Order_save pk (OrderConfirmSerializer.update order d') db with
          | Raise e => {| outcome := Raise e; db_after := db;
                          session_after := session request |}
          | Ok _ =>
              {| outcome := Ok {| status_code := HTTP_200_OK; body := NoBody |};
                 db_after :=
                   Order_UPDATE pk
                     (Order.set_status (OrderConfirmSerializer.update order d')
                        "confirmed") db;
                 session_after := session request |}
          end
      end
  end.
Proof.
  intros Hp Hst. unfold OrderDetailView_post.
  rewrite Huser, Horder. cbn.
  rewrite bool_decide_eq_true_2 by exact Hp. cbn.
  apply String.eqb_neq in Hst. rewrite Hst.
  destruct (OrderConfirmSerializer.to_internal_value (data request)) as [errs | d];
    [reflexivity |].
  destruct (OrderConfirmSerializer.validate db d) as [[d' | e] | e]; try reflexivity.
  apply (save_twice pk _ _ db
           (fun e db1 => {| outcome := Raise e; db_after := db1;
                            session_after := session request |})
           (fun db2 => {| outcome := Ok {| status_code := HTTP_200_OK; body := NoBody |};
                          db_after := db2; session_after := session request |})).
  reflexivity.
Qed.
End Confirmation.

Section Payment.
Variable request : Request PaymentSerializer.Data.
Hypothesis Huser : user request = AuthenticatedUser (Some p).

Lemma payment_not_owner :
  Order.profile order <> Some p ->
  serve ATOMIC_REQUESTS (Pay pk request) db =
  {| outcome := Ok {| status_code := HTTP_403_FORBIDDEN;
                      body := Detail "You do not have permission to confirm payment for this order." |};
     db_after := db; session_after := session request |}.
Proof.
  intros Hne. unfold serve, dispatch, PaymentView_post.
  rewrite Huser, Horder. cbn.
  rewrite bool_decide_eq_false_2 by exact Hne. cbn.
  destruct ATOMIC_REQUESTS; reflexivity.
Qed.

Lemma payment_paid :
  Order.profile order = Some p ->
  Order.status order = "paid" ->
  serve ATOMIC_REQUESTS (Pay pk request) db =
  {| outcome := Ok {| status_code := HTTP_403_FORBIDDEN; body := Detail PAID_DETAIL |};
     db_after := db; session_after := session request |}.
Proof.
  intros Hp Hst. unfold serve, dispatch, PaymentView_post.
  rewrite Huser, Horder. cbn.
  rewrite bool_decide_eq_true_2 by exact Hp. rewrite Hst. reflexivity.
Qed.

End Payment.

End Guards.

(** ** Ownership and the terminal state *)

(** C10. For every existing order and every authenticated requester
    whose profile is not the order's owning profile, the confirmation
    and the payment operation both fail with Forbidden (status 403, not
    404), whatever the payload, and the database is left unchanged. *)
Theorem C10_non_owner_is_forbidden
    (ATOMIC_REQUESTS : bool) (db : DB) (pk : Z) (order : Order.t) (p : Z)
    (confirmation : Request OrderConfirmSerializer.Data)
    (payment : Request PaymentSerializer.Data) :
  Order_objects db !! pk = Some order ->
  Order.profile order <> Some p ->
  user confirmation = AuthenticatedUser (Some p) ->
  user payment = AuthenticatedUser (Some p) ->
  (forbidden (serve ATOMIC_REQUESTS (Confirmation pk confirmation) db)
   /\ db_after (serve ATOMIC_REQUESTS (Confirmation pk confirmation) db) = db)
  /\ (forbidden (serve ATOMIC_REQUESTS (Pay pk payment) db)
      /\ db_after (serve ATOMIC_REQUESTS (Pay pk payment) db) = db).
Proof.
  intros Horder Hne Hc Hp. split.
  - rewrite (confirmation_not_owner _ _ _ _ _ Horder _ Hc Hne).
    split; [eexists; reflexivity | reflexivity].
  - rewrite (payment_not_owner _ _ _ _ _ Horder _ Hp Hne).
    split; [eexists; reflexivity | reflexivity].
Qed.

Lemma C10_non_owner_is_forbidden_witness :
  let confirmation := mkRequest (AuthenticatedUser (Some 8)) empty_session
                        (example_confirmation 299900) in
  let payment := mkRequest (AuthenticatedUser (Some 8)) empty_session example_card in
  (forbidden (serve false (Confirmation 1 confirmation) example_db)
   /\ db_after (serve false (Confirmation 1 confirmation) example_db) = example_db)
  /\ (forbidden (serve false (Pay 1 payment) example_db)
      /\ db_after (serve false (Pay 1 payment) example_db) = example_db).
Proof.
  intros confirmation payment.
  apply (C10_non_owner_is_forbidden false example_db 1
           (example_order "confirmed") 8 confirmation payment).
  - reflexivity.
  - discriminate.
  - reflexivity.
  - reflexivity.
Defined.

(** C4, as the code has it. For every order whose status is 'paid',
    every confirmation or payment attempt of an authenticated requester
    with a profile fails with Forbidden, whatever the payload, and
    leaves the database (the order, its items and the payments)
    unchanged; when the requester owns the order the detail is
    "Paid orders cannot be updated.". *)
Theorem C4_paid_order_rejects_owner
    (ATOMIC_REQUESTS : bool) (db : DB) (pk : Z) (order : Order.t) (p : Z)
    (confirmation : Request OrderConfirmSerializer.Data)
    (payment : Request PaymentSerializer.Data) :
  Order_objects db !! pk = Some order ->
  Order.status order = "paid" ->
  user confirmation = AuthenticatedUser (Some p) ->
  user payment = AuthenticatedUser (Some p) ->
  let confirmed := serve ATOMIC_REQUESTS (Confirmation pk confirmation) db in
  let paid := serve ATOMIC_REQUESTS (Pay pk payment) db in
  (forbidden confirmed /\ db_after confirmed = db)
  /\ (forbidden paid /\ db_after paid = db)
  /\ (Order.profile order = Some p ->
      outcome confirmed
      = Ok {| status_code := HTTP_403_FORBIDDEN; body := Detail PAID_DETAIL |}
      /\ outcome paid
         = Ok {| status_code := HTTP_403_FORBIDDEN; body := Detail PAID_DETAIL |}).
Proof.
  intros Horder Hst Hc Hp confirmed paid. subst confirmed paid.
  destruct (decide (Order.profile order = Some p)) as [Hown | Hne].
  - rewrite (confirmation_paid _ _ _ _ _ Horder _ Hc Hown Hst).
    rewrite (payment_paid _ _ _ _ _ Horder _ Hp Hown Hst). cbn.
    repeat split; eexists; reflexivity.
  - rewrite (confirmation_not_owner _ _ _ _ _ Horder _ Hc Hne).
    rewrite (payment_not_owner _ _ _ _ _ Horder _ Hp Hne). cbn.
    repeat split; try (eexists; reflexivity). all: contradiction.
Qed.

Lemma C4_paid_order_rejects_owner_witness :
  let confirmed :=
    serve false (Confirmation 2 (mkRequest (AuthenticatedUser (Some 7)) empty_session
                                   (example_confirmation 299900))) example_db in
  let paid :=
    serve false (Pay 2 (mkRequest (AuthenticatedUser (Some 7)) empty_session
                          example_card)) example_db in
  (forbidden confirmed /\ db_after confirmed = example_db)
  /\ (forbidden paid /\ db_after paid = example_db)
  /\ (Order.profile (example_order "paid") = Some 7 ->
      outcome confirmed
      = Ok {| status_code := HTTP_403_FORBIDDEN; body := Detail PAID_DETAIL |}
      /\ outcome paid
         = Ok {| status_code := HTTP_403_FORBIDDEN; body := Detail PAID_DETAIL |}).
Proof.
  apply (C4_paid_order_rejects_owner false example_db 2 (example_order "paid") 7
           (mkRequest (AuthenticatedUser (Some 7)) empty_session
              (example_confirmation 299900))
           (mkRequest (AuthenticatedUser (Some 7)) empty_session example_card)).
  - reflexivity.
  - reflexivity.
  - reflexivity.
  - reflexivity.
Defined.

(** C4 as it is written fails for a requester who does not own the paid
    order: the ownership guard answers first, with its own detail. *)
Lemma C4_counterexample :
  let paid :=
    serve false (Pay 2 (mkRequest (AuthenticatedUser (Some 8)) empty_session
                          example_card)) example_db in
  Order.status <$> Order_objects example_db !! 2 = Some "paid"
  /\ outcome paid
     = Ok {| status_code := HTTP_403_FORBIDDEN;
             body := Detail "You do not have permission to confirm payment for this order." |}
  /\ outcome paid
     <> Ok {| status_code := HTTP_403_FORBIDDEN; body := Detail PAID_DETAIL |}.
Proof.
  cbv zeta. split; [reflexivity |].
  assert (H : outcome (serve false (Pay 2 (mkRequest (AuthenticatedUser (Some 8))
                         empty_session example_card)) example_db)
              = Ok {| status_code := HTTP_403_FORBIDDEN;
                      body := Detail "You do not have permission to confirm payment for this order." |})
    by (vm_compute; reflexivity).
  split; [exact H |]. rewrite H. discriminate.
Qed.

(** ** Payment *)

(** No core operation appends to the payment table. *)
Lemma Payment_objects_create_items (order : Z) (lines : list ProductLine.t) (db : DB) :
  Payment_objects (create_order_items order lines db).2 = Payment_objects db.
Proof.
  revert db. induction lines as [| l lines IH]; intros db; cbn; [reflexivity |].
  destruct (Product_objects db !! ProductLine.id l); [| reflexivity].
  unfold OrderItem_objects_create.
  destruct (PositiveSmallIntegerField_write _ _); [reflexivity |].
  rewrite IH. reflexivity.
Qed.

Lemma Payment_objects_save (pk : Z) (o : Order.t) (db db' : DB) :
  Order_save pk o db = Ok db' -> Payment_objects db' = Payment_objects db.
Proof. intros [_ ->]%Order_save_Ok. reflexivity. Qed.

Lemma Payment_objects_unchanged (ATOMIC_REQUESTS : bool) (op : CoreOp) (db : DB) :
  Payment_objects (db_after (serve ATOMIC_REQUESTS op db)) = Payment_objects db.
Proof.
  assert (Hd : forall served,
             Payment_objects (db_after served) = Payment_objects db ->
             Payment_objects (db_after (dispatch ATOMIC_REQUESTS db (op_session op) served))
             = Payment_objects db).
  { intros served H. unfold dispatch. destruct (outcome served) as [r | e]; [exact H |].
    destruct (handle_exception e); destruct ATOMIC_REQUESTS; cbn; auto. }
  unfold serve. apply Hd. destruct op as [request | pk request | pk request].
  - apply (OrderView_post_cases request db
             (fun served => Payment_objects (db_after served) = Payment_objects db));
      [reflexivity |].
    intros pk order db1 items Hcheckout _.
    assert (Payment_objects db1 = Payment_objects db) as H1.
    { apply checkout_order_Ok in Hcheckout
        as [(_ & _ & ->) | (_ & p & _ & _ & _ & ->)]; reflexivity. }
    split; intros; exact H1.
  - apply (OrderDetailView_post_cases pk request db
             (fun served => Payment_objects (db_after served) = Payment_objects db));
      reflexivity.
  - apply (PaymentView_post_cases pk request db
             (fun served => Payment_objects (db_after served) = Payment_objects db));
      reflexivity.
Qed.

(** C1 (the code departs from it). The payment of the view tests, on the
    confirmed order of its owner, with valid card fields: the view
    answers 200 and the order becomes 'paid', but the payment table is
    as empty as before. The serializer is given the order as its
    instance, so [save] takes the [update] path and [create] never runs. *)
Theorem C1_valid_payment_persists_no_Payment :
  let served :=
    serve false (Pay 1 (mkRequest (AuthenticatedUser (Some 7)) empty_session
                          example_card)) example_db in
  Order_objects example_db !! 1 = Some (example_order "confirmed")
  /\ PaymentSerializer.is_valid example_card = Ok true
  /\ outcome served = Ok {| status_code := HTTP_200_OK; body := NoBody |}
  /\ Order_objects (db_after served) !! 1 = Some (example_order "paid")
  /\ Payment_objects (db_after served) = [].
Proof.
  cbv zeta. repeat split; vm_compute; reflexivity.
Qed.

(** *** Strings *)

Lemma decode_cons (c0 : ascii) (s1 : string) :
  exists c rest, Py.decode (String c0 s1) = c :: rest.
Proof.
  cbn [Py.decode].
  repeat match goal with
         | |- context [if ?b then _ else _] => destruct b
         | |- context [match ?s with EmptyString => _ | String _ _ => _ end] =>
             destruct s
         end; eauto.
Qed.

Lemma decode_nil (s : string) : Py.decode s = [] <-> s = "".
Proof.
  destruct s as [| c0 s1]; [split; reflexivity |].
  destruct (decode_cons c0 s1) as (c & rest & ->). split; discriminate.
Qed.

Lemma len_nonempty (s : string) : s <> "" <-> (1 <= length (Py.decode s))%nat.
Proof.
  rewrite <- decode_nil. destruct (Py.decode s); cbn; split; try congruence; lia.
Qed.

Lemma isdigit_spec (s : string) :
  Py.isdigit s = true <->
  s <> "" /\ Forall (fun c => Py.isdigit_char c = true) (Py.decode s).
Proof.
  rewrite <- decode_nil. unfold Py.isdigit.
  destruct (Py.decode s) as [| c l] eqn:E.
  - split; [discriminate | intros [H _]; contradiction].
  - rewrite forallb_forall, List.Forall_forall. split.
    + intros H. split; [discriminate | exact H].
    + intros [_ H]. exact H.
Qed.

Lemma digits_spec (lo hi : nat) (s : string) :
  (1 <= lo)%nat ->
  digits lo hi s <->
  Py.isdigit s = true /\ Z.of_nat lo <= Py.len s <= Z.of_nat hi.
Proof.
  intros Hlo. unfold digits, Py.len. rewrite isdigit_spec, len_nonempty. split.
  - intros [Hd Hl]. repeat split; try assumption; lia.
  - intros [[Hn Hd] Hl]. split; [assumption | lia].
Qed.

Lemma has_null_spec (s : string) :
  Py.has_null s = false <-> Forall (fun c => c <> 0) (Py.decode s).
Proof.
  unfold Py.has_null. induction (Py.decode s) as [| c l IH]; cbn.
  - split; [constructor | reflexivity].
  - rewrite orb_false_iff, IH, Z.eqb_neq. split.
    + intros [Hc Hl]. constructor; assumption.
    + intros H. apply Forall_cons in H. exact H.
Qed.

(** The null character is no digit. *)
Lemma digit_not_null (c : Z) : Py.isdigit_char c = true -> c <> 0.
Proof. intros H ->. vm_compute in H. discriminate. Qed.

Lemma digits_no_null (lo hi : nat) (s : string) :
  digits lo hi s -> Py.has_null s = false.
Proof.
  intros [Hd _]. apply has_null_spec.
  eapply List.Forall_impl; [| exact Hd]. apply digit_not_null.
Qed.

(** A character with a decimal value is a digit. *)
Lemma decimal_isdigit (c : Z) : is_Some (Py.decimal c) -> Py.isdigit_char c = true.
Proof. intros [d Hd]. unfold Py.isdigit_char. rewrite Hd. reflexivity. Qed.

(** The loop of [int] ends with a number exactly when every character
    has a decimal value. *)
Lemma int_loop_Some (characters : list Z) (acc : Z) :
  is_Some (Py.int_loop characters acc)
  <-> Forall (fun c => is_Some (Py.decimal c)) characters.
Proof.
  revert acc. induction characters as [| c l IH]; intros acc; cbn.
  - split; [constructor | intros _; eexists; reflexivity].
  - destruct (Py.decimal c) as [d |] eqn:Hd.
    + rewrite IH. split.
      * intros H. constructor; [rewrite Hd; eexists; reflexivity | exact H].
      * intros H. apply Forall_cons in H. apply H.
    + split.
      * intros [n [=]].
      * intros H. apply Forall_cons in H as [[d' Hd'] _]. congruence.
Qed.

Lemma int_loop_None (characters : list Z) (acc : Z) :
  Py.int_loop characters acc = None
  <-> Exists (fun c => Py.decimal c = None) characters.
Proof.
  revert acc. induction characters as [| c l IH]; intros acc; cbn.
  - split; [discriminate | intros H; inversion H].
  - destruct (Py.decimal c) as [d |] eqn:Hd.
    + rewrite IH. split.
      * intros H. apply List.Exists_cons_tl. exact H.
      * intros H. inversion H; subst; [congruence | assumption].
    + split; [| reflexivity]. intros _. apply List.Exists_cons_hd. exact Hd.
Qed.

(** *** Card validation *)

Lemma CharField_valid (n : nat) (s v : string) :
  CharField (Z.of_nat n) s = Valid v <->
  v = s /\ (1 <= length (Py.decode s) <= n)%nat /\ Py.has_null s = false.
Proof.
  unfold CharField. destruct (String.eqb_spec s "") as [-> | Hne].
  - cbn. split; [discriminate | lia].
  - apply len_nonempty in Hne. unfold Py.len.
    destruct (Z.ltb_spec (Z.of_nat n) (Z.of_nat (length (Py.decode s)))).
    + split; [discriminate | lia].
    + destruct (Py.has_null s).
      * split; [discriminate | intros (_ & _ & [=])].
      * split; [intros [= <-]; repeat split; [lia | lia]
               | intros [-> _]; reflexivity].
Qed.

Lemma plain_field_valid (n : nat) (o : option string) :
  (exists v, required_field (CharField (Z.of_nat n)) Valid o = Valid v) <-> text n o.
Proof.
  unfold text, required_field. destruct o as [s |].
  - destruct (CharField (Z.of_nat n) s) as [v |] eqn:E.
    + apply CharField_valid in E as (-> & Hl & Hn). apply has_null_spec in Hn.
      split; eauto.
    + split.
      * intros [v [=]].
      * intros (s' & [= <-] & Hl & Hn). apply has_null_spec in Hn.
        assert (CharField (Z.of_nat n) s = Valid s) as E'
          by (apply CharField_valid; auto).
        congruence.
  - split; [intros [v [=]] | intros (s & [=] & _)].
Qed.

Lemma validate_year_valid (s : string) :
  (exists v, PaymentSerializer.validate_year s = Valid v) <-> digits 4 4 s.
Proof.
  rewrite (digits_spec 4 4) by lia. unfold PaymentSerializer.validate_year.
  destruct (Py.isdigit s); cbn.
  - destruct (Z.eqb_spec (Py.len s) 4); cbn.
    + split; [intros _; split; [reflexivity | lia] | eauto].
    + split; [intros [v [=]] | lia].
  - split; [intros [v [=]] | intros [[=] _]].
Qed.

Lemma int_Ok (s : string) (n : Z) :
  Py.int s = Ok n <-> writes s n.
Proof.
  unfold writes. split; [| tauto]. intros H. split; [| exact H].
  apply (int_loop_Some _ 0). unfold Py.int in H.
  destruct (Py.int_loop (Py.decode s) 0); [eexists; reflexivity | discriminate].
Qed.


Lemma validate_month_valid (s : string) :
  (exists v, PaymentSerializer.validate_month s = Ok (Valid v)) <->
  Py.isdigit s = true /\ exists n, writes s n /\ 1 <= n <= 12.
Proof.
  unfold PaymentSerializer.validate_month. destruct (Py.isdigit s); cbn.
  - destruct (Py.int s) as [n | e] eqn:Hint.
    + apply int_Ok in Hint.
      destruct (Z.leb_spec 1 n), (Z.leb_spec n 12); cbn;
        (split;
         [ intros [v Hv]; first [discriminate Hv | split; [reflexivity | exists n; split; [exact Hint | lia]]]
         | intros [_ (n' & Hn' & Hr)];
           assert (n' = n) as -> by (destruct Hint, Hn'; congruence);
           first [lia | eauto] ]).
    + split; [intros [v [=]] |].
      intros [_ (n & [_ Hn] & _)]. congruence.
  - split; [intros [v [=]] | intros [[=] _]].
Qed.


Lemma validate_month_not_required (s : string) :
  PaymentSerializer.validate_month s <> Ok (Invalid required).
Proof.
  unfold PaymentSerializer.validate_month.
  destruct (negb (Py.isdigit s)); [discriminate |].
  destruct (Py.int s); [| discriminate].
  destruct (negb _); discriminate.
Qed.

Lemma validate_code_valid (s : string) :
  (exists v, PaymentSerializer.validate_code s = Valid v) <-> digits 3 4 s.
Proof.
  rewrite (digits_spec 3 4) by lia. unfold PaymentSerializer.validate_code.
  destruct (Py.isdigit s); cbn.
  - destruct (Z.leb_spec 3 (Py.len s)), (Z.leb_spec (Py.len s) 4); cbn;
      (split; [intros [v Hv]; first [discriminate Hv | split; [reflexivity | lia]]
              | intros [_ Hr]; first [lia | eauto]]).
  - split; [intros [v [=]] | intros [[=] _]].
Qed.

(** A required field with a [validate_<name>] method is valid exactly
    when the value is present, fits the column and passes the method. *)
Lemma checked_field_valid (n : nat) (validate_method : string -> Validated string)
    (o : option string) :
  (exists v, required_field (CharField (Z.of_nat n)) validate_method o = Valid v) <->
  exists s, o = Some s /\ (1 <= length (Py.decode s) <= n)%nat
            /\ Py.has_null s = false
            /\ exists v, validate_method s = Valid v.
Proof.
  unfold required_field. destruct o as [s |].
  - destruct (CharField (Z.of_nat n) s) as [v |] eqn:E.
    + apply CharField_valid in E as (-> & Hl & Hn). split.
      * intros Hv. exists s. auto.
      * intros (s' & [= <-] & _ & _ & Hv). exact Hv.
    + split.
      * intros [v [=]].
      * intros (s' & [= <-] & Hl & Hn & _).
        assert (CharField (Z.of_nat n) s = Valid s) as E'
          by (apply CharField_valid; auto).
        congruence.
  - split; [intros [v [=]] | intros (s & [=] & _)].
Qed.

(** The same for a method that can raise: the field ends with the
    result [r] of the method, which is not [Invalid required]. *)
Lemma raising_field_result (n : nat)
    (validate_method : string -> Result (Validated string))
    (o : option string) (r : Result (Validated string)) :
  (forall s, validate_method s <> Ok (Invalid required)) ->
  r <> Ok (Invalid required) ->
  (forall s e, CharField (Z.of_nat n) s = Invalid e -> r <> Ok (Invalid e)) ->
  required_field_raising (CharField (Z.of_nat n)) validate_method o = r <->
  exists s, o = Some s /\ (1 <= length (Py.decode s) <= n)%nat
            /\ Py.has_null s = false
            /\ validate_method s = r.
Proof.
  intros Hm Hr Hf. unfold required_field_raising. destruct o as [s |].
  - destruct (CharField (Z.of_nat n) s) as [v |] eqn:E.
    + apply CharField_valid in E as (-> & Hl & Hn). split.
      * intros Hv. exists s. auto.
      * intros (s' & [= <-] & _ & _ & Hv). exact Hv.
    + split.
      * intros <-. exfalso. exact (Hf s e E eq_refl).
      * intros (s' & [= <-] & Hl & Hn & _).
        assert (CharField (Z.of_nat n) s = Valid s) as E'
          by (apply CharField_valid; auto).
        congruence.
  - split; [intros <-; contradiction | intros (s & [=] & _)].
Qed.

Lemma year_field_valid (d : PaymentSerializer.Data) :
  (exists v, PaymentSerializer.year_field d = Valid v) <-> year_ok (PaymentSerializer.year d).
Proof.
  unfold PaymentSerializer.year_field, year_ok.
  rewrite (checked_field_valid 4). split.
  - intros (s & Hs & _ & _ & Hv). apply validate_year_valid in Hv. eauto.
  - intros (s & Hs & Hd). exists s. split; [exact Hs |]. split; [| split].
    + destruct Hd as [_ Hl]. lia.
    + exact (digits_no_null _ _ _ Hd).
    + apply validate_year_valid, Hd.
Qed.

Lemma month_field_valid (d : PaymentSerializer.Data) :
  (exists v, PaymentSerializer.month_field d = Ok (Valid v))
  <-> month_ok (PaymentSerializer.month d).
Proof.
  unfold PaymentSerializer.month_field, month_ok. split.
  - intros [v Hv].
    apply (raising_field_result 2) in Hv;
      [| apply validate_month_not_required | discriminate | discriminate].
    destruct Hv as (s & Hs & Hl & _ & Hv).
    assert (exists v, PaymentSerializer.validate_month s = Ok (Valid v)) as Hv' by eauto.
    apply validate_month_valid in Hv' as [Hd (n & Hw & Hr)].
    exists s, n. split; [exact Hs |]. split; [| split; assumption].
    split; [| exact Hl]. apply isdigit_spec in Hd. tauto.
  - intros (s & n & Hs & Hd & Hw & Hr).
    assert (exists v, PaymentSerializer.validate_month s = Ok (Valid v)) as [v Hv].
    { apply validate_month_valid. split; [| eauto].
      apply (digits_spec 1 2) in Hd; [tauto | lia]. }
    exists v.
    apply (raising_field_result 2);
      [apply validate_month_not_required | discriminate | discriminate |].
    exists s. split; [exact Hs |]. split; [destruct Hd; lia |].
    split; [exact (digits_no_null _ _ _ Hd) | exact Hv].
Qed.



Lemma code_field_valid (d : PaymentSerializer.Data) :
  (exists v, PaymentSerializer.code_field d = Valid v) <-> code_ok (PaymentSerializer.code d).
Proof.
  unfold PaymentSerializer.code_field, code_ok.
  rewrite (checked_field_valid 4). split.
  - intros (s & Hs & _ & _ & Hv). apply validate_code_valid in Hv. eauto.
  - intros (s & Hs & Hd). exists s. split; [exact Hs |]. split; [| split].
    + destruct Hd as [_ Hl]. lia.
    + exact (digits_no_null _ _ _ Hd).
    + apply validate_code_valid, Hd.
Qed.

Lemma is_valid_fields (d : PaymentSerializer.Data) :
  PaymentSerializer.is_valid d = Ok true <->
  (exists v, PaymentSerializer.number_field d = Valid v)
  /\ (exists v, PaymentSerializer.name_field d = Valid v)
  /\ (exists v, PaymentSerializer.year_field d = Valid v)
  /\ (exists v, PaymentSerializer.month_field d = Ok (Valid v))
  /\ (exists v, PaymentSerializer.code_field d = Valid v).
Proof.
  unfold PaymentSerializer.is_valid, PaymentSerializer.run_validation.
  destruct (PaymentSerializer.month_field d) as [[mo | e] | e];
    destruct (PaymentSerializer.number_field d), (PaymentSerializer.name_field d),
      (PaymentSerializer.year_field d), (PaymentSerializer.code_field d);
    (split;
     [ intros H; first [discriminate H | repeat split; eexists; reflexivity]
     | intros ([? H1] & [? H2] & [? H3] & [? H4] & [? H5]);
       first [reflexivity | discriminate] ]).
Qed.

Lemma is_valid_accepted (d : PaymentSerializer.Data) :
  PaymentSerializer.is_valid d = Ok true <-> accepted_card d.
Proof.
  rewrite is_valid_fields. unfold accepted_card.
  rewrite year_field_valid, month_field_valid, code_field_valid.
  unfold PaymentSerializer.number_field, PaymentSerializer.name_field.
  rewrite (plain_field_valid 8), (plain_field_valid 100). reflexivity.
Qed.


(** A month that raises is not the month of an accepted card. *)
Lemma month_raises_not_ok (o : option string) : month_raises o -> ~ month_ok o.
Proof.
  intros (m & Hm & _ & Hx) (m' & n & Hm' & _ & [Hw _] & _).
  assert (m' = m) as -> by congruence.
  apply List.Exists_exists in Hx as (c & Hc & Hnone).
  rewrite List.Forall_forall in Hw. destruct (Hw c Hc) as [dv Hdv]. congruence.
Qed.










(** The month of the view tests: 13 is answered with the message of
    [validate_month]. *)
Example month_13_is_rejected :
  PaymentSerializer.errors
    {| PaymentSerializer.number := Some "12345678";
       PaymentSerializer.name := Some "Annoying Orange";
       PaymentSerializer.year := Some "2025";
       PaymentSerializer.month := Some "13";
       PaymentSerializer.code := Some "123" |}
  = [("month", message "Expiry month must be a number between 01 and 12.")].
Proof. reflexivity. Qed.

(** A payment with a month of one digit is served with 200 and the order
    is stored as paid. *)
Example month_7_is_paid :
  let served :=
    serve false
      (Pay 1 (mkRequest (AuthenticatedUser (Some 7)) empty_session month_7_card))
      example_db in
  accepted_card month_7_card
  /\ outcome served = Ok {| status_code := HTTP_200_OK; body := NoBody |}
  /\ Order_objects (db_after served) !! 1 = Some (example_order "paid").
Proof.
  cbv zeta. split; [apply is_valid_accepted; vm_compute; reflexivity |].
  split; vm_compute; reflexivity.
Qed.

(** The superscript two is a digit for [isdigit] and no number for
    [int]: the payment is no validation error but a server error, and
    nothing is written. *)
Example superscript_month_raises :
  let served :=
    serve false
      (Pay 1 (mkRequest (AuthenticatedUser (Some 7)) empty_session
                superscript_month_card))
      example_db in
  month_raises (PaymentSerializer.month superscript_month_card)
  /\ outcome served
     = Raise (ValueError ("invalid literal for int() with base 10: '"
                          ++ Py.chr 178 ++ "'")%string)
  /\ db_after served = example_db.
Proof.
  cbv zeta. split; [| split; vm_compute; reflexivity].
  exists (Py.chr 178). split; [reflexivity |]. split.
  - apply (digits_spec 1 2); [lia |].
    split; [vm_compute; reflexivity | vm_compute; split; discriminate].
  - apply int_loop_None with (acc := 0). vm_compute. reflexivity.
Qed.

(** The digits of another script are digits: a year and a month in
    Arabic-Indic digits are accepted. *)
Example arabic_indic_digits_are_accepted :
  PaymentSerializer.is_valid arabic_indic_card = Ok true
  /\ accepted_card arabic_indic_card.
Proof.
  split; [vm_compute; reflexivity | apply is_valid_accepted; vm_compute; reflexivity].
Qed.

(** A card number of 9 characters is answered with an error of the
    field [number]. *)
Example long_number_is_rejected :
  PaymentSerializer.errors long_number_card = [("number", max_length 8)].
Proof. vm_compute. reflexivity. Qed.

(** ** Decimal arithmetic *)

Lemma round_exact (z : Z) : Z.abs z < 10 ^ 28 -> decimal.round z = z.
Proof.
  intros H. unfold decimal.round, decimal.limit.
  destruct (Z.ltb_spec (Z.abs z) (10 ^ 28)); [reflexivity | lia].
Qed.

Lemma overflows_small (z : Z) : Z.abs z < 10 ^ 28 -> decimal.overflows z = false.
Proof.
  intros H. unfold decimal.overflows.
  destruct (Z.ltb_spec (Z.log2 (Z.abs z)) 3321928) as [_ | Hbig]; [reflexivity |].
  exfalso. destruct (Z.eq_dec (Z.abs z) 0) as [E | E].
  - rewrite E in Hbig. cbn in Hbig. lia.
  - assert (Z.log2 (Z.abs z) < 94); [| lia].
    apply Z.log2_lt_pow2; [lia |].
    assert (10 ^ 28 < 2 ^ 94) by (vm_compute; reflexivity). lia.
Qed.

(** An operation whose exact result has at most 28 digits returns it. *)
Lemma finish_exact (z : Z) : Z.abs z < 10 ^ 28 -> decimal.finish z = Ok z.
Proof.
  intros H. unfold decimal.finish. rewrite round_exact by exact H.
  rewrite overflows_small by exact H. reflexivity.
Qed.

(** Rounding keeps the sign. *)
Lemma round_nonneg (z : Z) : 0 <= z -> 0 <= decimal.round z.
Proof.
  intros H. unfold decimal.round.
  destruct (Z.abs z <? decimal.limit); [exact H |].
  set (n := Z.abs z). set (k := decimal.excess (Z.to_nat (Z.log2 n)) n).
  assert (0 <= 10 ^ k) by (apply Z.pow_nonneg; lia).
  assert (0 <= n / 10 ^ k).
  { destruct (Z.eq_dec (10 ^ k) 0) as [E | E].
    - rewrite E, Z.div_0_r. lia.
    - apply Z.div_pos; subst n; lia. }
  assert (0 <= Z.sgn z) by (apply Z.sgn_nonneg; exact H).
  destruct ((10 ^ k <? 2 * (n mod 10 ^ k))
            || (10 ^ k =? 2 * (n mod 10 ^ k)) && Z.odd (n / 10 ^ k)); nia.
Qed.

Lemma finish_nonneg (z r : Z) : decimal.finish z = Ok r -> 0 <= z -> 0 <= r.
Proof.
  unfold decimal.finish. destruct (decimal.overflows (decimal.round z)); [discriminate |].
  intros [= <-]. apply round_nonneg.
Qed.

(** ** Confirmation *)




Lemma filter_no_rule (ty : string) (rows : list OrderDeliveryType.t) :
  Forall (fun r => OrderDeliveryType.type r <> ty) rows ->
  List.filter (fun r => (OrderDeliveryType.type r =? ty)%string) rows = [].
Proof.
  induction 1 as [| r rows Hr _ IH]; cbn; [reflexivity |].
  apply String.eqb_neq in Hr. rewrite Hr. exact IH.
Qed.

Lemma get_no_rule (db : DB) (ty : string) :
  no_rule db ty ->
  OrderDeliveryType_objects_get db ty = Raise (DoesNotExist "OrderDeliveryType").
Proof.
  intros H. unfold OrderDeliveryType_objects_get.
  rewrite (filter_no_rule _ _ H). reflexivity.
Qed.

(** The fee rule of [validate] itself, whoever calls it, for a subtotal
    that passed its field and a rule whose delivery cost fits its
    column: what is returned carries the subtotal plus the fee. *)
Lemma validate_with_rule (db : DB) (d : OrderConfirmSerializer.Data) (ty : string)
    (rule : OrderDeliveryType.t) (subtotal : Decimal) :
  OrderConfirmSerializer.deliveryType d = Some ty ->
  OrderConfirmSerializer.totalCost d = Some subtotal ->
  OrderDeliveryType_objects_get db ty = Ok rule ->
  Z.abs subtotal < 10 ^ 13 ->
  Z.abs (OrderDeliveryType.delivery_cost rule) < 10 ^ 7 ->
  OrderConfirmSerializer.validate db d
  = Ok (Valid (OrderConfirmSerializer.set_totalCost d
                 (subtotal + delivery_fee ty rule subtotal))).
Proof.
  intros Hty Hsub Hrule Hs Hc. unfold OrderConfirmSerializer.validate.
  rewrite Hty, Hrule, Hsub. unfold delivery_fee, decimal.add.
  assert (10 ^ 13 + 10 ^ 7 < 10 ^ 28) by (vm_compute; reflexivity).
  rewrite finish_exact by lia.
  destruct (String.eqb_spec ty "free") as [-> | Hne];
    destruct (Z.ltb_spec (OrderDeliveryType.min_cost rule) subtotal) as [Hlt | Hge];
    cbn [andb].
  - rewrite decide_True by auto. rewrite Z.add_0_r.
    destruct d. cbn in Hsub. subst. reflexivity.
  - rewrite decide_False by lia. reflexivity.
  - rewrite decide_False by tauto. reflexivity.
  - rewrite decide_False by tauto. reflexivity.
Qed.

Lemma validate_delivery_fee (db : DB) (d : OrderConfirmSerializer.Data) (ty : string) :
  OrderConfirmSerializer.deliveryType d = Some ty ->
  (no_rule db ty ->
   OrderConfirmSerializer.validate db d
   = Ok (Invalid (message ("Unsupported delivery type: " ++ ty)%string)))
  /\ (forall rule subtotal,
      OrderDeliveryType_objects_get db ty = Ok rule ->
      OrderConfirmSerializer.totalCost d = Some subtotal ->
      Z.abs subtotal < 10 ^ 13 ->
      Z.abs (OrderDeliveryType.delivery_cost rule) < 10 ^ 7 ->
      OrderConfirmSerializer.validate db d
      = Ok (Valid (OrderConfirmSerializer.set_totalCost d
                     (subtotal + delivery_fee ty rule subtotal)))).
Proof.
  intros Hty. split.
  - intros Hno. unfold OrderConfirmSerializer.validate.
    rewrite Hty, (get_no_rule _ _ Hno). reflexivity.
  - intros rule subtotal Hrule Hsub Hs Hc.
    exact (validate_with_rule db d ty rule subtotal Hty Hsub Hrule Hs Hc).
Qed.






(** The two examples of the specification, evaluated. *)
Example free_delivery_below_threshold :
  Order.totalCost
  <$> Order_objects
        (db_after (serve false
           (Confirmation 1 (mkRequest (AuthenticatedUser (Some 7)) empty_session
                              (example_confirmation 199900))) example_db)) !! 1
  = Some 219900.
Proof. vm_compute. reflexivity. Qed.

Example free_delivery_above_threshold :
  Order.totalCost
  <$> Order_objects
        (db_after (serve false
           (Confirmation 1 (mkRequest (AuthenticatedUser (Some 7)) empty_session
                              (example_confirmation 299900))) example_db)) !! 1
  = Some 299900.
Proof. vm_compute. reflexivity. Qed.

Example unsupported_delivery_type :
  serve false
    (Confirmation 1 (mkRequest (AuthenticatedUser (Some 7)) empty_session
       {| OrderConfirmSerializer.deliveryType := Some "express";
          OrderConfirmSerializer.paymentType := None;
          OrderConfirmSerializer.totalCost := None;
          OrderConfirmSerializer.status := None;
          OrderConfirmSerializer.city := None;
          OrderConfirmSerializer.address := None |})) example_db
  = {| outcome := Ok {| status_code := HTTP_400_BAD_REQUEST;
                        body := Errors [("non_field_errors",
                                  message "Unsupported delivery type: express")] |};
       db_after := example_db; session_after := empty_session |}.
Proof. vm_compute. reflexivity. Qed.

(** A subtotal that passes its field and a total that does not fit the
    column: the largest subtotal, 99999999999.99, with an express fee of
    200.00 is refused by the write, and the order stays as it was. *)
Example confirmation_total_out_of_range :
  serve false
    (Confirmation 1 (mkRequest (AuthenticatedUser (Some 7)) empty_session
       {| OrderConfirmSerializer.deliveryType := Some "express";
          OrderConfirmSerializer.paymentType := None;
          OrderConfirmSerializer.totalCost := Some 9999999999999;
          OrderConfirmSerializer.status := None;
          OrderConfirmSerializer.city := None;
          OrderConfirmSerializer.address := None |}))
    {| vendor := sqlite;
       Product_objects := Product_objects example_db;
       Order_objects := Order_objects example_db;
       Order_next_pk := 3;
       OrderItem_objects := [];
       OrderDeliveryType_objects :=
         [OrderDeliveryType.mk "express" 0 20000];
       Payment_objects := [] |}
  = {| outcome := Raise InvalidOperation;
       db_after :=
         {| vendor := sqlite;
            Product_objects := Product_objects example_db;
            Order_objects := Order_objects example_db;
            Order_next_pk := 3;
            OrderItem_objects := [];
            OrderDeliveryType_objects :=
              [OrderDeliveryType.mk "express" 0 20000];
            Payment_objects := [] |};
       session_after := empty_session |}.
Proof. vm_compute. reflexivity. Qed.

(** ** The total of the cart *)

Lemma cart_sum_cons (item : Cart.Item) (items : list Cart.Item) :
  cart_sum (item :: items)
  = Cart.price (Cart.product_data item) * Cart.count (Cart.product_data item)
    + cart_sum items.
Proof. reflexivity. Qed.

Lemma cart_magnitude_cons (item : Cart.Item) (items : list Cart.Item) :
  cart_magnitude (item :: items)
  = Z.abs (Cart.price (Cart.product_data item) * Cart.count (Cart.product_data item))
    + cart_magnitude items.
Proof. reflexivity. Qed.

Lemma cart_magnitude_nonneg (items : list Cart.Item) : 0 <= cart_magnitude items.
Proof.
  induction items as [| item items IH]; [reflexivity |].
  rewrite cart_magnitude_cons. lia.
Qed.


(** With lines whose sizes add up to at most 28 digits the loop of
    [get_cart_total] rounds nothing. *)
Lemma get_cart_total_loop_exact (items : list Cart.Item) (total : Decimal) :
  Z.abs total + cart_magnitude items < 10 ^ 28 ->
  Cart.get_cart_total_loop items total = Ok (total + cart_sum items).
Proof.
  revert total. induction items as [| item items IH]; intros total H.
  - cbn. rewrite Z.add_0_r. reflexivity.
  - rewrite cart_magnitude_cons in H. rewrite cart_sum_cons.
    pose proof (cart_magnitude_nonneg items).
    cbn [Cart.get_cart_total_loop]. unfold decimal.mul, decimal.add.
    rewrite finish_exact by lia. rewrite finish_exact by lia.
    rewrite IH by lia. f_equal. lia.
Qed.

Lemma get_cart_total_exact (items : list Cart.Item) :
  cart_magnitude items < 10 ^ 28 ->
  Cart.get_cart_total items = Ok (cart_sum items).
Proof.
  intros H. unfold Cart.get_cart_total.
  rewrite get_cart_total_loop_exact by (rewrite Z.abs_0; lia). reflexivity.
Qed.

(** ** Checkout *)




Lemma Cart_init_after_checkout (oid : option Z) :
  (Cart_init {| session_cart := Some EmptyDict; session_order_id := oid |}).2 = [].
Proof. reflexivity. Qed.





Lemma example_db_wf : db_wf example_db.
Proof.
  split.
  - intros pk Hpk. cbn in *. rewrite lookup_insert_ne by lia.
    apply lookup_singleton_ne. lia.
  - constructor.
Qed.



Example checkout_total_is_50 :
  Cart.get_cart_total example_cart = Ok 5000 /\ cart_sum example_cart = 5000.
Proof. split; reflexivity. Qed.


(** A posted count that the column refuses: the check of the column
    raises IntegrityError, nothing is answered, and the order created at
    the start stays without a status. *)
Example negative_count_is_refused :
  let served := serve false (Checkout negative_count_checkout) example_db in
  outcome served = Raise IntegrityError
  /\ Order_objects (db_after served) !! 3 = Some (Order.create (Some 7))
  /\ OrderItem_objects (db_after served) = []
  /\ session_after served = session negative_count_checkout.
Proof.
  cbv zeta. repeat split; vm_compute; reflexivity.
Qed.

(** A cart whose total does not fit the column of the order: the items
    are created, then the write of the total is refused. *)
Example checkout_total_out_of_range :
  let cart :=
    [ {| Cart.product_id := "1";
         Cart.product_data := {| Cart.title := "Test product 1";
                                 Cart.price := 1000;
                                 Cart.count := 10000000000 |} |} ] in
  let served :=
    serve false
      (Checkout (mkRequest (AuthenticatedUser (Some 7))
                   {| session_cart := Some (ItemsDict cart);
                      session_order_id := None |}
                   [ProductLine.mk 1 2]))
      example_db in
  Cart.get_cart_total cart = Ok (10 ^ 13)
  /\ outcome served = Raise InvalidOperation
  /\ Order_objects (db_after served) !! 3 = Some (Order.create (Some 7))
  /\ OrderItem_objects (db_after served)
     = [ {| OrderItem.order := 3; OrderItem.product := 1; OrderItem.quantity := 2 |} ].
Proof.
  cbv zeta. repeat split; vm_compute; reflexivity.
Qed.




(** ** The total cost *)

Lemma get_cart_total_loop_nonneg (cart : list Cart.Item) (acc total : Decimal) :
  cart_lines_nonneg cart -> 0 <= acc ->
  Cart.get_cart_total_loop cart acc = Ok total -> 0 <= total.
Proof.
  intros Hcart. revert acc.
  induction Hcart as [| item cart [Hp Hc] _ IH]; intros acc Hacc; cbn.
  - intros [= <-]. exact Hacc.
  - unfold decimal.mul, decimal.add.
    destruct (decimal.finish (_ * _)) as [line |] eqn:Hline; [| discriminate].
    apply finish_nonneg in Hline; [| nia].
    destruct (decimal.finish (acc + line)) as [acc' |] eqn:Hacc'; [| discriminate].
    apply finish_nonneg in Hacc'; [| lia].
    apply IH. exact Hacc'.
Qed.

Lemma get_cart_total_nonneg (cart : list Cart.Item) (total : Decimal) :
  cart_lines_nonneg cart -> Cart.get_cart_total cart = Ok total -> 0 <= total.
Proof.
  intros Hcart. apply (get_cart_total_loop_nonneg cart 0); [exact Hcart | lia].
Qed.

Lemma totalCost_nonneg_UPDATE (pk : Z) (o : Order.t) (db : DB) :
  totalCost_nonneg db -> 0 <= Order.totalCost o ->
  totalCost_nonneg (Order_UPDATE pk o db).
Proof.
  intros Hdb Ho k o' Hk. cbn in Hk.
  apply lookup_insert_Some in Hk as [[_ <-] | [_ Hk]]; [exact Ho | eauto].
Qed.

Lemma totalCost_nonneg_orders (db db' : DB) :
  Order_objects db' = Order_objects db ->
  totalCost_nonneg db -> totalCost_nonneg db'.
Proof. unfold totalCost_nonneg. intros ->. auto. Qed.

Lemma dispatch_preserves (P : DB -> Prop) (ATOMIC_REQUESTS : bool) (db : DB)
    (s : Session) (served : Served) :
  P db -> P (db_after served) ->
  P (db_after (dispatch ATOMIC_REQUESTS db s served)).
Proof.
  intros Hdb Hafter. unfold dispatch.
  destruct (outcome served) as [r | e]; [exact Hafter |].
  destruct (handle_exception e), ATOMIC_REQUESTS; cbn; assumption.
Qed.

Lemma partial_field_inr {A : Type} (field : A -> Validated A) (o v : option A) :
  (forall a a', field a = Valid a' -> a' = a) ->
  partial_field field o = Valid v -> v = o.
Proof.
  intros Hf. unfold partial_field. destruct o as [a |].
  - destruct (field a) as [a' |] eqn:E; [| discriminate].
    intros [= <-]. rewrite (Hf _ _ E). reflexivity.
  - intros [= <-]. reflexivity.
Qed.

Lemma CharField_same (n : Z) (s v : string) : CharField n s = Valid v -> v = s.
Proof.
  unfold CharField. destruct (s =? "")%string; [discriminate |].
  destruct (n <? Py.len s); [discriminate |].
  destruct (Py.has_null s); [discriminate | congruence].
Qed.

Lemma DecimalField_same (n : Z) (c v : Decimal) : DecimalField n c = Valid v -> v = c.
Proof.
  unfold DecimalField. destruct (Z.abs c <? 10 ^ n); [congruence | discriminate].
Qed.

(** Field validation changes no value: the validated data are the data
    of the request. *)
Lemma to_internal_value_inr (raw d : OrderConfirmSerializer.Data) :
  OrderConfirmSerializer.to_internal_value raw = inr d -> d = raw.
Proof.
  unfold OrderConfirmSerializer.to_internal_value,
    OrderConfirmSerializer.deliveryType_field, OrderConfirmSerializer.paymentType_field,
    OrderConfirmSerializer.totalCost_field, OrderConfirmSerializer.status_field,
    OrderConfirmSerializer.city_field, OrderConfirmSerializer.address_field.
  destruct (partial_field (CharField 20) (OrderConfirmSerializer.deliveryType raw))
    as [dt |] eqn:E1; [| discriminate].
  destruct (partial_field (CharField 20) (OrderConfirmSerializer.paymentType raw))
    as [pt |] eqn:E2; [| discriminate].
  destruct (partial_field (DecimalField 13) (OrderConfirmSerializer.totalCost raw))
    as [tc |] eqn:E3; [| discriminate].
  destruct (partial_field (CharField 20) (OrderConfirmSerializer.status raw))
    as [st |] eqn:E4; [| discriminate].
  destruct (partial_field (CharField 100) (OrderConfirmSerializer.city raw))
    as [ci |] eqn:E5; [| discriminate].
  destruct (partial_field (CharField 100) (OrderConfirmSerializer.address raw))
    as [ad |] eqn:E6; [| discriminate].
  intros [= <-].
  apply partial_field_inr in E1, E2, E3, E4, E5, E6;
    try (intros ? ?; apply CharField_same); try (intros ? ?; apply DecimalField_same).
  subst. destruct raw. reflexivity.
Qed.

Lemma get_Ok_In (db : DB) (ty : string) (r : OrderDeliveryType.t) :
  OrderDeliveryType_objects_get db ty = Ok r -> In r (OrderDeliveryType_objects db).
Proof.
  unfold OrderDeliveryType_objects_get.
  destruct (List.filter _ _) as [| r' [| r'' rows]] eqn:E; try discriminate.
  intros [= <-].
  assert (H : In r' (List.filter
                       (fun r => (OrderDeliveryType.type r =? ty)%string)
                       (OrderDeliveryType_objects db)))
    by (rewrite E; left; reflexivity).
  apply List.filter_In in H. tauto.
Qed.

(** What a valid confirmation stores as the total: the subtotal, or
    what the addition of a delivery cost to it returns. *)
Lemma validate_totalCost (db : DB) (d d' : OrderConfirmSerializer.Data) :
  OrderConfirmSerializer.validate db d = Ok (Valid d') ->
  exists subtotal,
    OrderConfirmSerializer.totalCost d = Some subtotal
    /\ (OrderConfirmSerializer.totalCost d' = Some subtotal
        \/ exists rule total,
             In rule (OrderDeliveryType_objects db)
             /\ decimal.add subtotal (OrderDeliveryType.delivery_cost rule) = Ok total
             /\ OrderConfirmSerializer.totalCost d' = Some total).
Proof.
  unfold OrderConfirmSerializer.validate.
  destruct (OrderConfirmSerializer.deliveryType d) as [ty |]; [| discriminate].
  destruct (OrderDeliveryType_objects_get db ty) as [rule | e] eqn:Hget.
  - destruct (OrderConfirmSerializer.totalCost d) as [subtotal |] eqn:Hsub;
      [| discriminate].
    destruct ((ty =? "free")%string && (OrderDeliveryType.min_cost rule <? subtotal)).
    + intros [= <-]. exists subtotal. auto.
    + destruct (decimal.add subtotal (OrderDeliveryType.delivery_cost rule))
        as [total |] eqn:Hadd; [| discriminate].
      intros [= <-]. exists subtotal. split; [reflexivity |]. right.
      exists rule, total. split; [exact (get_Ok_In _ _ _ Hget) |]. auto.
  - destruct e; discriminate.
Qed.

Lemma totalCost_nonneg_create (p : option Z) (db : DB) :
  totalCost_nonneg db -> totalCost_nonneg (Order_objects_create p db).2.
Proof.
  intros Hdb k o Hk. cbn in Hk.
  apply lookup_insert_Some in Hk as [[_ <-] | [_ Hk]]; [reflexivity | eauto].
Qed.

Lemma checkout_totalCost_nonneg (request : Request (list ProductLine.t)) (db : DB) :
  totalCost_nonneg db ->
  cart_lines_nonneg (Cart_init (session request)).2 ->
  totalCost_nonneg (db_after (OrderView_post request db)).
Proof.
  intros Hdb Hcart.
  apply (OrderView_post_cases request db
           (fun served => totalCost_nonneg (db_after served))); [intros; exact Hdb |].
  intros pk order db1 items Hcheckout _.
  assert (H1 : totalCost_nonneg (add_items db1 items)).
  { apply (totalCost_nonneg_orders db1); [reflexivity |].
    apply checkout_order_Ok in Hcheckout
      as [(_ & _ & ->) | (_ & p & _ & _ & _ & ->)];
      [exact Hdb | apply totalCost_nonneg_create, Hdb]. }
  split; [intros; exact H1 |].
  intros total Htotal _. cbn [db_after].
  apply totalCost_nonneg_UPDATE; [exact H1 |].
  exact (get_cart_total_nonneg _ _ Hcart Htotal).
Qed.

Lemma confirmation_totalCost_nonneg (pk : Z)
    (request : Request OrderConfirmSerializer.Data) (db : DB) :
  totalCost_nonneg db ->
  (forall c, OrderConfirmSerializer.totalCost (data request) = Some c -> 0 <= c) ->
  Forall (fun r => 0 <= OrderDeliveryType.delivery_cost r)
         (OrderDeliveryType_objects db) ->
  totalCost_nonneg (db_after (OrderDetailView_post pk request db)).
Proof.
  intros Hdb Hsub Hrules.
  apply (OrderDetailView_post_cases pk request db
           (fun served => totalCost_nonneg (db_after served))); [intros; exact Hdb |].
  intros order p d d' Horder _ _ _ Hd Hv _. cbn [db_after].
  apply to_internal_value_inr in Hd. subst d.
  apply validate_totalCost in Hv as (subtotal & Hs & Hd').
  apply totalCost_nonneg_UPDATE; [exact Hdb |]. cbn.
  destruct Hd' as [-> | (rule & total & Hin & Hadd & ->)]; cbn.
  - apply Hsub, Hs.
  - apply Hsub in Hs. rewrite List.Forall_forall in Hrules.
    apply Hrules in Hin. apply (finish_nonneg _ _ Hadd). lia.
Qed.

Lemma payment_totalCost_nonneg (pk : Z) (request : Request PaymentSerializer.Data)
    (db : DB) :
  totalCost_nonneg db ->
  totalCost_nonneg (db_after (PaymentView_post pk request db)).
Proof.
  intros Hdb.
  apply (PaymentView_post_cases pk request db
           (fun served => totalCost_nonneg (db_after served))); [intros; exact Hdb |].
  intros order p v Horder _ _ _ _ _. cbn [db_after].
  apply totalCost_nonneg_UPDATE; [exact Hdb |]. exact (Hdb pk order Horder).
Qed.

(** C9, as the code has it. Every core operation keeps every order's
    totalCost non-negative when its inputs are: for a checkout, which
    stores the total of the cart, no cart line has a negative price or
    count; for a confirmation, which stores the client-supplied subtotal
    with or without the delivery cost, neither the subtotal nor a
    configured delivery cost is negative; a payment needs no condition. *)
Theorem C9_totalCost_stays_nonneg
    (ATOMIC_REQUESTS : bool) (op : CoreOp) (db : DB) :
  totalCost_nonneg db ->
  nonneg_inputs op db ->
  totalCost_nonneg (db_after (serve ATOMIC_REQUESTS op db)).
Proof.
  intros Hdb Hin. unfold serve.
  apply (dispatch_preserves totalCost_nonneg); [exact Hdb |].
  destruct op as [request | pk request | pk request]; cbn in Hin.
  - apply checkout_totalCost_nonneg; assumption.
  - destruct Hin as [Hsub Hrules]. apply confirmation_totalCost_nonneg; assumption.
  - apply payment_totalCost_nonneg; assumption.
Qed.

Lemma example_db_totalCost_nonneg : totalCost_nonneg example_db.
Proof.
  intros pk o H. cbn in H.
  apply lookup_insert_Some in H as [[_ <-] | [_ H]]; [cbn; lia |].
  apply lookup_singleton_Some in H as [_ <-]. cbn. lia.
Qed.

Lemma C9_totalCost_stays_nonneg_witness :
  totalCost_nonneg
    (db_after (serve false
       (Confirmation 1 (mkRequest (AuthenticatedUser (Some 7)) empty_session
                          (example_confirmation 199900))) example_db)).
Proof.
  apply (C9_totalCost_stays_nonneg false
           (Confirmation 1 (mkRequest (AuthenticatedUser (Some 7)) empty_session
                              (example_confirmation 199900))) example_db).
  - exact example_db_totalCost_nonneg.
  - split.
    + intros c [= <-]. lia.
    + repeat constructor. cbn. lia.
Defined.

(** C9 as it is written fails: the subtotal of a confirmation is the
    client's, and a negative one is stored. *)
Lemma C9_counterexample :
  let served :=
    serve false
      (Confirmation 1 (mkRequest (AuthenticatedUser (Some 7)) empty_session
                         (example_confirmation (-50000)))) example_db in
  totalCost_nonneg example_db
  /\ outcome served = Ok {| status_code := HTTP_200_OK; body := NoBody |}
  /\ Order.totalCost <$> Order_objects (db_after served) !! 1 = Some (-30000)
  /\ ~ totalCost_nonneg (db_after served).
Proof.
  cbv zeta.
  assert (H : Order_objects
                (db_after (serve false
                   (Confirmation 1 (mkRequest (AuthenticatedUser (Some 7)) empty_session
                                      (example_confirmation (-50000)))) example_db)) !! 1
              = Some (confirmed_order (example_order "confirmed")
                        (example_confirmation (-50000)) "free" (-30000)))
    by (vm_compute; reflexivity).
  split; [exact example_db_totalCost_nonneg |].
  split; [vm_compute; reflexivity |].
  split; [rewrite H; reflexivity |].
  intros Hnn. apply Hnn in H. cbn in H. lia.
Qed.

(** ** The order state machine *)

Lemma status_rank_max (s : string) : status_rank s <= 3.
Proof.
  unfold status_rank.
  destruct (s =? "accepted")%string, (s =? "confirmed")%string, (s =? "paid")%string; lia.
Qed.

Lemma status_rank_not_paid (s : string) : s <> "paid" -> status_rank s <= 2.
Proof.
  intros H. apply String.eqb_neq in H. unfold status_rank. rewrite H.
  destruct (s =? "accepted")%string, (s =? "confirmed")%string; lia.
Qed.

Lemma moves_forward_refl (db : DB) : moves_forward db db.
Proof. intros pk o H. exists o. split; [exact H | lia]. Qed.

Lemma moves_forward_trans (db1 db2 db3 : DB) :
  moves_forward db1 db2 -> moves_forward db2 db3 -> moves_forward db1 db3.
Proof.
  intros H12 H23 pk o H. destruct (H12 pk o H) as (o2 & H2 & Hr2).
  destruct (H23 pk o2 H2) as (o3 & H3 & Hr3). exists o3. split; [exact H3 | lia].
Qed.

Lemma db_wf_key (db : DB) (pk : Z) (o : Order.t) :
  db_wf db -> Order_objects db !! pk = Some o -> pk < Order_next_pk db.
Proof.
  intros [Hkeys _] H. destruct (Z_lt_le_dec pk (Order_next_pk db)) as [Hlt | Hge];
    [exact Hlt |].
  rewrite (Hkeys pk Hge) in H. discriminate.
Qed.

Lemma db_wf_UPDATE (pk : Z) (o : Order.t) (db : DB) :
  db_wf db -> pk < Order_next_pk db -> db_wf (Order_UPDATE pk o db).
Proof.
  intros [Hkeys Hitems] Hpk. split; [| exact Hitems].
  intros k Hk. cbn in *. rewrite lookup_insert_ne by lia. apply Hkeys, Hk.
Qed.

Lemma db_wf_create (p : option Z) (db : DB) :
  db_wf db -> db_wf (Order_objects_create p db).2.
Proof.
  intros [Hkeys Hitems]. split; cbn.
  - intros k Hk. rewrite lookup_insert_ne by lia. apply Hkeys. lia.
  - eapply List.Forall_impl; [| exact Hitems]. cbn. intros i Hi. lia.
Qed.

Lemma db_wf_add_items (db : DB) (items : list OrderItem.t) :
  db_wf db ->
  Forall (fun i => OrderItem.order i < Order_next_pk db) items ->
  db_wf (add_items db items).
Proof.
  intros [Hkeys Hitems] Hnew. split; cbn; [exact Hkeys |].
  apply Forall_app. auto.
Qed.

(** Saving an existing order in a state that is not earlier. *)
Lemma moves_forward_UPDATE (pk : Z) (o o' : Order.t) (db : DB) :
  Order_objects db !! pk = Some o ->
  status_rank (Order.status o) <= status_rank (Order.status o') ->
  moves_forward db (Order_UPDATE pk o' db).
Proof.
  intros Ho Hrank k ok Hk. cbn. destruct (decide (pk = k)) as [<- | Hne].
  - rewrite lookup_insert_eq. exists o'. split; [reflexivity |].
    rewrite Ho in Hk. injection Hk as <-. exact Hrank.
  - rewrite lookup_insert_ne by exact Hne. exists ok. split; [exact Hk | lia].
Qed.

(** Writing under a key that no order has. *)
Lemma moves_forward_new (db db' : DB) (pk : Z) (o : Order.t) :
  Order_objects db !! pk = None ->
  Order_objects db' = <[pk := o]> (Order_objects db) ->
  moves_forward db db'.
Proof.
  intros Hnone Heq k ok Hk. rewrite Heq. exists ok. split; [| lia].
  rewrite lookup_insert_ne; [exact Hk | congruence].
Qed.

Lemma checkout_step (request : Request (list ProductLine.t)) (db : DB) :
  db_wf db ->
  session_order_id (session request) = None ->
  db_wf (db_after (OrderView_post request db))
  /\ moves_forward db (db_after (OrderView_post request db)).
Proof.
  intros Hwf Hsess.
  apply (OrderView_post_cases request db
           (fun served => db_wf (db_after served) /\ moves_forward db (db_after served))).
  - intros e _. split; [exact Hwf | apply moves_forward_refl].
  - intros pk order db1 items Hcheckout Hall.
    apply checkout_order_Ok in Hcheckout
      as [(Hpending & _) | (_ & p & _ & -> & -> & ->)]; [congruence |].
    assert (Hnone : Order_objects db !! Order_next_pk db = None)
      by (apply Hwf; lia).
    assert (Hwf1 : db_wf (add_items (Order_objects_create (Some p) db).2 items)).
    { apply db_wf_add_items; [apply db_wf_create, Hwf |].
      eapply List.Forall_impl; [| exact Hall]. cbn. intros i [-> _]. lia. }
    split.
    + intros e. cbn [db_after]. split; [exact Hwf1 |].
      apply (moves_forward_new db _ (Order_next_pk db) (Order.create (Some p)));
        [exact Hnone | reflexivity].
    + intros total _ _. cbn [db_after]. split.
      * apply db_wf_UPDATE; [exact Hwf1 | cbn; lia].
      * eapply (moves_forward_new db _ (Order_next_pk db)); [exact Hnone |].
        cbn. apply insert_insert_eq.
Qed.

Lemma confirmation_step (pk : Z) (request : Request OrderConfirmSerializer.Data)
    (db : DB) :
  db_wf db ->
  db_wf (db_after (OrderDetailView_post pk request db))
  /\ moves_forward db (db_after (OrderDetailView_post pk request db)).
Proof.
  intros Hwf.
  apply (OrderDetailView_post_cases pk request db
           (fun served => db_wf (db_after served) /\ moves_forward db (db_after served))).
  - intros r. split; [exact Hwf | apply moves_forward_refl].
  - intros order p d d' Horder _ _ Hst _ _ _. cbn [db_after]. split.
    + apply db_wf_UPDATE; [exact Hwf | exact (db_wf_key _ _ _ Hwf Horder)].
    + apply (moves_forward_UPDATE pk order); [exact Horder |].
      apply status_rank_not_paid in Hst.
      change (status_rank (Order.status order) <= status_rank "confirmed").
      change (status_rank "confirmed") with 2. exact Hst.
Qed.

Lemma payment_step (pk : Z) (request : Request PaymentSerializer.Data) (db : DB) :
  db_wf db ->
  db_wf (db_after (PaymentView_post pk request db))
  /\ moves_forward db (db_after (PaymentView_post pk request db)).
Proof.
  intros Hwf.
  apply (PaymentView_post_cases pk request db
           (fun served => db_wf (db_after served) /\ moves_forward db (db_after served))).
  - intros r. split; [exact Hwf | apply moves_forward_refl].
  - intros order p v Horder _ _ _ _ _. cbn [db_after]. split.
    + apply db_wf_UPDATE; [exact Hwf | exact (db_wf_key _ _ _ Hwf Horder)].
    + apply (moves_forward_UPDATE pk order); [exact Horder |].
      cbn. apply status_rank_max.
Qed.

Lemma serve_step (ATOMIC_REQUESTS : bool) (op : CoreOp) (db : DB) :
  db_wf db ->
  no_pending_order op ->
  db_wf (db_after (serve ATOMIC_REQUESTS op db))
  /\ moves_forward db (db_after (serve ATOMIC_REQUESTS op db)).
Proof.
  intros Hwf Hop. unfold serve.
  apply (dispatch_preserves (fun db' => db_wf db' /\ moves_forward db db')).
  - split; [exact Hwf | apply moves_forward_refl].
  - destruct op as [request | pk request | pk request].
    + apply checkout_step; assumption.
    + apply confirmation_step; assumption.
    + apply payment_step; assumption.
Qed.

(** The operations never store the session key ['order_id']. *)
Lemma serve_keeps_no_pending_order (ATOMIC_REQUESTS : bool) (op : CoreOp) (db : DB) :
  no_pending_order op ->
  session_order_id (session_after (serve ATOMIC_REQUESTS op db)) = None.
Proof.
  unfold no_pending_order. intros Hop. unfold serve.
  assert (Hd : forall served,
             session_order_id (session_after served) = None ->
             session_order_id
               (session_after (dispatch ATOMIC_REQUESTS db (op_session op) served))
             = None).
  { intros served H. unfold dispatch. destruct (outcome served) as [r | e]; [exact H |].
    destruct (handle_exception e); cbn; assumption. }
  apply Hd. destruct op as [request | pk request | pk request]; cbn in Hop.
  - assert (Hinit : session_order_id (Cart_init (session request)).1 = None).
    { unfold Cart_init. destruct (session_cart (session request)) as [[| items] |];
        exact Hop. }
    apply (OrderView_post_cases request db
             (fun served => session_order_id (session_after served) = None)).
    + intros e _. exact Hinit.
    + intros pk order db1 items _ _. split; [intros e; exact Hinit | reflexivity].
  - apply (OrderDetailView_post_cases pk request db
             (fun served => session_order_id (session_after served) = None));
      intros; exact Hop.
  - apply (PaymentView_post_cases pk request db
             (fun served => session_order_id (session_after served) = None));
      intros; exact Hop.
Qed.

Lemma call_op_session (c : CoreCall) (s : Session) : op_session (call_op c s) = s.
Proof. destruct c; reflexivity. Qed.

Lemma world_step_forward (ATOMIC_REQUESTS : bool) (w : World) (c : CoreCall) :
  db_wf (world_db w) ->
  sessions_clean (world_sessions w) ->
  db_wf (world_db (world_step ATOMIC_REQUESTS w c))
  /\ sessions_clean (world_sessions (world_step ATOMIC_REQUESTS w c))
  /\ moves_forward (world_db w) (world_db (world_step ATOMIC_REQUESTS w c)).
Proof.
  intros Hwf Hclean. unfold world_step.
  set (s := default fresh_session (world_sessions w !! call_session_key c)).
  assert (Hs : no_pending_order (call_op c s)).
  { unfold no_pending_order. rewrite call_op_session. unfold s.
    destruct (world_sessions w !! call_session_key c) as [s' |] eqn:E; cbn;
      [exact (Hclean _ _ E) | reflexivity]. }
  destruct (serve_step ATOMIC_REQUESTS (call_op c s) (world_db w) Hwf Hs)
    as [Hwf' Hforward].
  cbn. split; [exact Hwf' |]. split; [| exact Hforward].
  intros key s' Hkey.
  apply lookup_insert_Some in Hkey as [[_ <-] | [_ Hkey]].
  - apply serve_keeps_no_pending_order, Hs.
  - exact (Hclean _ _ Hkey).
Qed.

Lemma world_run_forward (ATOMIC_REQUESTS : bool) (cs : list CoreCall) (w : World) :
  db_wf (world_db w) ->
  sessions_clean (world_sessions w) ->
  db_wf (world_db (world_run ATOMIC_REQUESTS cs w))
  /\ sessions_clean (world_sessions (world_run ATOMIC_REQUESTS cs w))
  /\ moves_forward (world_db w) (world_db (world_run ATOMIC_REQUESTS cs w)).
Proof.
  revert w. induction cs as [| c cs IH]; intros w Hwf Hclean; cbn.
  - split; [exact Hwf |]. split; [exact Hclean | apply moves_forward_refl].
  - destruct (world_step_forward ATOMIC_REQUESTS w c Hwf Hclean)
      as (Hwf1 & Hclean1 & Hf1).
    destruct (IH _ Hwf1 Hclean1) as (Hwf2 & Hclean2 & Hf2).
    split; [exact Hwf2 |]. split; [exact Hclean2 |].
    exact (moves_forward_trans _ _ _ Hf1 Hf2).
Qed.

Lemma world_run_app (ATOMIC_REQUESTS : bool) (cs1 cs2 : list CoreCall) (w : World) :
  world_run ATOMIC_REQUESTS (cs1 ++ cs2) w
  = world_run ATOMIC_REQUESTS cs2 (world_run ATOMIC_REQUESTS cs1 w).
Proof. unfold world_run. apply fold_left_app. Qed.

(** C2. For every sequence of core operations (checkout, confirmation,
    payment), by any clients, and every order that exists at some point
    of the sequence, the order is still there at every later point and
    its status is where it was or further along accepted, confirmed,
    paid: no operation moves it backward. The sequence starts from any
    database whose keys are below the auto-increment counter and any
    session store in which no session holds the key ['order_id']; the
    operations keep both so. *)
Theorem C2_status_never_moves_backward
    (ATOMIC_REQUESTS : bool) (before after : list CoreCall) (w : World)
    (pk : Z) (order : Order.t) :
  db_wf (world_db w) ->
  sessions_clean (world_sessions w) ->
  Order_objects (world_db (world_run ATOMIC_REQUESTS before w)) !! pk = Some order ->
  exists order',
    Order_objects (world_db (world_run ATOMIC_REQUESTS (before ++ after) w)) !! pk
    = Some order'
    /\ status_rank (Order.status order) <= status_rank (Order.status order').
Proof.
  intros Hwf Hclean Horder. rewrite world_run_app.
  destruct (world_run_forward ATOMIC_REQUESTS before w Hwf Hclean)
    as (Hwf1 & Hclean1 & _).
  destruct (world_run_forward ATOMIC_REQUESTS after _ Hwf1 Hclean1)
    as (_ & _ & Hforward).
  exact (Hforward pk order Horder).
Qed.

Lemma example_world_clean : sessions_clean (world_sessions example_world).
Proof.
  intros key s H. cbn in H. apply lookup_singleton_Some in H as [_ <-]. reflexivity.
Qed.

(** The order checked out by the first call of the example is followed
    through its confirmation, its payment and a further confirmation. *)
Lemma C2_status_never_moves_backward_witness :
  exists order',
    Order_objects
      (world_db (world_run false (example_checkout_call ++ example_later_calls)
                   example_world)) !! 3
    = Some order'
    /\ status_rank (Order.status (accepted_order 7 5000))
       <= status_rank (Order.status order').
Proof.
  apply (C2_status_never_moves_backward false example_checkout_call
           example_later_calls example_world 3 (accepted_order 7 5000)).
  - exact example_db_wf.
  - exact example_world_clean.
  - vm_compute. reflexivity.
Defined.

(** The life of an order of the example: checked out as 'accepted',
    confirmed, paid, and then closed to a further confirmation. *)
Example example_life_cycle :
  Order.status
  <$> Order_objects
        (world_db (world_run false example_checkout_call example_world)) !! 3
  = Some "accepted"
  /\ Order.status
     <$> Order_objects
           (world_db (world_run false
              (example_checkout_call ++ take 1 example_later_calls)
              example_world)) !! 3
     = Some "confirmed"
  /\ Order.status
     <$> Order_objects
           (world_db (world_run false
              (example_checkout_call ++ example_later_calls) example_world)) !! 3
     = Some "paid".
Proof. repeat split; vm_compute; reflexivity. Qed.

(** The branch of the checkout for a session that holds ['order_id'] is
    outside these sequences: it would check the named order out again. *)
Example checkout_of_a_pending_order :
  Order.status
  <$> Order_objects
        (db_after (serve false
           (Checkout (mkRequest (AuthenticatedUser (Some 7)) pending_order_session []))
           example_db)) !! 2
  = Some "accepted".
Proof. vm_compute. reflexivity. Qed.


(** ** The cart *)

Section CartLoops.

Variables (pid : string) (quantity : Z).

Local Abbreviation other := (fun y : Cart.Item => Cart.product_id y <> pid).

Lemma list_remove_length (x : Cart.Item) (l : list Cart.Item) :
  (length (Cart.list_remove x l) <= length l)%nat.
Proof.
  induction l as [| y l IH]; cbn; [lia |].
  destruct (decide (y = x)); cbn; lia.
Qed.

(** The loop of [remove] ends because its index passes the end of the
    list: more fuel than the length of the list changes nothing. *)
Lemma remove_loop_fuel (fuel k i : nat) (items : list Cart.Item) :
  (length items <= i + fuel)%nat ->
  Cart.remove_loop (fuel + k) i items pid quantity
  = Cart.remove_loop fuel i items pid quantity.
Proof.
  revert i items. induction fuel as [| fuel IH]; intros i items Hlen.
  - cbn [Nat.add]. destruct k as [| k]; [reflexivity |]. cbn.
    rewrite lookup_ge_None_2 by lia. reflexivity.
  - cbn. destruct (items !! i) as [item |]; [| reflexivity].
    destruct (Cart.product_id item =? pid)%string.
    + apply IH.
      destruct (_ <=? 0).
      * pose proof (list_remove_length
                      (Cart.set_count item
                         (Cart.count (Cart.product_data item) - quantity))
                      (<[i := Cart.set_count item
                                (Cart.count (Cart.product_data item) - quantity)]> items))
          as Hr.
        rewrite length_insert in Hr. lia.
      * rewrite length_insert. lia.
    + apply IH. lia.
Qed.

(** Past the line of the product the loop changes nothing. *)
Lemma remove_loop_no_match (fuel i : nat) (items : list Cart.Item) :
  Forall other (drop i items) ->
  Cart.remove_loop fuel i items pid quantity = items.
Proof.
  revert i. induction fuel as [| fuel IH]; intros i Hrest; [reflexivity |].
  cbn. destruct (items !! i) as [item |] eqn:Hi; [| reflexivity].
  assert (Hdrop : drop i items = item :: drop (S i) items)
    by (apply drop_S, Hi).
  rewrite Hdrop in Hrest. apply Forall_cons in Hrest as [Hitem Hrest].
  apply String.eqb_neq in Hitem. rewrite Hitem. apply IH, Hrest.
Qed.

Lemma list_remove_middle (pre suf : list Cart.Item) (x : Cart.Item) :
  Forall (fun y => Cart.product_id y <> Cart.product_id x) pre ->
  Cart.list_remove x (pre ++ x :: suf) = pre ++ suf.
Proof.
  induction 1 as [| y pre Hy _ IH]; cbn.
  - rewrite decide_True by reflexivity. reflexivity.
  - rewrite decide_False by congruence. rewrite IH. reflexivity.
Qed.

Lemma NoDup_ids_cons (x : Cart.Item) (l : list Cart.Item) :
  NoDup (Cart.product_id <$> (x :: l)) <->
  Forall (fun y => Cart.product_id y <> Cart.product_id x) l
  /\ NoDup (Cart.product_id <$> l).
Proof.
  rewrite fmap_cons, NoDup_cons, list_elem_of_fmap, List.Forall_forall.
  split; intros [Hx Hl]; (split; [| exact Hl]).
  - intros y Hy Heq. apply Hx. exists y. split; [congruence |].
    apply list_elem_of_In, Hy.
  - intros (y & Heq & Hy). apply list_elem_of_In in Hy.
    apply (Hx y Hy). congruence.
Qed.

(** On a cart with one line per product id, the loop of [remove] over
    the list it mutates does what [remove_spec] says. *)
Lemma remove_loop_spec (fuel : nat) (pre suf : list Cart.Item) :
  Forall other pre ->
  NoDup (Cart.product_id <$> suf) ->
  (length suf <= fuel)%nat ->
  Cart.remove_loop fuel (length pre) (pre ++ suf) pid quantity
  = pre ++ remove_spec suf pid quantity.
Proof.
  revert fuel pre. induction suf as [| x suf IH]; intros fuel pre Hpre Hnd Hlen.
  - cbn. apply remove_loop_no_match.
    rewrite app_nil_r, drop_all. constructor.
  - destruct fuel as [| fuel]; [cbn in Hlen; lia |].
    apply NoDup_ids_cons in Hnd as [Hx Hnd]. cbn in Hlen.
    cbn [Cart.remove_loop remove_spec].
    rewrite list_lookup_middle by reflexivity.
    destruct (String.eqb_spec (Cart.product_id x) pid) as [Heq | Hne].
    + set (x' := Cart.set_count x (Cart.count (Cart.product_data x) - quantity)).
      assert (Hins : <[length pre := x']> (pre ++ x :: suf) = pre ++ x' :: suf).
      { replace (length pre) with (length pre + 0)%nat by lia.
        rewrite insert_app_r. reflexivity. }
      rewrite Hins.
      assert (Hrest : Forall other suf).
      { eapply List.Forall_impl; [| exact Hx]. cbn. intros y Hy. congruence. }
      change (Cart.count (Cart.product_data x'))
        with (Cart.count (Cart.product_data x) - quantity).
      destruct (_ <=? 0).
      * rewrite list_remove_middle.
        -- apply remove_loop_no_match.
           rewrite drop_app_ge by lia.
           replace (S (length pre) - length pre)%nat with 1%nat by lia.
           destruct suf as [| y suf]; [constructor |].
           apply Forall_cons in Hrest as [_ Hrest]. exact Hrest.
        -- eapply List.Forall_impl; [| exact Hpre]. cbn. intros y Hy. congruence.
      * apply remove_loop_no_match.
        rewrite drop_app_ge by lia.
        replace (S (length pre) - length pre)%nat with 1%nat by lia.
        exact Hrest.
    + specialize (IH fuel (pre ++ [x])).
      rewrite length_app in IH. cbn in IH.
      replace (length pre + 1)%nat with (S (length pre)) in IH by lia.
      rewrite <- !app_assoc in IH. cbn in IH. apply IH.
      * apply Forall_app. split; [exact Hpre | constructor; [exact Hne | constructor]].
      * exact Hnd.
      * lia.
Qed.

Lemma remove_is_remove_spec (items : list Cart.Item) :
  NoDup (Cart.product_id <$> items) ->
  Cart.remove items pid quantity = remove_spec items pid quantity.
Proof.
  intros Hnd. unfold Cart.remove.
  apply (remove_loop_spec (length items) [] items); [constructor | exact Hnd | lia].
Qed.

(** A property of lines that survives the decrease of a count that
    stays positive survives [remove_spec]. *)
Lemma Forall_remove_spec (P : Cart.Item -> Prop) (items : list Cart.Item) :
  (forall y, P y -> 0 < Cart.count (Cart.product_data y) - quantity ->
             P (Cart.set_count y (Cart.count (Cart.product_data y) - quantity))) ->
  Forall P items -> Forall P (remove_spec items pid quantity).
Proof.
  intros Hset. induction 1 as [| x l Hx Hl IH]; cbn; [constructor |].
  destruct (Cart.product_id x =? pid)%string.
  - destruct (Z.leb_spec (Cart.count (Cart.product_data x) - quantity) 0);
      [exact Hl | constructor; [apply Hset; [exact Hx | lia] | exact Hl]].
  - constructor; assumption.
Qed.

Lemma remove_spec_NoDup (items : list Cart.Item) :
  NoDup (Cart.product_id <$> items) ->
  NoDup (Cart.product_id <$> remove_spec items pid quantity).
Proof.
  induction items as [| x l IH]; intros Hnd; [exact Hnd |].
  apply NoDup_ids_cons in Hnd as [Hx Hnd]. cbn.
  destruct (Cart.product_id x =? pid)%string.
  - destruct (_ <=? 0); [exact Hnd |].
    apply NoDup_ids_cons. split; [exact Hx | exact Hnd].
  - apply NoDup_ids_cons. split; [| apply IH, Hnd].
    apply Forall_remove_spec; [| exact Hx]. cbn. auto.
Qed.

(** The loop of [add]. *)
Lemma add_loop_None (items : list Cart.Item) :
  Cart.add_loop items pid quantity = None -> Forall other items.
Proof.
  induction items as [| x l IH]; cbn; [constructor |].
  destruct (String.eqb_spec (Cart.product_id x) pid) as [Heq | Hne]; [discriminate |].
  destruct (Cart.add_loop l pid quantity); [discriminate |].
  intros _. constructor; [exact Hne | apply IH; reflexivity].
Qed.

Lemma add_loop_ids (items items' : list Cart.Item) :
  Cart.add_loop items pid quantity = Some items' ->
  Cart.product_id <$> items' = Cart.product_id <$> items.
Proof.
  revert items'. induction items as [| x l IH]; intros items'; cbn; [discriminate |].
  destruct (Cart.product_id x =? pid)%string.
  - intros [= <-]. reflexivity.
  - destruct (Cart.add_loop l pid quantity) as [l' |]; [| discriminate].
    intros [= <-]. cbn. rewrite (IH l' eq_refl). reflexivity.
Qed.

Lemma Forall_add_loop (P : Cart.Item -> Prop) (items items' : list Cart.Item) :
  (forall y, P y ->
             P (Cart.set_count y (Cart.count (Cart.product_data y) + quantity))) ->
  Forall P items ->
  Cart.add_loop items pid quantity = Some items' ->
  Forall P items'.
Proof.
  intros Hset Hall. revert items'.
  induction Hall as [| x l Hx Hl IH]; intros items'; cbn; [discriminate |].
  destruct (Cart.product_id x =? pid)%string.
  - intros [= <-]. constructor; [apply Hset, Hx | exact Hl].
  - destruct (Cart.add_loop l pid quantity) as [l' |]; [| discriminate].
    intros [= <-]. constructor; [exact Hx | apply IH; reflexivity].
Qed.

End CartLoops.

(** A line that is already in the cart keeps its snapshot: [add] does not
    ask the catalog again. *)
Lemma add_existing_ignores_catalog
    (catalog catalog' : string -> option Cart.ProductData)
    (items items' : list Cart.Item) (pid : string) (quantity : Z) :
  Cart.add_loop items pid quantity = Some items' ->
  Cart.add catalog items pid quantity = Ok items'
  /\ Cart.add catalog' items pid quantity = Ok items'
  /\ map (fun i => Cart.price (Cart.product_data i)) items'
     = map (fun i => Cart.price (Cart.product_data i)) items.
Proof.
  intros Hloop. unfold Cart.add. rewrite Hloop. repeat split.
  revert items' Hloop. induction items as [| x l IH]; intros items'; cbn; [discriminate |].
  destruct (Cart.product_id x =? pid)%string.
  - intros [= <-]. reflexivity.
  - destruct (Cart.add_loop l pid quantity) as [l' |]; [| discriminate].
    intros [= <-]. cbn. rewrite (IH l' eq_refl). reflexivity.
Qed.

Lemma add_keeps_invariant (catalog : string -> option Cart.ProductData)
    (items items' : list Cart.Item) (pid : string) (quantity : Z) :
  0 < quantity ->
  cart_invariant items ->
  Cart.add catalog items pid quantity = Ok items' ->
  cart_invariant items'.
Proof.
  intros Hq [Hnd Hpos]. unfold Cart.add.
  destruct (Cart.add_loop items pid quantity) as [l' |] eqn:Hloop.
  - intros [= <-]. split.
    + rewrite (add_loop_ids _ _ _ _ Hloop). exact Hnd.
    + apply (Forall_add_loop pid quantity _ items); [| exact Hpos | exact Hloop].
      cbn. intros y Hy. lia.
  - destruct (catalog pid) as [data |]; [| discriminate].
    intros [= <-]. apply add_loop_None in Hloop. split.
    + rewrite fmap_app. apply NoDup_app. split; [exact Hnd |]. split.
      * intros x Hx Hin. cbn in Hin. apply list_elem_of_singleton in Hin. subst x.
        apply list_elem_of_fmap in Hx as (y & Hy & Hin).
        rewrite List.Forall_forall in Hloop.
        apply list_elem_of_In in Hin. apply (Hloop y Hin). congruence.
      * cbn. apply NoDup_singleton.
    + apply Forall_app. split; [exact Hpos |]. constructor; [exact Hq | constructor].
Qed.

Lemma remove_keeps_invariant (items : list Cart.Item) (pid : string) (quantity : Z) :
  cart_invariant items ->
  cart_invariant (Cart.remove items pid quantity).
Proof.
  intros [Hnd Hpos]. rewrite remove_is_remove_spec by exact Hnd. split.
  - apply remove_spec_NoDup, Hnd.
  - apply Forall_remove_spec; [| exact Hpos]. cbn. intros y _ Hy. exact Hy.
Qed.

(** Where C5 holds: after every sequence of [add] and [remove] calls
    with positive quantities, from the empty cart or any cart that
    satisfies it, the cart has at most one line per product id and only
    positive counts; and the total is the sum over the lines of
    snapshot price times count as long as the sizes of the lines add up
    to at most 28 digits, the precision of the arithmetic. *)
Theorem cart_invariant_positive_quantities
    (catalog : string -> option Cart.ProductData)
    (cs : list Cart.Call) (items : list Cart.Item) :
  Forall positive_call cs ->
  cart_invariant items ->
  cart_invariant (Cart.calls catalog cs items)
  /\ (cart_magnitude (Cart.calls catalog cs items) < 10 ^ 28 ->
      Cart.get_cart_total (Cart.calls catalog cs items)
      = Ok (cart_sum (Cart.calls catalog cs items))).
Proof.
  intros Hcs Hinv. split; [| apply get_cart_total_exact].
  revert items Hinv. induction Hcs as [| c cs Hc _ IH]; intros items Hinv; [exact Hinv |].
  cbn. apply IH. destruct c as [pid q | pid q]; cbn in Hc |- *.
  - destruct (Cart.add catalog items pid q) as [items' |] eqn:Hadd; [| exact Hinv].
    exact (add_keeps_invariant catalog items items' pid q Hc Hinv Hadd).
  - apply remove_keeps_invariant, Hinv.
Qed.

Lemma cart_invariant_empty : cart_invariant [].
Proof. split; [apply NoDup_nil_2 | constructor]. Qed.

(** The cart tests: two of product 1, then one removed, then the other. *)
Example remove_to_zero_drops_the_line :
  Cart.calls example_catalog [Cart.Add "1" 2; Cart.Remove "1" 1] []
  = [ {| Cart.product_id := "1";
         Cart.product_data := {| Cart.title := "Product 1"; Cart.price := 1000;
                                 Cart.count := 1 |} |} ]
  /\ Cart.calls example_catalog
       [Cart.Add "1" 2; Cart.Remove "1" 1; Cart.Remove "1" 1] [] = [].
Proof. split; reflexivity. Qed.

(** C5 (the code departs from it). [add] stores whatever quantity it is
    given: a first [add] with quantity 0 leaves a line with count 0, and
    an [add] with a negative quantity on a line leaves it with a negative
    count, where [remove] would have dropped the line; the total is then
    negative. *)
Theorem C5_add_keeps_a_line_without_positive_count :
  Cart.calls example_catalog [Cart.Add "1" 0] []
  = [ {| Cart.product_id := "1";
         Cart.product_data := {| Cart.title := "Product 1"; Cart.price := 1000;
                                 Cart.count := 0 |} |} ]
  /\ Cart.calls example_catalog [Cart.Add "1" 2; Cart.Add "1" (-5)] []
     = [ {| Cart.product_id := "1";
            Cart.product_data := {| Cart.title := "Product 1"; Cart.price := 1000;
                                    Cart.count := -3 |} |} ]
  /\ Cart.get_cart_total
       (Cart.calls example_catalog [Cart.Add "1" 2; Cart.Add "1" (-5)] []) = Ok (-3000)
  /\ ~ cart_invariant (Cart.calls example_catalog [Cart.Add "1" 0] []).
Proof.
  repeat split; try reflexivity.
  intros [_ Hpos]. apply Forall_cons in Hpos as [Hpos _]. cbn in Hpos. lia.
Qed.

(** * Further properties of the views *)

(** X1. A request without an authenticated user is refused by both
    owner-only views with 403 and the framework's detail, before the
    order is looked up: the answer is the same whether the order exists
    or not, and nothing is written. *)
Theorem X1_anonymous_is_refused
    (ATOMIC_REQUESTS : bool) (db : DB) (pk : Z)
    (confirmation : Request OrderConfirmSerializer.Data)
    (payment : Request PaymentSerializer.Data) :
  user confirmation = AnonymousUser ->
  user payment = AnonymousUser ->
  serve ATOMIC_REQUESTS (Confirmation pk confirmation) db
  = {| outcome := Ok {| status_code := HTTP_403_FORBIDDEN;
                        body := Detail "Authentication credentials were not provided." |};
       db_after := db; session_after := session confirmation |}
  /\ serve ATOMIC_REQUESTS (Pay pk payment) db
     = {| outcome := Ok {| status_code := HTTP_403_FORBIDDEN;
                           body := Detail "Authentication credentials were not provided." |};
          db_after := db; session_after := session payment |}.
Proof.
  intros Hc Hp. unfold serve, dispatch, OrderDetailView_post, PaymentView_post.
  rewrite Hc, Hp. cbn. destruct ATOMIC_REQUESTS; split; reflexivity.
Qed.

Lemma X1_anonymous_is_refused_witness :
  serve false (Confirmation 99 (mkRequest AnonymousUser empty_session
                                  (example_confirmation 5000))) example_db
  = {| outcome := Ok {| status_code := HTTP_403_FORBIDDEN;
                        body := Detail "Authentication credentials were not provided." |};
       db_after := example_db; session_after := empty_session |}
  /\ serve false (Pay 99 (mkRequest AnonymousUser empty_session example_card)) example_db
     = {| outcome := Ok {| status_code := HTTP_403_FORBIDDEN;
                           body := Detail "Authentication credentials were not provided." |};
          db_after := example_db; session_after := empty_session |}.
Proof.
  apply (X1_anonymous_is_refused false example_db 99).
  - reflexivity.
  - reflexivity.
Defined.

(** X2. For a key without an order both owner-only views answer 404
    with the detail "Order not found." to every authenticated user, with
    or without a profile and whatever the payload, and write nothing. *)
Theorem X2_missing_order_is_not_found
    (ATOMIC_REQUESTS : bool) (db : DB) (pk : Z)
    (confirmation : Request OrderConfirmSerializer.Data)
    (payment : Request PaymentSerializer.Data) :
  Order_objects db !! pk = None ->
  IsAuthenticated (user confirmation) = true ->
  IsAuthenticated (user payment) = true ->
  serve ATOMIC_REQUESTS (Confirmation pk confirmation) db
  = {| outcome := Ok {| status_code := HTTP_404_NOT_FOUND;
                        body := Detail "Order not found." |};
       db_after := db; session_after := session confirmation |}
  /\ serve ATOMIC_REQUESTS (Pay pk payment) db
     = {| outcome := Ok {| status_code := HTTP_404_NOT_FOUND;
                           body := Detail "Order not found." |};
          db_after := db; session_after := session payment |}.
Proof.
  intros Hnone Hc Hp. unfold serve, dispatch, OrderDetailView_post, PaymentView_post.
  rewrite Hc, Hp, Hnone. split; reflexivity.
Qed.

Lemma X2_missing_order_is_not_found_witness :
  serve false (Confirmation 99 (mkRequest (AuthenticatedUser None) empty_session
                                  (example_confirmation 5000))) example_db
  = {| outcome := Ok {| status_code := HTTP_404_NOT_FOUND;
                        body := Detail "Order not found." |};
       db_after := example_db; session_after := empty_session |}
  /\ serve false (Pay 99 (mkRequest (AuthenticatedUser (Some 7)) empty_session
                            example_card)) example_db
     = {| outcome := Ok {| status_code := HTTP_404_NOT_FOUND;
                           body := Detail "Order not found." |};
          db_after := example_db; session_after := empty_session |}.
Proof.
  apply (X2_missing_order_is_not_found false example_db 99).
  - reflexivity.
  - reflexivity.
  - reflexivity.
Defined.

Lemma serve_raised (ATOMIC_REQUESTS : bool) (op : CoreOp) (db : DB) (view : Served)
    (e : Exception) :
  outcome view = Raise e ->
  handle_exception e = Raise e ->
  db_after view = db ->
  dispatch ATOMIC_REQUESTS db (op_session op) view
  = {| outcome := Raise e; db_after := db; session_after := op_session op |}.
Proof.
  intros Ho He Hdb. unfold dispatch. rewrite Ho, He, Hdb.
  destruct ATOMIC_REQUESTS; reflexivity.
Qed.

(** X3. A confirmation of the owner whose payload lacks the key
    'deliveryType', or names a type with a rule but lacks 'totalCost',
    does not end in a validation error: [validate] raises KeyError, a
    server error, and nothing is written. *)
Theorem X3_confirmation_needs_its_keys
    (ATOMIC_REQUESTS : bool) (db : DB) (pk : Z) (order : Order.t) (p : Z)
    (request : Request OrderConfirmSerializer.Data)
    (d : OrderConfirmSerializer.Data) :
  Order_objects db !! pk = Some order ->
  Order.profile order = Some p ->
  Order.status order <> "paid" ->
  user request = AuthenticatedUser (Some p) ->
  OrderConfirmSerializer.to_internal_value (data request) = inr d ->
  (OrderConfirmSerializer.deliveryType d = None ->
   serve ATOMIC_REQUESTS (Confirmation pk request) db
   = {| outcome := Raise (KeyError "deliveryType"); db_after := db;
        session_after := session request |})
  /\ (forall ty rule,
      OrderConfirmSerializer.deliveryType d = Some ty ->
      OrderDeliveryType_objects_get db ty = Ok rule ->
      OrderConfirmSerializer.totalCost d = None ->
      serve ATOMIC_REQUESTS (Confirmation pk request) db
      = {| outcome := Raise (KeyError "totalCost"); db_after := db;
           session_after := session request |}).
Proof.
  intros Horder Hown Hst Huser Hd.
  pose proof (confirmation_owner db pk order p Horder request Huser Hown Hst) as Hview.
  rewrite Hd in Hview. unfold OrderConfirmSerializer.validate in Hview. split.
  - intros Hty. rewrite Hty in Hview. unfold serve. rewrite Hview.
    apply (serve_raised _ (Confirmation pk request)); reflexivity.
  - intros ty rule Hty Hrule Htotal. rewrite Hty, Hrule, Htotal in Hview.
    unfold serve. rewrite Hview.
    apply (serve_raised _ (Confirmation pk request)); reflexivity.
Qed.

Lemma X3_confirmation_needs_its_keys_witness :
  let request := mkRequest (AuthenticatedUser (Some 7)) empty_session
                   confirmation_without_type in
  (OrderConfirmSerializer.deliveryType confirmation_without_type = None ->
   serve false (Confirmation 1 request) example_db
   = {| outcome := Raise (KeyError "deliveryType"); db_after := example_db;
        session_after := session request |})
  /\ (forall ty rule,
      OrderConfirmSerializer.deliveryType confirmation_without_type = Some ty ->
      OrderDeliveryType_objects_get example_db ty = Ok rule ->
      OrderConfirmSerializer.totalCost confirmation_without_type = None ->
      serve false (Confirmation 1 request) example_db
      = {| outcome := Raise (KeyError "totalCost"); db_after := example_db;
           session_after := session request |}).
Proof.
  apply (X3_confirmation_needs_its_keys false example_db 1 (example_order "confirmed") 7
           (mkRequest (AuthenticatedUser (Some 7)) empty_session confirmation_without_type)
           confirmation_without_type).
  - reflexivity.
  - reflexivity.
  - discriminate.
  - reflexivity.
  - reflexivity.
Defined.

(** X4. The delivery type of a rule is not unique. When two or more
    rules have the type of a confirmation, the lookup raises
    MultipleObjectsReturned: the owner's confirmation is a server error
    and nothing is written. *)
Theorem X4_confirmation_with_two_rules
    (ATOMIC_REQUESTS : bool) (db : DB) (pk : Z) (order : Order.t) (p : Z)
    (request : Request OrderConfirmSerializer.Data)
    (d : OrderConfirmSerializer.Data) (ty : string) :
  Order_objects db !! pk = Some order ->
  Order.profile order = Some p ->
  Order.status order <> "paid" ->
  user request = AuthenticatedUser (Some p) ->
  OrderConfirmSerializer.to_internal_value (data request) = inr d ->
  OrderConfirmSerializer.deliveryType d = Some ty ->
  (2 <= length (List.filter (fun r => (OrderDeliveryType.type r =? ty)%string)
                  (OrderDeliveryType_objects db)))%nat ->
  serve ATOMIC_REQUESTS (Confirmation pk request) db
  = {| outcome := Raise (MultipleObjectsReturned "OrderDeliveryType"); db_after := db;
       session_after := session request |}.
Proof.
  intros Horder Hown Hst Huser Hd Hty Htwo.
  pose proof (confirmation_owner db pk order p Horder request Huser Hown Hst) as Hview.
  rewrite Hd in Hview.
  unfold OrderConfirmSerializer.validate, OrderDeliveryType_objects_get in Hview.
  rewrite Hty in Hview.
  destruct (List.filter _ _) as [| r1 [| r2 rows]]; cbn in Htwo; try lia.
  unfold serve. rewrite Hview.
  apply (serve_raised _ (Confirmation pk request)); reflexivity.
Qed.

Lemma X4_confirmation_with_two_rules_witness :
  serve false
    (Confirmation 1 (mkRequest (AuthenticatedUser (Some 7)) empty_session
                       (example_confirmation 5000))) two_rules_db
  = {| outcome := Raise (MultipleObjectsReturned "OrderDeliveryType");
       db_after := two_rules_db; session_after := empty_session |}.
Proof.
  apply (X4_confirmation_with_two_rules false two_rules_db 1
           (example_order "confirmed") 7
           (mkRequest (AuthenticatedUser (Some 7)) empty_session
              (example_confirmation 5000))
           (example_confirmation 5000) "free").
  - reflexivity.
  - reflexivity.
  - discriminate.
  - reflexivity.
  - reflexivity.
  - reflexivity.
  - cbn. lia.
Defined.

(** What a confirmation does to the database: nothing, or the one save
    of the owner's valid confirmation. *)
Lemma confirmation_cases (pk : Z) (request : Request OrderConfirmSerializer.Data)
    (db : DB) :
  db_after (OrderDetailView_post pk request db) = db
  \/ exists order p d d',
       Order_objects db !! pk = Some order
       /\ user request = AuthenticatedUser (Some p)
       /\ Order.profile order = Some p
       /\ Order.status order <> "paid"
       /\ OrderConfirmSerializer.to_internal_value (data request) = inr d
       /\ OrderConfirmSerializer.validate db d = Ok (Valid d')
       /\ Z.abs (Order.totalCost (OrderConfirmSerializer.update order d')) < 10 ^ 13
       /\ OrderDetailView_post pk request db
          = {| outcome := Ok {| status_code := HTTP_200_OK; body := NoBody |};
               db_after :=
                 Order_UPDATE pk
                   (Order.set_status (OrderConfirmSerializer.update order d') "confirmed")
                   db;
               session_after := session request |}.
Proof.
  apply (OrderDetailView_post_cases pk request db
           (fun served =>
              db_after served = db
              \/ exists order p d d',
                   Order_objects db !! pk = Some order
                   /\ user request = AuthenticatedUser (Some p)
                   /\ Order.profile order = Some p
                   /\ Order.status order <> "paid"
                   /\ OrderConfirmSerializer.to_internal_value (data request) = inr d
                   /\ OrderConfirmSerializer.validate db d = Ok (Valid d')
                   /\ Z.abs (Order.totalCost (OrderConfirmSerializer.update order d'))
                      < 10 ^ 13
                   /\ served
                      = {| outcome := Ok {| status_code := HTTP_200_OK; body := NoBody |};
                           db_after :=
                             Order_UPDATE pk
                               (Order.set_status (OrderConfirmSerializer.update order d')
                                  "confirmed")
                               db;
                           session_after := session request |})).
  - intros r. left. reflexivity.
  - intros order p d d' Ho Hu Hown Hst Hd Hv Hfit. right.
    exists order, p, d, d'. auto 10.
Qed.

Lemma payment_cases (pk : Z) (request : Request PaymentSerializer.Data) (db : DB) :
  db_after (PaymentView_post pk request db) = db
  \/ exists order p,
       Order_objects db !! pk = Some order
       /\ user request = AuthenticatedUser (Some p)
       /\ Order.profile order = Some p
       /\ Order.status order <> "paid"
       /\ PaymentView_post pk request db
          = {| outcome := Ok {| status_code := HTTP_200_OK; body := NoBody |};
               db_after := Order_UPDATE pk (Order.set_status order "paid") db;
               session_after := session request |}.
Proof.
  apply (PaymentView_post_cases pk request db
           (fun served =>
              db_after served = db
              \/ exists order p,
                   Order_objects db !! pk = Some order
                   /\ user request = AuthenticatedUser (Some p)
                   /\ Order.profile order = Some p
                   /\ Order.status order <> "paid"
                   /\ served
                      = {| outcome := Ok {| status_code := HTTP_200_OK; body := NoBody |};
                           db_after := Order_UPDATE pk (Order.set_status order "paid") db;
                           session_after := session request |})).
  - intros r. left. reflexivity.
  - intros order p v Ho Hu Hown Hst _ _. right. exists order, p. auto 10.
Qed.

Lemma serve_unchanged (ATOMIC_REQUESTS : bool) (db : DB) (s : Session) (view : Served) :
  db_after view = db -> db_after (dispatch ATOMIC_REQUESTS db s view) = db.
Proof.
  intros H. apply (dispatch_preserves (fun db' => db' = db)); [reflexivity | exact H].
Qed.

(** X5. A confirmation or a payment changes at most the row of its
    order. Either the database is left as it was, or the order exists,
    is owned by the requester and is not paid, and the only write is the
    save of that order: with the same owner and the status 'confirmed'
    after a confirmation, with nothing but the status, now 'paid', changed
    after a payment. Products, items, delivery rules, payments and
    every other order are untouched. *)
Theorem X5_confirmation_and_payment_write_one_row
    (ATOMIC_REQUESTS : bool) (db : DB) (pk : Z)
    (confirmation : Request OrderConfirmSerializer.Data)
    (payment : Request PaymentSerializer.Data) :
  (db_after (serve ATOMIC_REQUESTS (Confirmation pk confirmation) db) = db
   \/ exists order order',
        Order_objects db !! pk = Some order
        /\ user confirmation = AuthenticatedUser (Order.profile order)
        /\ Order.status order <> "paid"
        /\ Order.profile order' = Order.profile order
        /\ Order.status order' = "confirmed"
        /\ db_after (serve ATOMIC_REQUESTS (Confirmation pk confirmation) db)
           = Order_UPDATE pk order' db)
  /\ (db_after (serve ATOMIC_REQUESTS (Pay pk payment) db) = db
      \/ exists order,
           Order_objects db !! pk = Some order
           /\ user payment = AuthenticatedUser (Order.profile order)
           /\ Order.status order <> "paid"
           /\ db_after (serve ATOMIC_REQUESTS (Pay pk payment) db)
              = Order_UPDATE pk (Order.set_status order "paid") db).
Proof.
  split.
  - destruct (confirmation_cases pk confirmation db)
      as [Hsame | (order & p & d & d' & Ho & Hu & Hown & Hst & _ & _ & _ & Hview)].
    + left. apply serve_unchanged, Hsame.
    + right. exists order,
        (Order.set_status (OrderConfirmSerializer.update order d') "confirmed").
      unfold serve, dispatch. rewrite Hview, Hown. cbn. auto 10.
  - destruct (payment_cases pk payment db)
      as [Hsame | (order & p & Ho & Hu & Hown & Hst & Hview)].
    + left. apply serve_unchanged, Hsame.
    + right. exists order. unfold serve, dispatch. rewrite Hview, Hown. cbn. auto 10.
Qed.

Lemma update_confirmed_twice (order : Order.t) (d : OrderConfirmSerializer.Data) :
  Order.set_status
    (OrderConfirmSerializer.update
       (Order.set_status (OrderConfirmSerializer.update order d) "confirmed") d)
    "confirmed"
  = Order.set_status (OrderConfirmSerializer.update order d) "confirmed".
Proof.
  destruct d as [[dt |] [pt |] [tc |] [st |] [ci |] [ad |]]; reflexivity.
Qed.

(** X6. A confirmation is idempotent: served a second time with the same
    request, on the database the first one left, it gives the same
    answer and leaves the same database. The total is computed from the
    client's subtotal, not from the stored total, so the delivery cost
    is not added twice. *)
Theorem X6_confirmation_is_idempotent
    (ATOMIC_REQUESTS : bool) (db : DB) (pk : Z)
    (request : Request OrderConfirmSerializer.Data) :
  serve ATOMIC_REQUESTS (Confirmation pk request)
    (db_after (serve ATOMIC_REQUESTS (Confirmation pk request) db))
  = serve ATOMIC_REQUESTS (Confirmation pk request) db.
Proof.
  destruct (confirmation_cases pk request db)
    as [Hsame | (order & p & d & d' & Ho & Hu & Hown & Hst & Hd & Hv & Hfit & Hview)].
  - unfold serve at 2. rewrite serve_unchanged by exact Hsame. reflexivity.
  - set (order' := Order.set_status (OrderConfirmSerializer.update order d') "confirmed")
      in *.
    assert (Hfirst : serve ATOMIC_REQUESTS (Confirmation pk request) db
                     = {| outcome := Ok {| status_code := HTTP_200_OK; body := NoBody |};
                          db_after := Order_UPDATE pk order' db;
                          session_after := session request |}).
    { unfold serve, dispatch. rewrite Hview. reflexivity. }
    rewrite Hfirst. cbn [db_after].
    unfold serve, dispatch.
    rewrite (confirmation_owner (Order_UPDATE pk order' db) pk order' p
               (lookup_insert_eq _ _ _) request Hu Hown) by discriminate.
    rewrite Hd.
    change (OrderConfirmSerializer.validate (Order_UPDATE pk order' db) d)
      with (OrderConfirmSerializer.validate db d).
    rewrite Hv.
    assert (Hagain : Order.set_status (OrderConfirmSerializer.update order' d') "confirmed"
                     = order') by apply update_confirmed_twice.
    rewrite Order_save_fits.
    + cbn [outcome]. rewrite Hagain, Order_UPDATE_twice. reflexivity.
    + change (Order.totalCost (OrderConfirmSerializer.update order' d'))
        with (Order.totalCost
                (Order.set_status (OrderConfirmSerializer.update order' d') "confirmed")).
      rewrite Hagain. exact Hfit.
Qed.

(** ** Ownership *)

Lemma keeps_owner_refl (db : DB) : keeps_owner db db.
Proof. intros pk o H. exists o. auto. Qed.

Lemma keeps_owner_trans (db1 db2 db3 : DB) :
  keeps_owner db1 db2 -> keeps_owner db2 db3 -> keeps_owner db1 db3.
Proof.
  intros H12 H23 pk o H. destruct (H12 pk o H) as (o2 & H2 & Hp2).
  destruct (H23 pk o2 H2) as (o3 & H3 & Hp3). exists o3. split; [exact H3 | congruence].
Qed.

Lemma keeps_owner_UPDATE (pk : Z) (o o' : Order.t) (db : DB) :
  Order_objects db !! pk = Some o ->
  Order.profile o' = Order.profile o ->
  keeps_owner db (Order_UPDATE pk o' db).
Proof.
  intros Ho Hp k ok Hk. cbn. destruct (decide (pk = k)) as [<- | Hne].
  - rewrite lookup_insert_eq. exists o'. split; [reflexivity | congruence].
  - rewrite lookup_insert_ne by exact Hne. exists ok. auto.
Qed.

(** A checkout of a session without a pending order leaves every order
    that exists as it is. *)
Lemma checkout_keeps_orders (request : Request (list ProductLine.t)) (db : DB)
    (pk : Z) (o : Order.t) :
  db_wf db ->
  session_order_id (session request) = None ->
  Order_objects db !! pk = Some o ->
  Order_objects (db_after (OrderView_post request db)) !! pk = Some o.
Proof.
  intros Hwf Hsess Ho. pose proof (db_wf_key db pk o Hwf Ho) as Hlt.
  apply (OrderView_post_cases request db
           (fun served => Order_objects (db_after served) !! pk = Some o)).
  - intros e _. exact Ho.
  - intros pk' order db1 items Hcheckout _.
    apply checkout_order_Ok in Hcheckout
      as [(Hpending & _) | (_ & p & _ & -> & -> & ->)]; [congruence |].
    split.
    + intros e. cbn. rewrite lookup_insert_ne by lia. exact Ho.
    + intros total _ _. cbn. rewrite !lookup_insert_ne by lia. exact Ho.
Qed.

Lemma serve_keeps_owner (ATOMIC_REQUESTS : bool) (op : CoreOp) (db : DB) :
  db_wf db ->
  no_pending_order op ->
  keeps_owner db (db_after (serve ATOMIC_REQUESTS op db)).
Proof.
  intros Hwf Hop. unfold serve.
  apply (dispatch_preserves (keeps_owner db)); [apply keeps_owner_refl |].
  destruct op as [request | pk request | pk request].
  - intros k o Ho. exists o. split; [| reflexivity].
    apply checkout_keeps_orders; assumption.
  - destruct (confirmation_cases pk request db)
      as [-> | (order & p & d & d' & Ho & _ & _ & _ & _ & _ & _ & ->)];
      [apply keeps_owner_refl |].
    apply (keeps_owner_UPDATE pk order); [exact Ho | reflexivity].
  - destruct (payment_cases pk request db)
      as [-> | (order & p & Ho & _ & _ & _ & ->)]; [apply keeps_owner_refl |].
    apply (keeps_owner_UPDATE pk order); [exact Ho | reflexivity].
Qed.

Lemma world_run_keeps_owner (ATOMIC_REQUESTS : bool) (cs : list CoreCall) (w : World) :
  db_wf (world_db w) ->
  sessions_clean (world_sessions w) ->
  keeps_owner (world_db w) (world_db (world_run ATOMIC_REQUESTS cs w)).
Proof.
  revert w. induction cs as [| c cs IH]; intros w Hwf Hclean; cbn.
  - apply keeps_owner_refl.
  - destruct (world_step_forward ATOMIC_REQUESTS w c Hwf Hclean)
      as (Hwf1 & Hclean1 & _).
    apply (keeps_owner_trans _ (world_db (world_step ATOMIC_REQUESTS w c)));
      [| apply IH; assumption].
    unfold world_step. cbn. apply serve_keeps_owner; [exact Hwf |].
    unfold no_pending_order. rewrite call_op_session.
    destruct (world_sessions w !! call_session_key c) as [s' |] eqn:E; cbn;
      [exact (Hclean _ _ E) | reflexivity].
Qed.

(** X7. The owner of an order never changes. For every sequence of
    checkout, confirmation and payment calls, by any clients, an order
    that exists at some point of the sequence is there at every later
    point with the same owning profile (from a database whose keys are
    below the auto-increment counter and sessions without the key
    ['order_id']). *)
Theorem X7_owner_never_changes
    (ATOMIC_REQUESTS : bool) (before after : list CoreCall) (w : World)
    (pk : Z) (order : Order.t) :
  db_wf (world_db w) ->
  sessions_clean (world_sessions w) ->
  Order_objects (world_db (world_run ATOMIC_REQUESTS before w)) !! pk = Some order ->
  exists order',
    Order_objects (world_db (world_run ATOMIC_REQUESTS (before ++ after) w)) !! pk
    = Some order'
    /\ Order.profile order' = Order.profile order.
Proof.
  intros Hwf Hclean Horder. rewrite world_run_app.
  destruct (world_run_forward ATOMIC_REQUESTS before w Hwf Hclean)
    as (Hwf1 & Hclean1 & _).
  exact (world_run_keeps_owner ATOMIC_REQUESTS after _ Hwf1 Hclean1 pk order Horder).
Qed.

Lemma X7_owner_never_changes_witness :
  exists order',
    Order_objects
      (world_db (world_run false (example_checkout_call ++ example_later_calls)
                   example_world)) !! 3
    = Some order'
    /\ Order.profile order' = Order.profile (accepted_order 7 5000).
Proof.
  apply (X7_owner_never_changes false example_checkout_call example_later_calls
           example_world 3 (accepted_order 7 5000)).
  - exact example_db_wf.
  - exact example_world_clean.
  - vm_compute. reflexivity.
Defined.

(** ** Checkout: the user and the pending order *)

(** X8. A checkout of a session without a pending order needs a user
    with a profile. For an anonymous user, and for a user without a
    profile, reading the profile raises before anything is created: the
    request is a server error, the database and the session are left as
    they were. *)
Theorem X8_checkout_needs_a_profile
    (ATOMIC_REQUESTS : bool) (db : DB) (request : Request (list ProductLine.t)) :
  session_order_id (session request) = None ->
  (user request = AnonymousUser ->
   serve ATOMIC_REQUESTS (Checkout request) db
   = {| outcome := Raise (AttributeError "profile"); db_after := db;
        session_after := session request |})
  /\ (user request = AuthenticatedUser None ->
      serve ATOMIC_REQUESTS (Checkout request) db
      = {| outcome := Raise (RelatedObjectDoesNotExist "profile"); db_after := db;
           session_after := session request |}).
Proof.
  intros Hsess. unfold serve, OrderView_post, checkout_order. rewrite Hsess.
  destruct (Cart_init (session request)) as [s1 cart].
  split; intros ->; cbn; destruct ATOMIC_REQUESTS; reflexivity.
Qed.

Lemma X8_checkout_needs_a_profile_witness :
  let request := mkRequest AnonymousUser example_session [ProductLine.mk 1 2] in
  (user request = AnonymousUser ->
   serve false (Checkout request) example_db
   = {| outcome := Raise (AttributeError "profile"); db_after := example_db;
        session_after := session request |})
  /\ (user request = AuthenticatedUser None ->
      serve false (Checkout request) example_db
      = {| outcome := Raise (RelatedObjectDoesNotExist "profile");
           db_after := example_db; session_after := session request |}).
Proof.
  apply (X8_checkout_needs_a_profile false example_db
           (mkRequest AnonymousUser example_session [ProductLine.mk 1 2])).
  reflexivity.
Defined.



(** A session key without an order: the lookup raises, nothing is
    written. *)
Example checkout_of_a_missing_pending_order :
  serve false
    (Checkout (mkRequest (AuthenticatedUser (Some 7))
                 {| session_cart := None; session_order_id := Some 9 |}
                 [ProductLine.mk 1 2]))
    example_db
  = {| outcome := Raise (DoesNotExist "Order"); db_after := example_db;
       session_after := {| session_cart := None; session_order_id := Some 9 |} |}.
Proof. vm_compute. reflexivity. Qed.

(** ** The create path of the payment serializer *)

Lemma required_plain_same (n : Z) (o : option string) (v : string) :
  required_field (CharField n) Valid o = Valid v -> o = Some v.
Proof.
  unfold required_field. destruct o as [s |]; [| discriminate].
  destruct (CharField n s) as [s' |] eqn:E; [| discriminate].
  apply CharField_same in E. intros [= <-]. congruence.
Qed.

Lemma required_checked_same (n : Z) (validate_method : string -> Validated string)
    (o : option string) (v : string) :
  (forall s s', validate_method s = Valid s' -> s' = s) ->
  required_field (CharField n) validate_method o = Valid v -> o = Some v.
Proof.
  intros Hm. unfold required_field. destruct o as [s |]; [| discriminate].
  destruct (CharField n s) as [s' |] eqn:E; [| discriminate].
  apply CharField_same in E. subst s'. intros Hv. apply Hm in Hv. congruence.
Qed.

Lemma validate_year_same (s s' : string) :
  PaymentSerializer.validate_year s = Valid s' -> s' = s.
Proof. unfold PaymentSerializer.validate_year. destruct (_ || _); congruence. Qed.

Lemma required_raising_same (n : Z)
    (validate_method : string -> Result (Validated string))
    (o : option string) (v : string) :
  (forall s s', validate_method s = Ok (Valid s') -> s' = s) ->
  required_field_raising (CharField n) validate_method o = Ok (Valid v) -> o = Some v.
Proof.
  intros Hm. unfold required_field_raising. destruct o as [s |]; [| discriminate].
  destruct (CharField n s) as [s' |] eqn:E; [| discriminate].
  apply CharField_same in E. subst s'. intros Hv. apply Hm in Hv. congruence.
Qed.

Lemma validate_month_same (s s' : string) :
  PaymentSerializer.validate_month s = Ok (Valid s') -> s' = s.
Proof.
  unfold PaymentSerializer.validate_month.
  destruct (negb (Py.isdigit s)); [discriminate |].
  destruct (Py.int s); [| discriminate].
  destruct (negb _); congruence.
Qed.

Lemma validate_code_same (s s' : string) :
  PaymentSerializer.validate_code s = Valid s' -> s' = s.
Proof. unfold PaymentSerializer.validate_code. destruct (_ || _); congruence. Qed.

(** X10. Built without an instance, as the serializer tests build it,
    the payment serializer stores what was submitted: the validated
    data of a valid payload are its five values unchanged, and [save]
    appends exactly one payment row with these values, attached to the
    order of the context, and changes nothing else. Without an order in
    the context [save] raises KeyError. *)
Theorem X10_payment_serializer_creates_the_payment
    (d : PaymentSerializer.Data) (order : Z) (db : DB) :
  PaymentSerializer.is_valid d = Ok true ->
  exists v,
    PaymentSerializer.run_validation d = Ok (inr v)
    /\ PaymentSerializer.number d = Some (PaymentSerializer.v_number v)
    /\ PaymentSerializer.name d = Some (PaymentSerializer.v_name v)
    /\ PaymentSerializer.year d = Some (PaymentSerializer.v_year v)
    /\ PaymentSerializer.month d = Some (PaymentSerializer.v_month v)
    /\ PaymentSerializer.code d = Some (PaymentSerializer.v_code v)
    /\ PaymentSerializer.save None (Some order) v db
       = Ok {| vendor := vendor db;
               Product_objects := Product_objects db;
               Order_objects := Order_objects db;
               Order_next_pk := Order_next_pk db;
               OrderItem_objects := OrderItem_objects db;
               OrderDeliveryType_objects := OrderDeliveryType_objects db;
               Payment_objects :=
                 Payment_objects db
                 ++ [ {| Payment.order := order;
                         Payment.number := PaymentSerializer.v_number v;
                         Payment.name := PaymentSerializer.v_name v;
                         Payment.year := PaymentSerializer.v_year v;
                         Payment.month := PaymentSerializer.v_month v;
                         Payment.code := PaymentSerializer.v_code v |} ] |}
    /\ PaymentSerializer.save None None v db = Raise (KeyError "order").
Proof.
  unfold PaymentSerializer.is_valid, PaymentSerializer.run_validation.
  destruct (PaymentSerializer.month_field d) as [[mo |] |] eqn:Emo;
    destruct (PaymentSerializer.number_field d) as [n |] eqn:En;
    destruct (PaymentSerializer.name_field d) as [m |] eqn:Em;
    destruct (PaymentSerializer.year_field d) as [y |] eqn:Ey;
    destruct (PaymentSerializer.code_field d) as [c |] eqn:Ec;
    try discriminate.
  intros _. eexists. split; [reflexivity |]. cbn.
  apply required_plain_same in En, Em.
  apply required_checked_same in Ey; [| exact validate_year_same].
  apply required_raising_same in Emo; [| exact validate_month_same].
  apply required_checked_same in Ec; [| exact validate_code_same].
  auto 10.
Qed.

Lemma X10_payment_serializer_creates_the_payment_witness :
  exists v,
    PaymentSerializer.run_validation example_card = Ok (inr v)
    /\ PaymentSerializer.number example_card = Some (PaymentSerializer.v_number v)
    /\ PaymentSerializer.name example_card = Some (PaymentSerializer.v_name v)
    /\ PaymentSerializer.year example_card = Some (PaymentSerializer.v_year v)
    /\ PaymentSerializer.month example_card = Some (PaymentSerializer.v_month v)
    /\ PaymentSerializer.code example_card = Some (PaymentSerializer.v_code v)
    /\ PaymentSerializer.save None (Some 1) v example_db
       = Ok {| vendor := vendor example_db;
               Product_objects := Product_objects example_db;
               Order_objects := Order_objects example_db;
               Order_next_pk := Order_next_pk example_db;
               OrderItem_objects := OrderItem_objects example_db;
               OrderDeliveryType_objects := OrderDeliveryType_objects example_db;
               Payment_objects :=
                 Payment_objects example_db
                 ++ [ {| Payment.order := 1;
                         Payment.number := PaymentSerializer.v_number v;
                         Payment.name := PaymentSerializer.v_name v;
                         Payment.year := PaymentSerializer.v_year v;
                         Payment.month := PaymentSerializer.v_month v;
                         Payment.code := PaymentSerializer.v_code v |} ] |}
    /\ PaymentSerializer.save None None v example_db = Raise (KeyError "order").
Proof.
  apply (X10_payment_serializer_creates_the_payment example_card 1 example_db).
  reflexivity.
Defined.

(** * Further properties of the cart *)

Lemma cart_sum_app (l1 l2 : list Cart.Item) :
  cart_sum (l1 ++ l2) = cart_sum l1 + cart_sum l2.
Proof.
  induction l1 as [| x l1 IH]; [reflexivity |].
  cbn [app]. rewrite !cart_sum_cons, IH. lia.
Qed.

(** X11. Removing a product that has no line in the cart is no error and
    changes nothing, whatever the quantity and whatever else the cart
    holds. *)
Theorem X11_remove_of_an_absent_product
    (items : list Cart.Item) (pid : string) (quantity : Z) :
  Forall (fun item => Cart.product_id item <> pid) items ->
  Cart.remove items pid quantity = items.
Proof.
  intros Habsent. unfold Cart.remove. apply remove_loop_no_match. exact Habsent.
Qed.

Lemma X11_remove_of_an_absent_product_witness :
  Cart.remove example_cart "3" 1 = example_cart.
Proof.
  apply (X11_remove_of_an_absent_product example_cart "3" 1).
  repeat constructor; discriminate.
Defined.

Lemma remove_spec_after_add_loop (items items' : list Cart.Item) (pid : string)
    (quantity : Z) :
  Forall (fun item => 0 < Cart.count (Cart.product_data item)) items ->
  Cart.add_loop items pid quantity = Some items' ->
  remove_spec items' pid quantity = items.
Proof.
  intros Hpos. revert items'.
  induction Hpos as [| x l Hx _ IH]; intros items'; cbn; [discriminate |].
  destruct (Cart.product_id x =? pid)%string eqn:E.
  - intros [= <-]. cbn. rewrite E.
    destruct (Z.leb_spec (Cart.count (Cart.product_data x) + quantity - quantity) 0);
      [lia |].
    f_equal. destruct x as [xid [t p c]]. unfold Cart.set_count. cbn.
    replace (c + quantity - quantity) with c by lia. reflexivity.
  - destruct (Cart.add_loop l pid quantity) as [l' |]; [| discriminate].
    intros [= <-]. cbn. rewrite E, (IH l' eq_refl). reflexivity.
Qed.

Lemma remove_spec_after_append (items : list Cart.Item) (pid : string)
    (quantity : Z) (data : Cart.ProductData) :
  Forall (fun item => Cart.product_id item <> pid) items ->
  remove_spec
    (items ++ [ {| Cart.product_id := pid;
                   Cart.product_data := {| Cart.title := Cart.title data;
                                           Cart.price := Cart.price data;
                                           Cart.count := quantity |} |} ])
    pid quantity
  = items.
Proof.
  induction 1 as [| x l Hx _ IH]; cbn.
  - rewrite String.eqb_refl.
    destruct (Z.leb_spec (quantity - quantity) 0); [reflexivity | lia].
  - apply String.eqb_neq in Hx. rewrite Hx, IH. reflexivity.
Qed.

(** X12. [remove] undoes [add]. On a cart with one line per product and
    positive counts, adding a positive quantity of a product and then
    removing the same quantity gives the cart back as it was: a line
    that was there has its old count, a line that was new is gone. *)
Theorem X12_remove_undoes_add
    (catalog : string -> option Cart.ProductData)
    (items items' : list Cart.Item) (pid : string) (quantity : Z) :
  cart_invariant items ->
  0 < quantity ->
  Cart.add catalog items pid quantity = Ok items' ->
  Cart.remove items' pid quantity = items.
Proof.
  intros Hinv Hq Hadd.
  destruct (add_keeps_invariant catalog items items' pid quantity Hq Hinv Hadd)
    as [Hnd' _].
  rewrite remove_is_remove_spec by exact Hnd'.
  destruct Hinv as [_ Hpos]. unfold Cart.add in Hadd.
  destruct (Cart.add_loop items pid quantity) as [l' |] eqn:Hloop.
  - injection Hadd as <-. exact (remove_spec_after_add_loop _ _ _ _ Hpos Hloop).
  - destruct (catalog pid) as [data |]; [| discriminate].
    injection Hadd as <-. apply remove_spec_after_append.
    exact (add_loop_None _ _ _ Hloop).
Qed.

Lemma example_cart_invariant : cart_invariant example_cart.
Proof.
  split.
  - cbn. apply NoDup_cons. split; [| apply NoDup_singleton].
    intros H. apply list_elem_of_singleton in H. discriminate.
  - repeat constructor.
Qed.

Lemma X12_remove_undoes_add_witness :
  Cart.remove
    [ {| Cart.product_id := "1";
         Cart.product_data := {| Cart.title := "Test product 1";
                                 Cart.price := 1000; Cart.count := 5 |} |};
      {| Cart.product_id := "2";
         Cart.product_data := {| Cart.title := "Test product 2";
                                 Cart.price := 3000; Cart.count := 1 |} |} ]
    "1" 3
  = example_cart.
Proof.
  apply (X12_remove_undoes_add example_catalog example_cart _ "1" 3).
  - exact example_cart_invariant.
  - lia.
  - reflexivity.
Defined.

Lemma add_loop_total (items items' : list Cart.Item) (pid : string) (quantity : Z) :
  Cart.add_loop items pid quantity = Some items' ->
  exists item,
    In item items /\ Cart.product_id item = pid
    /\ cart_sum items'
       = cart_sum items + Cart.price (Cart.product_data item) * quantity.
Proof.
  revert items'.
  induction items as [| x l IH]; intros items'; cbn [Cart.add_loop]; [discriminate |].
  destruct (String.eqb_spec (Cart.product_id x) pid) as [Heq | Hne].
  - intros [= <-]. exists x. split; [left; reflexivity |]. split; [exact Heq |].
    rewrite !cart_sum_cons. cbn. rewrite Z.mul_add_distr_l. lia.
  - destruct (Cart.add_loop l pid quantity) as [l' |]; [| discriminate].
    intros [= <-]. destruct (IH l' eq_refl) as (item & Hin & Hid & Htot).
    exists item. split; [right; exact Hin |]. split; [exact Hid |].
    rewrite !cart_sum_cons, Htot. lia.
Qed.

(** X13. As long as the sizes of the lines of the cart add up to at
    most 28 digits before and after it, so that the total is not
    rounded, a successful [add] raises the total by the quantity times
    one price: the snapshot price of the product's line when the cart
    has one, whatever the catalog says now, and the catalog's price when
    the line is new. *)
Theorem X13_add_raises_the_total
    (catalog : string -> option Cart.ProductData)
    (items items' : list Cart.Item) (pid : string) (quantity : Z) :
  Cart.add catalog items pid quantity = Ok items' ->
  cart_magnitude items < 10 ^ 28 ->
  cart_magnitude items' < 10 ^ 28 ->
  exists total,
    Cart.get_cart_total items = Ok total
    /\ ((exists item,
           In item items /\ Cart.product_id item = pid
           /\ Cart.get_cart_total items'
              = Ok (total + Cart.price (Cart.product_data item) * quantity))
        \/ (Forall (fun item => Cart.product_id item <> pid) items
            /\ exists data,
                 catalog pid = Some data
                 /\ Cart.get_cart_total items'
                    = Ok (total + Cart.price data * quantity))).
Proof.
  intros Hadd Hbefore Hafter. exists (cart_sum items).
  rewrite (get_cart_total_exact items Hbefore), (get_cart_total_exact items' Hafter).
  split; [reflexivity |]. unfold Cart.add in Hadd.
  destruct (Cart.add_loop items pid quantity) as [l' |] eqn:Hloop.
  - injection Hadd as <-. left.
    destruct (add_loop_total _ _ _ _ Hloop) as (item & Hin & Hid & Htot).
    exists item. rewrite Htot. auto.
  - destruct (catalog pid) as [data |]; [| discriminate].
    injection Hadd as <-. right. split; [exact (add_loop_None _ _ _ Hloop) |].
    exists data. split; [reflexivity |].
    rewrite cart_sum_app, cart_sum_cons. cbn.
    change (cart_sum []) with 0. f_equal. lia.
Qed.

Lemma X13_add_raises_the_total_witness :
  exists total,
    Cart.get_cart_total example_cart = Ok total
    /\ ((exists item,
           In item example_cart /\ Cart.product_id item = "2"
           /\ Cart.get_cart_total
                (Cart.calls example_catalog [Cart.Add "2" 2] example_cart)
              = Ok (total + Cart.price (Cart.product_data item) * 2))
        \/ (Forall (fun item => Cart.product_id item <> "2") example_cart
            /\ exists data,
                 example_catalog "2" = Some data
                 /\ Cart.get_cart_total
                      (Cart.calls example_catalog [Cart.Add "2" 2] example_cart)
                    = Ok (total + Cart.price data * 2))).
Proof.
  apply (X13_add_raises_the_total example_catalog example_cart _ "2" 2).
  - reflexivity.
  - vm_compute. reflexivity.
  - vm_compute. reflexivity.
Defined.

(** The snapshot in the witness above: the line of product 2 was added
    at 30.00, the catalog now says 20.00, and two more cost 60.00. *)
Example add_uses_the_snapshot_price :
  Cart.get_cart_total example_cart = Ok 5000
  /\ Cart.get_cart_total (Cart.calls example_catalog [Cart.Add "2" 2] example_cart)
     = Ok (5000 + 3000 * 2).
Proof. split; reflexivity. Qed.

(** Beyond the precision the total is rounded: with 10^30 + 1 pieces at
    10.01 in the cart, three more leave the total where it was. *)
Example add_beyond_the_precision :
  let cart :=
    [ {| Cart.product_id := "1";
         Cart.product_data := {| Cart.title := "Product 1"; Cart.price := 1001;
                                 Cart.count := 10 ^ 30 + 1 |} |} ] in
  Cart.get_cart_total (Cart.calls example_catalog [Cart.Add "1" 3] cart)
  = Cart.get_cart_total cart
  /\ Cart.get_cart_total cart = Ok (1001 * 10 ^ 30).
Proof. cbv zeta. split; vm_compute; reflexivity. Qed.

Lemma add_loop_split (items items' : list Cart.Item) (pid : string) (quantity : Z) :
  Cart.add_loop items pid quantity = Some items' ->
  exists pre item suf,
    items = pre ++ item :: suf
    /\ Cart.product_id item = pid
    /\ Forall (fun i => Cart.product_id i <> pid) pre
    /\ items' = pre ++ Cart.set_count item
                        (Cart.count (Cart.product_data item) + quantity) :: suf.
Proof.
  revert items'. induction items as [| x l IH]; intros items'; cbn; [discriminate |].
  destruct (String.eqb_spec (Cart.product_id x) pid) as [Heq | Hne].
  - intros [= <-]. exists [], x, l. repeat split; [exact Heq | constructor].
  - destruct (Cart.add_loop l pid quantity) as [l' |]; [| discriminate].
    intros [= <-].
    destruct (IH l' eq_refl) as (pre & item & suf & -> & Hid & Hpre & ->).
    exists (x :: pre), item, suf. repeat split; [exact Hid |].
    constructor; assumption.
Qed.

(** X14. [add] keeps the lines in insertion order and touches one line
    only. When the cart has lines of the product, the first of them gets
    the quantity added to its count, in place, and every other line,
    before and after it, is the same; otherwise the cart is the old one
    with the new line at its end, holding the quantity and the catalog's
    title and price. *)
Theorem X14_add_touches_one_line
    (catalog : string -> option Cart.ProductData)
    (items items' : list Cart.Item) (pid : string) (quantity : Z) :
  Cart.add catalog items pid quantity = Ok items' ->
  (exists pre item suf,
     items = pre ++ item :: suf
     /\ Cart.product_id item = pid
     /\ Forall (fun i => Cart.product_id i <> pid) pre
     /\ items' = pre ++ Cart.set_count item
                         (Cart.count (Cart.product_data item) + quantity) :: suf)
  \/ (Forall (fun i => Cart.product_id i <> pid) items
      /\ exists data,
           catalog pid = Some data
           /\ items' = items ++ [ {| Cart.product_id := pid;
                                     Cart.product_data :=
                                       {| Cart.title := Cart.title data;
                                          Cart.price := Cart.price data;
                                          Cart.count := quantity |} |} ]).
Proof.
  unfold Cart.add.
  destruct (Cart.add_loop items pid quantity) as [l' |] eqn:Hloop.
  - intros [= <-]. left. exact (add_loop_split _ _ _ _ Hloop).
  - destruct (catalog pid) as [data |]; [| discriminate].
    intros [= <-]. right. split; [exact (add_loop_None _ _ _ Hloop) |].
    exists data. auto.
Qed.

Lemma X14_add_touches_one_line_witness :
  (exists pre item suf,
     example_cart = pre ++ item :: suf
     /\ Cart.product_id item = "2"
     /\ Forall (fun i => Cart.product_id i <> "2") pre
     /\ Cart.calls example_catalog [Cart.Add "2" 2] example_cart
        = pre ++ Cart.set_count item
                   (Cart.count (Cart.product_data item) + 2) :: suf)
  \/ (Forall (fun i => Cart.product_id i <> "2") example_cart
      /\ exists data,
           example_catalog "2" = Some data
           /\ Cart.calls example_catalog [Cart.Add "2" 2] example_cart
              = example_cart ++ [ {| Cart.product_id := "2";
                                     Cart.product_data :=
                                       {| Cart.title := Cart.title data;
                                          Cart.price := Cart.price data;
                                          Cart.count := 2 |} |} ]).
Proof.
  apply (X14_add_touches_one_line example_catalog example_cart _ "2" 2).
  reflexivity.
Defined.

Lemma remove_spec_total (items : list Cart.Item) (pid : string) (quantity : Z) :
  Forall (fun i => Cart.product_id i <> pid) items
  \/ exists item,
       In item items /\ Cart.product_id item = pid
       /\ cart_sum (remove_spec items pid quantity)
          = cart_sum items
            - Cart.price (Cart.product_data item)
              * Z.min quantity (Cart.count (Cart.product_data item)).
Proof.
  induction items as [| x l IH]; [left; constructor |]. cbn [remove_spec].
  destruct (String.eqb_spec (Cart.product_id x) pid) as [Heq | Hne].
  - right. exists x. split; [left; reflexivity |]. split; [exact Heq |].
    destruct (Z.leb_spec (Cart.count (Cart.product_data x) - quantity) 0).
    + rewrite cart_sum_cons, Z.min_r by lia. lia.
    + rewrite !cart_sum_cons, Z.min_l by lia. cbn.
      rewrite Z.mul_sub_distr_l. lia.
  - destruct IH as [Hno | (item & Hin & Hid & Htot)].
    + left. constructor; assumption.
    + right. exists item. split; [right; exact Hin |]. split; [exact Hid |].
      rewrite !cart_sum_cons, Htot. lia.
Qed.

(** X15. On a cart with one line per product, and as long as the sizes
    of the lines add up to at most 28 digits before and after it, so
    that the total is not rounded, [remove] lowers the total by the
    snapshot price of the product's line times the quantity, and by no
    more than the line was worth: when the quantity reaches the count
    the line is dropped and the total falls by price times count. *)
Theorem X15_remove_lowers_the_total
    (items : list Cart.Item) (pid : string) (quantity : Z) (item : Cart.Item) :
  NoDup (Cart.product_id <$> items) ->
  In item items ->
  Cart.product_id item = pid ->
  cart_magnitude items < 10 ^ 28 ->
  cart_magnitude (Cart.remove items pid quantity) < 10 ^ 28 ->
  exists total,
    Cart.get_cart_total items = Ok total
    /\ Cart.get_cart_total (Cart.remove items pid quantity)
       = Ok (total
             - Cart.price (Cart.product_data item)
               * Z.min quantity (Cart.count (Cart.product_data item))).
Proof.
  intros Hnd Hin Hid Hbefore Hafter. exists (cart_sum items).
  rewrite (get_cart_total_exact items Hbefore), (get_cart_total_exact _ Hafter).
  split; [reflexivity |]. f_equal.
  rewrite remove_is_remove_spec by exact Hnd.
  destruct (remove_spec_total items pid quantity)
    as [Hno | (item' & Hin' & Hid' & Htot)].
  - rewrite List.Forall_forall in Hno. exfalso. exact (Hno item Hin Hid).
  - assert (item' = item) as ->; [| exact Htot].
    clear Htot Hbefore Hafter. induction items as [| x l IH]; [contradiction |].
    apply NoDup_ids_cons in Hnd as [Hx Hnd]. rewrite List.Forall_forall in Hx.
    destruct Hin as [<- | Hin], Hin' as [<- | Hin'].
    + reflexivity.
    + exfalso. apply (Hx item' Hin'). congruence.
    + exfalso. apply (Hx item Hin). congruence.
    + exact (IH Hnd Hin Hin').
Qed.

Lemma X15_remove_lowers_the_total_witness :
  exists total,
    Cart.get_cart_total example_cart = Ok total
    /\ Cart.get_cart_total (Cart.remove example_cart "1" 5)
       = Ok (total
             - Cart.price (Cart.product_data
                    {| Cart.product_id := "1";
                       Cart.product_data := {| Cart.title := "Test product 1";
                                               Cart.price := 1000;
                                               Cart.count := 2 |} |})
               * Z.min 5 (Cart.count (Cart.product_data
                    {| Cart.product_id := "1";
                       Cart.product_data := {| Cart.title := "Test product 1";
                                               Cart.price := 1000;
                                               Cart.count := 2 |} |}))).
Proof.
  apply (X15_remove_lowers_the_total example_cart "1" 5).
  - exact (proj1 example_cart_invariant).
  - left. reflexivity.
  - reflexivity.
  - vm_compute. reflexivity.
  - vm_compute. reflexivity.
Defined.

(** * The cart views *)

Lemma Cart_save_init (s : Session) :
  Cart_save (Cart_init s).1 (Cart_init s).2 = (Cart_init s).1.
Proof.
  unfold Cart_init, Cart_save. destruct s as [[[| items] |] oid]; reflexivity.
Qed.

(** X16. A cart change is stored before the view answers: when a POST
    or a DELETE of the cart view answers, a GET with the session that
    request left, by whatever user, answers with the same list of
    products and leaves that session as it is. *)
Theorem X16_cart_views_store_what_they_answer
    (catalog : string -> option Cart.ProductData)
    (request : Request CartAPI.Data) (next_user : User) :
  (forall answer,
     CartAPI.outcome (CartAPI.serve_post catalog request) = Ok answer ->
     CartAPI.serve_get
       (mkRequest next_user
          (CartAPI.session_after (CartAPI.serve_post catalog request)) tt)
     = {| CartAPI.outcome := Ok answer;
          CartAPI.session_after :=
            CartAPI.session_after (CartAPI.serve_post catalog request) |})
  /\ (forall answer,
      CartAPI.outcome (CartAPI.serve_delete request) = Ok answer ->
      CartAPI.serve_get
        (mkRequest next_user (CartAPI.session_after (CartAPI.serve_delete request)) tt)
      = {| CartAPI.outcome := Ok answer;
           CartAPI.session_after :=
             CartAPI.session_after (CartAPI.serve_delete request) |}).
Proof.
  split; intros answer.
  - unfold CartAPI.serve_post, CartAPI.dispatch, CartAPI.post.
    destruct (Cart_init (session request)) as [s1 cart].
    destruct (CartAPI.id (data request)) as [pid |]; [| discriminate].
    destruct (CartAPI.count (data request)) as [q |]; [| discriminate].
    destruct (Cart.add catalog cart pid q) as [cart' | e]; [| discriminate].
    cbn. intros [= <-]. reflexivity.
  - unfold CartAPI.serve_delete, CartAPI.dispatch, CartAPI.delete.
    destruct (Cart_init (session request)) as [s1 cart].
    destruct (CartAPI.id (data request)) as [pid |]; [| discriminate].
    destruct (CartAPI.count (data request)) as [q |]; [| discriminate].
    cbn. intros [= <-]. reflexivity.
Qed.

(** X17. A DELETE for a product that has no line in the cart is answered
    with 200 and the list of the cart as it is; the cart is not changed. *)
Theorem X17_delete_of_an_absent_product
    (request : Request CartAPI.Data) (pid : string) (quantity : Z) :
  CartAPI.id (data request) = Some pid ->
  CartAPI.count (data request) = Some quantity ->
  Forall (fun item => Cart.product_id item <> pid) (Cart_init (session request)).2 ->
  CartAPI.serve_delete request
  = {| CartAPI.outcome :=
         Ok {| CartAPI.status_code := HTTP_200_OK;
               CartAPI.products :=
                 Cart.get_cart_products (Cart_init (session request)).2 |};
       CartAPI.session_after := (Cart_init (session request)).1 |}.
Proof.
  intros Hid Hcount Habsent.
  unfold CartAPI.serve_delete, CartAPI.dispatch, CartAPI.delete.
  pose proof (Cart_save_init (session request)) as Hsave.
  destruct (Cart_init (session request)) as [s1 cart]. cbn in Habsent, Hsave |- *.
  rewrite Hid, Hcount. cbn. unfold Cart.remove.
  rewrite (remove_loop_no_match pid quantity _ 0 cart) by exact Habsent.
  rewrite Hsave. reflexivity.
Qed.

Lemma X17_delete_of_an_absent_product_witness :
  CartAPI.serve_delete
    (mkRequest AnonymousUser example_session
       {| CartAPI.id := Some "3"; CartAPI.count := Some 1 |})
  = {| CartAPI.outcome :=
         Ok {| CartAPI.status_code := HTTP_200_OK;
               CartAPI.products := Cart.get_cart_products example_cart |};
       CartAPI.session_after := example_session |}.
Proof.
  apply (X17_delete_of_an_absent_product
           (mkRequest AnonymousUser example_session
              {| CartAPI.id := Some "3"; CartAPI.count := Some 1 |}) "3" 1).
  - reflexivity.
  - reflexivity.
  - repeat constructor; discriminate.
Defined.

Lemma add_loop_absent (cart : list Cart.Item) (pid : string) (quantity : Z) :
  Forall (fun item => Cart.product_id item <> pid) cart ->
  Cart.add_loop cart pid quantity = None.
Proof.
  induction 1 as [| x l Hx _ IH]; [reflexivity |]. cbn.
  apply String.eqb_neq in Hx. rewrite Hx, IH. reflexivity.
Qed.

(** X18. The cart views check nothing of the body. A POST or a DELETE
    without the key 'id' raises KeyError for 'id', also when 'count' is
    missing too; one with 'id' but without 'count' raises KeyError for
    'count'. Whenever a cart view raises, the session is left as it
    was. *)
Theorem X18_cart_views_fail_without_a_trace
    (catalog : string -> option Cart.ProductData)
    (request : Request CartAPI.Data) :
  (CartAPI.id (data request) = None ->
   CartAPI.outcome (CartAPI.serve_post catalog request) = Raise (KeyError "id")
   /\ CartAPI.outcome (CartAPI.serve_delete request) = Raise (KeyError "id"))
  /\ (is_Some (CartAPI.id (data request)) ->
      CartAPI.count (data request) = None ->
      CartAPI.outcome (CartAPI.serve_post catalog request) = Raise (KeyError "count")
      /\ CartAPI.outcome (CartAPI.serve_delete request) = Raise (KeyError "count"))
  /\ (forall e,
      CartAPI.outcome (CartAPI.serve_post catalog request) = Raise e ->
      CartAPI.session_after (CartAPI.serve_post catalog request) = session request)
  /\ (forall e,
      CartAPI.outcome (CartAPI.serve_delete request) = Raise e ->
      CartAPI.session_after (CartAPI.serve_delete request) = session request).
Proof.
  unfold CartAPI.serve_post, CartAPI.serve_delete, CartAPI.dispatch, CartAPI.post,
    CartAPI.delete.
  destruct (Cart_init (session request)) as [s1 cart].
  repeat split.
  - rewrite H. reflexivity.
  - rewrite H. reflexivity.
  - destruct H as [pid ->]. rewrite H0. reflexivity.
  - destruct H as [pid ->]. rewrite H0. reflexivity.
  - intros e.
    destruct (CartAPI.id (data request)) as [pid |]; [| reflexivity].
    destruct (CartAPI.count (data request)) as [q |]; [| reflexivity].
    destruct (Cart.add catalog cart pid q) as [cart' | e']; [discriminate | reflexivity].
  - intros e.
    destruct (CartAPI.id (data request)) as [pid |]; [| reflexivity].
    destruct (CartAPI.count (data request)) as [q |]; [discriminate | reflexivity].
Qed.

(** X19. A POST for a product (its key a number) that has no line in the
    cart and no row in the product table is not answered with a 404: the
    lookup's [Product.DoesNotExist] leaves the view, and the session is
    left as it was. *)
Theorem X19_post_of_an_unknown_product
    (catalog : string -> option Cart.ProductData)
    (request : Request CartAPI.Data) (pid : string) (quantity : Z) :
  CartAPI.id (data request) = Some pid ->
  CartAPI.count (data request) = Some quantity ->
  number_key pid ->
  Forall (fun item => Cart.product_id item <> pid) (Cart_init (session request)).2 ->
  catalog pid = None ->
  CartAPI.serve_post catalog request
  = {| CartAPI.outcome := Raise (DoesNotExist "Product");
       CartAPI.session_after := session request |}.
Proof.
  intros Hid Hcount _ Habsent Hcat.
  unfold CartAPI.serve_post, CartAPI.dispatch, CartAPI.post.
  destruct (Cart_init (session request)) as [s1 cart]. cbn in Habsent.
  rewrite Hid, Hcount. unfold Cart.add.
  rewrite (add_loop_absent cart pid quantity Habsent), Hcat. reflexivity.
Qed.

Lemma X19_post_of_an_unknown_product_witness :
  CartAPI.serve_post example_catalog
    (mkRequest AnonymousUser example_session
       {| CartAPI.id := Some "99"; CartAPI.count := Some 1 |})
  = {| CartAPI.outcome := Raise (DoesNotExist "Product");
       CartAPI.session_after := example_session |}.
Proof.
  apply (X19_post_of_an_unknown_product example_catalog
           (mkRequest AnonymousUser example_session
              {| CartAPI.id := Some "99"; CartAPI.count := Some 1 |}) "99" 1).
  - reflexivity.
  - reflexivity.
  - split; [reflexivity | exists 99; reflexivity].
  - repeat constructor; discriminate.
  - reflexivity.
Defined.

(** * Reading orders *)

Lemma item_products_Ok (db : DB) (items : list OrderItem.t) :
  Forall (fun i => is_Some (Product_objects db !! OrderItem.product i)) items ->
  exists products,
    item_products db items = Ok products
    /\ map fst products = map OrderItem.product items
    /\ Forall (fun row => Product_objects db !! row.1 = Some row.2) products.
Proof.
  induction 1 as [| i items [product Hi] _ (products & Heq & Hkeys & Hrows)].
  - exists []. repeat split. constructor.
  - exists ((OrderItem.product i, product) :: products). cbn.
    rewrite Hi, Heq, Hkeys. repeat split. constructor; assumption.
Qed.

Lemma OrderSerializer_many_Ok (db : DB) (rows : list (Z * Order.t)) :
  items_have_products db ->
  Forall (fun row => Order_objects db !! row.1 = Some row.2) rows ->
  exists orders,
    OrderSerializer_many db rows = Ok orders
    /\ map (fun r => (repr_id r, repr_order r)) orders = rows
    /\ Forall (represents db) orders.
Proof.
  intros Hitems. induction 1 as [| [pk o] rows Hrow _ (orders & Heq & Hrows & Hrep)].
  - exists []. repeat split. constructor.
  - assert (Hsome : Forall (fun i => is_Some (Product_objects db !! OrderItem.product i))
                      (List.filter (fun i => OrderItem.order i =? pk)
                         (OrderItem_objects db))).
    { apply List.Forall_forall. intros i [Hi _]%List.filter_In.
      exact (proj1 (List.Forall_forall _ _) Hitems i Hi). }
    destruct (item_products_Ok db _ Hsome) as (products & Hp & Hkeys & Hprod).
    exists ({| repr_id := pk; repr_order := o; repr_products := products |} :: orders).
    cbn [OrderSerializer_many]. unfold OrderSerializer_to_representation,
      OrderSerializer_get_products. cbn [fst snd]. rewrite Hp, Heq. cbn [map repr_id repr_order].
    rewrite Hrows. repeat split. constructor; [| exact Hrep].
    repeat split; cbn [repr_id repr_order repr_products]; assumption.
Qed.

(** X20. [OrderView.get] shows a user with a profile their own orders
    and no others: in a database whose order items point to products, it
    answers 200 with a list in which an order appears exactly when it is
    in the table with the profile of the user, and no order appears
    twice; each entry carries the products of the items of its order. The
    view has no permission class: for the anonymous user the profile
    lookup raises TypeError, for a user without a profile it raises
    [Profile.DoesNotExist]. *)
Theorem X20_own_orders_are_listed (db : DB) :
  items_have_products db ->
  (forall p,
     exists orders,
       OrderView_get (AuthenticatedUser (Some p)) db = Listed HTTP_200_OK orders
       /\ (forall pk order,
             (exists r, In r orders /\ repr_id r = pk /\ repr_order r = order)
             <-> Order_objects db !! pk = Some order /\ Order.profile order = Some p)
       /\ NoDup (map repr_id orders)
       /\ Forall (represents db) orders)
  /\ OrderView_get AnonymousUser db = ReadTypeError
  /\ OrderView_get (AuthenticatedUser None) db = ReadRaised (DoesNotExist "Profile").
Proof.
  intros Hitems. split; [| split; reflexivity].
  intros p. unfold OrderView_get.
  set (rows := List.filter (fun row => bool_decide (Order.profile row.2 = Some p))
                 (map_to_list (Order_objects db))).
  assert (Hin : forall pk order,
             In (pk, order) rows
             <-> Order_objects db !! pk = Some order /\ Order.profile order = Some p).
  { intros pk order. unfold rows. rewrite List.filter_In, <- list_elem_of_In,
      elem_of_map_to_list. cbn. rewrite bool_decide_eq_true. reflexivity. }
  assert (Hrows : Forall (fun row => Order_objects db !! row.1 = Some row.2) rows).
  { apply List.Forall_forall. intros [pk order] Hrow. apply Hin in Hrow. apply Hrow. }
  destruct (OrderSerializer_many_Ok db rows Hitems Hrows) as (orders & Heq & Hmap & Hrep).
  exists orders. rewrite Heq. split; [reflexivity |]. split; [| split; [| exact Hrep]].
  - intros pk order. rewrite <- Hin, <- Hmap. split.
    + intros (r & Hr & <- & <-).
      apply (List.in_map (fun r => (repr_id r, repr_order r))), Hr.
    + intros (r & [= <- <-] & Hr)%List.in_map_iff. exists r. auto.
  - replace (map repr_id orders) with (map fst rows)
      by (rewrite <- Hmap, List.map_map; reflexivity).
    unfold rows. apply NoDup_fmap_fst.
    + intros pk o1 o2 [H1 _]%list_elem_of_In%Hin [H2 _]%list_elem_of_In%Hin. congruence.
    + apply NoDup_ListNoDup, List.NoDup_filter, NoDup_ListNoDup, NoDup_map_to_list.
Qed.

Lemma X20_own_orders_are_listed_witness :
  exists orders,
    OrderView_get (AuthenticatedUser (Some 7)) checked_out_db = Listed HTTP_200_OK orders
    /\ (forall pk order,
          (exists r, In r orders /\ repr_id r = pk /\ repr_order r = order)
          <-> Order_objects checked_out_db !! pk = Some order
              /\ Order.profile order = Some 7)
    /\ NoDup (map repr_id orders)
    /\ Forall (represents checked_out_db) orders.
Proof.
  assert (Hitems : items_have_products checked_out_db).
  { unfold items_have_products. vm_compute. repeat constructor; eexists; reflexivity. }
  exact (proj1 (X20_own_orders_are_listed checked_out_db Hitems) 7).
Defined.

(** X21. [OrderDetailView.get] checks that the user is authenticated and
    nothing else: in a database whose order items point to products,
    every authenticated user, the owner or not, with a profile or
    without, is answered 200 with the order of the key and the products
    of its items; for a key that no order has the answer is 200 with an
    empty list, not a 404. The anonymous user is refused with 403. *)
Theorem X21_any_user_reads_any_order (pk : Z) (u : User) (db : DB) :
  items_have_products db ->
  (IsAuthenticated u = true ->
   (forall order,
      Order_objects db !! pk = Some order ->
      exists products,
        OrderDetailView_get pk u db
        = Listed HTTP_200_OK
            [{| repr_id := pk; repr_order := order; repr_products := products |}]
        /\ map fst products = map OrderItem.product (order_items_of pk db)
        /\ Forall (fun row => Product_objects db !! row.1 = Some row.2) products)
   /\ (Order_objects db !! pk = None ->
       OrderDetailView_get pk u db = Listed HTTP_200_OK []))
  /\ (IsAuthenticated u = false ->
      OrderDetailView_get pk u db
      = Refused HTTP_403_FORBIDDEN "Authentication credentials were not provided.").
Proof.
  intros Hitems. unfold OrderDetailView_get. split; [| intros ->; reflexivity].
  intros ->. cbn [negb]. split.
  - intros order Horder. rewrite Horder.
    destruct (OrderSerializer_many_Ok db [(pk, order)] Hitems)
      as (orders & Heq & Hmap & Hrep).
    { constructor; [exact Horder | constructor]. }
    rewrite Heq. destruct orders as [| [rid rorder products] [| r orders]];
      try discriminate Hmap.
    injection Hmap as -> ->. apply List.Forall_inv in Hrep as (_ & Hkeys & Hrows).
    exists products. auto.
  - intros ->. reflexivity.
Qed.

Lemma X21_any_user_reads_any_order_witness :
  (exists products,
     OrderDetailView_get 3 (AuthenticatedUser (Some 8)) checked_out_db
     = Listed HTTP_200_OK
         [{| repr_id := 3;
             repr_order := {| Order.profile := Some 7; Order.deliveryType := "";
                              Order.paymentType := ""; Order.totalCost := 5000;
                              Order.status := "accepted"; Order.city := "";
                              Order.address := "" |};
             repr_products := products |}]
     /\ map fst products = map OrderItem.product (order_items_of 3 checked_out_db)
     /\ Forall (fun row => Product_objects checked_out_db !! row.1 = Some row.2) products)
  /\ OrderDetailView_get 99 (AuthenticatedUser None) checked_out_db = Listed HTTP_200_OK [].
Proof.
  assert (Hitems : items_have_products checked_out_db).
  { unfold items_have_products. vm_compute. repeat constructor; eexists; reflexivity. }
  split.
  - apply (X21_any_user_reads_any_order 3 (AuthenticatedUser (Some 8)) checked_out_db
             Hitems); reflexivity.
  - apply (X21_any_user_reads_any_order 99 (AuthenticatedUser None) checked_out_db
             Hitems); reflexivity.
Defined.

(** * The category filter *)

Lemma pop_app {A : Type} (l : list A) (x : A) : pop (l ++ [x]) = Some (l, x).
Proof. unfold pop. rewrite rev_app_distr. cbn. rewrite rev_involutive. reflexivity. Qed.

Lemma elem_of_subcategories_all (categories : gmap Z Category.t) (p k : Z) :
  k ∈ subcategories_all categories p <-> has_subcategory categories p k.
Proof.
  unfold subcategories_all, has_subcategory. rewrite list_elem_of_fmap. split.
  - intros ([k' row] & -> & Hrow). apply list_elem_of_In, List.filter_In in Hrow
      as [Hrow Hparent]. apply list_elem_of_In, elem_of_map_to_list in Hrow.
    apply bool_decide_eq_true in Hparent. exists row. auto.
  - intros (row & Hrow & Hparent). exists (k, row). split; [reflexivity |].
    apply list_elem_of_In, List.filter_In. split.
    + apply list_elem_of_In, elem_of_map_to_list, Hrow.
    + apply bool_decide_eq_true, Hparent.
Qed.

Section Subcategories.

Variable categories : gmap Z Category.t.

Local Abbreviation R := (has_subcategory categories).
Local Abbreviation loop := (get_all_subcategories_loop).
Local Abbreviation contributes := (contributes categories).
Local Abbreviation reaches_cycle := (reaches_cycle categories).

Lemma contributes_nil : contributes [] ∅.
Proof.
  exists 0%nat. intros rest acc fuel.
  rewrite app_nil_r, Nat.add_0_l, (right_id_L ∅ (∪)). reflexivity.
Qed.

Lemma contributes_app (l1 l2 : list Z) (s1 s2 : gset Z) :
  contributes l1 s1 -> contributes l2 s2 -> contributes (l1 ++ l2) (s2 ∪ s1).
Proof.
  intros [n1 H1] [n2 H2]. exists (n2 + n1)%nat. intros rest acc fuel.
  rewrite app_assoc, <- Nat.add_assoc, H2, H1, (assoc_L (∪)). reflexivity.
Qed.

Lemma contributes_step (c : Z) (s : gset Z) :
  contributes (subcategories_all categories c) s -> contributes [c] ({[c]} ∪ s).
Proof.
  intros [n H]. exists (S n). intros rest acc fuel. cbn [Nat.add loop].
  rewrite pop_app, H, (assoc_L (∪)). reflexivity.
Qed.

Lemma descendants_of_list (l : list Z) :
  Forall (fun x => exists s, contributes [x] s /\ forall k, k ∈ s <-> rtc R x k) l ->
  exists s, contributes l s /\ forall k, k ∈ s <-> exists x, x ∈ l /\ rtc R x k.
Proof.
  induction 1 as [| x l (sx & Hx & Hsx) _ (s & Hs & Hss)].
  - exists ∅. split; [apply contributes_nil |]. intros k. split; [intros []%elem_of_empty |].
    intros (x & Hx & _). inversion Hx.
  - exists (s ∪ sx). split; [apply (contributes_app [x] l); assumption |].
    intros k. rewrite elem_of_union, Hss, Hsx. split.
    + intros [(y & Hy & Hk) | Hk]; [exists y | exists x]; split; auto; constructor.
      exact Hy.
    + intros (y & Hy & Hk). apply elem_of_cons in Hy as [-> | Hy]; [right; exact Hk |].
      left. exists y. auto.
Qed.

Lemma descendants_of (c : Z) :
  sn R c ->
  exists s, contributes [c] s /\ forall k, k ∈ s <-> rtc R c k.
Proof.
  induction 1 as [c _ IH].
  destruct (descendants_of_list (subcategories_all categories c)) as (s & Hs & Hks).
  { apply List.Forall_forall. intros x Hx%list_elem_of_In%elem_of_subcategories_all.
    apply IH, Hx. }
  exists ({[c]} ∪ s). split; [apply contributes_step, Hs |].
  intros k. rewrite elem_of_union, elem_of_singleton, Hks. split.
  - intros [-> | (x & Hx%elem_of_subcategories_all & Hk)]; [reflexivity |].
    eapply rtc_l; eassumption.
  - intros Hk. destruct Hk as [| c x k Hx Hk]; [left; reflexivity | right].
    exists x. split; [apply elem_of_subcategories_all, Hx | exact Hk].
Qed.

Lemma forest_sn (c : Z) : forest categories -> sn R c.
Proof.
  intros Hforest. apply tc_finite_sn.
  - intros k. apply Hforest.
  - exists (map_to_list categories).*1. intros k Hk.
    assert (Hlast : exists p, R p k).
    { clear Hforest. induction Hk as [p k Hk | p x k _ _ IH]; [exists p; exact Hk | exact IH]. }
    destruct Hlast as (p & row & Hrow & _). apply list_elem_of_fmap.
    exists (k, row). split; [reflexivity | apply elem_of_map_to_list, Hrow].
Qed.

Lemma get_all_subcategories_forest (c : Z) :
  forest categories ->
  exists fuel s,
    (forall fuel', (fuel <= fuel')%nat ->
       get_all_subcategories fuel' categories c = Some s)
    /\ forall k, k ∈ s <-> rtc R c k.
Proof.
  intros Hforest. destruct (descendants_of c (forest_sn c Hforest)) as (s & [n Hn] & Hs).
  exists (S n), s. split; [| exact Hs]. intros fuel' Hfuel.
  replace fuel' with (n + S (fuel' - S n))%nat by lia.
  unfold get_all_subcategories. rewrite (Hn [] ∅), (left_id_L ∅ (∪)). reflexivity.
Qed.

Lemma tc_first (x y : Z) : tc R x y -> exists z, R x z /\ rtc R z y.
Proof.
  intros [x' y' Hxy | x' z y' Hxz Hzy].
  - exists y'. split; [exact Hxy | reflexivity].
  - exists z. split; [exact Hxz | apply tc_rtc, Hzy].
Qed.

Lemma reaches_cycle_step (x : Z) :
  reaches_cycle x -> exists z, R x z /\ reaches_cycle z.
Proof.
  intros (y & Hxy & Hy). destruct Hxy as [| x z y Hxz Hzy].
  - destruct (tc_first _ _ Hy) as (z & Hxz & Hzx). exists z. split; [exact Hxz |].
    exists x. auto.
  - exists z. split; [exact Hxz |]. exists y. auto.
Qed.

Lemma loop_never_ends (fuel : nat) (todo : list Z) (acc : gset Z) :
  (exists x, x ∈ todo /\ reaches_cycle x) ->
  loop fuel categories todo acc = None.
Proof.
  revert todo acc. induction fuel as [| fuel IH]; [reflexivity |].
  intros todo acc (x & Hx & Hcycle). cbn [loop].
  destruct todo as [| t todo _] using rev_ind; [inversion Hx |].
  rewrite pop_app. apply IH. apply elem_of_app in Hx as [Hx | Hx].
  - exists x. split; [apply elem_of_app; left; exact Hx | exact Hcycle].
  - apply list_elem_of_singleton in Hx as ->.
    destruct (reaches_cycle_step _ Hcycle) as (z & Hz & Hzc).
    exists z. split; [| exact Hzc].
    apply elem_of_app. right. apply elem_of_subcategories_all, Hz.
Qed.

End Subcategories.

Lemma forest_by_depth (categories : gmap Z Category.t) (depth : Z -> nat) :
  (forall p k, has_subcategory categories p k -> (depth p < depth k)%nat) ->
  forest categories.
Proof.
  intros Hdepth k Hk.
  assert (Hlt : forall x y, tc (has_subcategory categories) x y -> (depth x < depth y)%nat).
  { induction 1 as [x y Hxy | x y z Hxy _ IH]; [apply Hdepth, Hxy |].
    apply Hdepth in Hxy. lia. }
  apply Hlt in Hk. lia.
Qed.

Lemma example_categories_forest : forest example_categories.
Proof.
  apply (forest_by_depth _
           (fun k => if k =? 1 then 0%nat else if k =? 5 then 0%nat
                     else if k =? 4 then 2%nat else 1%nat)).
  intros p k (row & Hrow & Hparent). unfold example_categories in Hrow.
  repeat (apply lookup_insert_Some in Hrow as [[<- <-] | [_ Hrow]];
          [cbn in Hparent; first [discriminate Hparent
                                 | injection Hparent as <-; cbn; lia] |]).
  rewrite lookup_empty in Hrow. discriminate Hrow.
Qed.

(** X22. In a table of categories without a cycle of parents,
    [get_all_subcategories] ends, and the set it returns holds exactly
    the chosen category and the categories below it at any depth. *)
Theorem X22_subcategories_of_a_forest (categories : gmap Z Category.t) (category : Z) :
  forest categories ->
  exists fuel subcategories,
    (forall fuel', (fuel <= fuel')%nat ->
       get_all_subcategories fuel' categories category = Some subcategories)
    /\ forall k, k ∈ subcategories <-> rtc (has_subcategory categories) category k.
Proof. apply get_all_subcategories_forest. Qed.

Lemma X22_subcategories_of_a_forest_witness :
  exists fuel subcategories,
    (forall fuel', (fuel <= fuel')%nat ->
       get_all_subcategories fuel' example_categories 1 = Some subcategories)
    /\ forall k, k ∈ subcategories <-> rtc (has_subcategory example_categories) 1 k.
Proof.
  apply (X22_subcategories_of_a_forest example_categories 1 example_categories_forest).
Defined.

Example subcategories_of_electronics :
  get_all_subcategories 5 example_categories 1 = Some {[1; 2; 3; 4]}
  /\ get_all_subcategories 4 example_categories 1 = None.
Proof.
  split; [| reflexivity].
  assert (H : exists s, get_all_subcategories 5 example_categories 1 = Some s
                        /\ bool_decide (s = {[1; 2; 3; 4]}) = true).
  { eexists. split; [reflexivity | vm_compute; reflexivity]. }
  destruct H as (s & -> & Hs%bool_decide_eq_true). rewrite Hs. reflexivity.
Qed.

(** X23. When a cycle of parents can be reached from the chosen
    category (a category that is its own parent, or two that are each
    the parent of the other), the loop of [get_all_subcategories] never
    ends: the list of categories to check never gets empty. *)
Theorem X23_subcategories_of_a_cycle (categories : gmap Z Category.t) (category : Z) :
  reaches_cycle categories category ->
  forall fuel, get_all_subcategories fuel categories category = None.
Proof.
  intros Hcycle fuel. apply loop_never_ends. exists category.
  split; [apply list_elem_of_singleton; reflexivity | exact Hcycle].
Qed.

Lemma X23_subcategories_of_a_cycle_witness :
  get_all_subcategories 1000 looping_categories 1 = None.
Proof.
  refine (X23_subcategories_of_a_cycle looping_categories 1 _ 1000%nat).
  assert (H12 : has_subcategory looping_categories 1 2)
    by (eexists; split; reflexivity).
  assert (H21 : has_subcategory looping_categories 2 1)
    by (eexists; split; reflexivity).
  exists 1. split; [reflexivity |].
  eapply tc_l; [exact H12 | constructor; exact H21].
Defined.

(** X24. [filter_by_category] in a table of categories without a cycle
    of parents: for a value that is no category it gives no product; for
    a category it ends and keeps, in their order, exactly the products
    whose category is the chosen one or one below it at any depth (a
    product without a category is never kept). *)
Theorem X24_filter_by_category (categories : gmap Z Category.t)
    (queryset : list (Z * option Z)) (value : Z) :
  forest categories ->
  (categories !! value = None ->
   forall fuel, filter_by_category fuel categories queryset value = Some [])
  /\ (is_Some (categories !! value) ->
      exists (fuel : nat) (subcategories : gset Z),
        (forall k, k ∈ subcategories <-> rtc (has_subcategory categories) value k)
        /\ forall fuel', (fuel <= fuel')%nat ->
             filter_by_category fuel' categories queryset value
             = Some (List.filter
                       (fun product =>
                          match product.2 with
                          | Some category => bool_decide (category ∈ subcategories)
                          | None => false
                          end) queryset)).
Proof.
  intros Hforest. unfold filter_by_category. split.
  - intros -> fuel. reflexivity.
  - intros [row ->].
    destruct (get_all_subcategories_forest categories value Hforest)
      as (fuel & s & Hfuel & Hs).
    exists fuel, s. split; [exact Hs |]. intros fuel' Hle.
    rewrite (Hfuel fuel' Hle). reflexivity.
Qed.

Lemma X24_filter_by_category_witness :
  (forall fuel,
     filter_by_category fuel example_categories
       [(10, Some 4); (11, Some 5); (12, None); (13, Some 1)] 9 = Some [])
  /\ exists (fuel : nat) (subcategories : gset Z),
      (forall k, k ∈ subcategories <-> rtc (has_subcategory example_categories) 1 k)
      /\ forall fuel', (fuel <= fuel')%nat ->
           filter_by_category fuel' example_categories
             [(10, Some 4); (11, Some 5); (12, None); (13, Some 1)] 1
           = Some (List.filter
                     (fun product =>
                        match product.2 with
                        | Some category => bool_decide (category ∈ subcategories)
                        | None => false
                        end) [(10, Some 4); (11, Some 5); (12, None); (13, Some 1)]).
Proof.
  split.
  - apply (X24_filter_by_category example_categories
             [(10, Some 4); (11, Some 5); (12, None); (13, Some 1)] 9
             example_categories_forest). reflexivity.
  - apply (X24_filter_by_category example_categories
             [(10, Some 4); (11, Some 5); (12, None); (13, Some 1)] 1
             example_categories_forest). eexists. reflexivity.
Defined.

Example products_of_electronics :
  filter_by_category 5 example_categories
    [(10, Some 4); (11, Some 5); (12, None); (13, Some 1)] 1
  = Some [(10, Some 4); (13, Some 1)].
Proof. vm_compute. reflexivity. Qed.

(** * Saving images *)

Lemma next_key (n : Z) : Z.max n (n + 1) = n + 1.
Proof. lia. Qed.

Lemma FileField_pre_save_named (storage_save upload_to : string -> string)
    (file : FieldFile) :
  (forall name, storage_save name <> "") ->
  file_name file <> "" ->
  file_name (FileField_pre_save storage_save upload_to file) <> "".
Proof.
  intros Hstorage Hname. unfold FileField_pre_save.
  destruct (negb (file_name file =? "")%string && negb (committed file));
    [apply Hstorage | exact Hname].
Qed.

Lemma FileField_pre_save_no_file (storage_save upload_to : string -> string)
    (file : FieldFile) :
  file_name file = "" -> FileField_pre_save storage_save upload_to file = file.
Proof.
  intros Hname. unfold FileField_pre_save. rewrite Hname. reflexivity.
Qed.

Lemma FileField_pre_save_twice (storage_save upload_to upload_to' : string -> string)
    (file : FieldFile) :
  FileField_pre_save storage_save upload_to'
    (FileField_pre_save storage_save upload_to file)
  = FileField_pre_save storage_save upload_to file.
Proof.
  unfold FileField_pre_save.
  destruct (negb (file_name file =? "")%string && negb (committed file)) eqn:Hfile.
  - cbn. rewrite andb_false_r. reflexivity.
  - rewrite Hfile. reflexivity.
Qed.

Lemma needs_alt (name alt : string) :
  negb (name =? "")%string && (alt =? "")%string = true <-> name <> "" /\ alt = "".
Proof.
  rewrite andb_true_iff, negb_true_iff, String.eqb_neq, String.eqb_eq. reflexivity.
Qed.

Lemma needs_no_alt (name alt : string) :
  negb (name =? "")%string && (alt =? "")%string = false <-> name = "" \/ alt <> "".
Proof.
  rewrite andb_false_iff, negb_false_iff, String.eqb_neq, String.eqb_eq. reflexivity.
Qed.

(** X25. Saving an image or a category that has a key writes nothing
    unless an alt text is to be derived: when the instance has no file,
    or has an alt text, [save] calls [Model.save] not once, whatever the
    keyword arguments, and the table stays as it is (a changed title,
    file or alt text of an existing row is not stored). *)
Theorem X25_save_with_alt_writes_nothing (storage_save : string -> string)
    (kwargs : SaveKwargs)
    (image : ProductImage.t) (images : Table ProductImage.t)
    (category : Category.t) (categories : Table Category.t) :
  no_pk (ProductImage.pk image) = false ->
  file_name (ProductImage.src image) = "" \/ ProductImage.alt image <> "" ->
  no_pk (Category.pk category) = false ->
  file_name (Category.src category) = "" \/ Category.alt category <> "" ->
  ProductImage_save storage_save kwargs image images = (inr image, images)
  /\ Category_save storage_save kwargs category categories = (inr category, categories).
Proof.
  intros Hpk Halt%needs_no_alt Hpk' Halt'%needs_no_alt.
  unfold ProductImage_save, Category_save. rewrite Hpk, Hpk', Halt, Halt'.
  split; reflexivity.
Qed.

Lemma X25_save_with_alt_writes_nothing_witness :
  ProductImage_save plain_storage plain_save
    {| ProductImage.pk := Some 1; ProductImage.product := 1;
       ProductImage.src := uploaded "new.png"; ProductImage.alt := "New text" |}
    {| rows := {[ 1 := {| ProductImage.pk := Some 1; ProductImage.product := 1;
                          ProductImage.src := no_file; ProductImage.alt := "Old text" |} ]};
       next_pk := 2 |}
  = (inr {| ProductImage.pk := Some 1; ProductImage.product := 1;
            ProductImage.src := uploaded "new.png"; ProductImage.alt := "New text" |},
     {| rows := {[ 1 := {| ProductImage.pk := Some 1; ProductImage.product := 1;
                           ProductImage.src := no_file; ProductImage.alt := "Old text" |} ]};
        next_pk := 2 |})
  /\ Category_save plain_storage plain_save
       (Category_set_title "Audio" (Category_set_pk 1 (plain_category "Electronics" None)))
       {| rows := {[ 1 := Category_set_pk 1 (plain_category "Electronics" None) ]};
          next_pk := 2 |}
     = (inr (Category_set_title "Audio"
               (Category_set_pk 1 (plain_category "Electronics" None))),
        {| rows := {[ 1 := Category_set_pk 1 (plain_category "Electronics" None) ]};
           next_pk := 2 |}).
Proof.
  apply (X25_save_with_alt_writes_nothing plain_storage plain_save).
  - reflexivity.
  - right. discriminate.
  - reflexivity.
  - left. reflexivity.
Defined.

(** X26. [objects.create] of an image or a category always inserts the
    row, and fails afterwards exactly when a file is given without an
    alt text: the second [Model.save] of [save] then gets both
    [force_insert] and [force_update] and raises ValueError, leaving
    (outside a transaction) the row with an empty alt text in the table.
    The file of a category created with an upload is stored under the
    directory made for the key [None]. *)
Theorem X26_create_with_a_file_and_no_alt (storage_save : string -> string)
    (product : Z) (title : string) (parent : option Z)
    (src : FieldFile) (alt : string)
    (images : Table ProductImage.t) (categories : Table Category.t) :
  (forall name, storage_save name <> "") ->
  let image :=
    {| ProductImage.pk := Some (next_pk images); ProductImage.product := product;
       ProductImage.src :=
         FileField_pre_save storage_save
           (fun filename =>
              ("products/product_" ++ pretty product ++ "/images/" ++ filename)%string)
           src;
       ProductImage.alt := alt |} in
  let category :=
    {| Category.pk := Some (next_pk categories); Category.title := title;
       Category.parent := parent;
       Category.src :=
         FileField_pre_save storage_save
           (fun filename => ("categories/category_None/images/" ++ filename)%string) src;
       Category.alt := alt |} in
  let forced := ValueError "Cannot force both insert and updating in model saving." in
  ProductImage_objects_create storage_save product src alt images
  = (if negb (file_name src =? "")%string && (alt =? "")%string
     then inl forced else inr image,
     {| rows := <[next_pk images := image]> (rows images);
        next_pk := next_pk images + 1 |})
  /\ Category_objects_create storage_save title parent src alt categories
     = (if negb (file_name src =? "")%string && (alt =? "")%string
        then inl forced else inr category,
        {| rows := <[next_pk categories := category]> (rows categories);
           next_pk := next_pk categories + 1 |}).
Proof.
  intros Hstorage image category forced.
  unfold ProductImage_objects_create, ProductImage_save, ProductImage_Model_save,
    Category_objects_create, Category_save, Category_Model_save, Model_save, INSERT.
  cbn [force_insert force_update andb ProductImage.pk Category.pk no_pk].
  cbn [ProductImage.set_pk ProductImage_pre_save ProductImage.set_src ProductImage.src
       ProductImage.alt ProductImage.product ProductImage.pk
       Category_set_pk Category_pre_save Category_set_src Category.src Category.alt
       Category.title Category.parent Category.pk].
  rewrite !next_key.
  destruct (negb (file_name src =? "")%string && (alt =? "")%string) eqn:Hneeds.
  - apply needs_alt in Hneeds as [Hname ->].
    assert (Hstored : forall upload_to,
               negb (file_name (FileField_pre_save storage_save upload_to src) =? "")%string
               && ("" =? "")%string = true).
    { intros upload_to. apply needs_alt. split; [| reflexivity].
      apply FileField_pre_save_named; assumption. }
    unfold product_images_directory_path, category_image_directory_path.
    cbn [ProductImage.product Category.pk str_pk].
    rewrite !Hstored. split; reflexivity.
  - assert (Hstored : forall upload_to,
               negb (file_name (FileField_pre_save storage_save upload_to src) =? "")%string
               && (alt =? "")%string = false).
    { intros upload_to. apply needs_no_alt. apply needs_no_alt in Hneeds as [Hname | Halt].
      - left. rewrite FileField_pre_save_no_file; assumption.
      - right. exact Halt. }
    unfold product_images_directory_path, category_image_directory_path.
    cbn [ProductImage.product Category.pk str_pk].
    rewrite !Hstored. split; reflexivity.
Qed.

Lemma X26_create_with_a_file_and_no_alt_witness :
  ProductImage_objects_create (fun name => ("stored/" ++ name)%string) 12
    (uploaded "tv.png") "" empty_table
  = (inl (ValueError "Cannot force both insert and updating in model saving."),
     {| rows := {[ 1 := {| ProductImage.pk := Some 1; ProductImage.product := 12;
                           ProductImage.src :=
                             {| file_name := "stored/products/product_12/images/tv.png";
                                committed := true |};
                           ProductImage.alt := "" |} ]};
        next_pk := 2 |})
  /\ Category_objects_create (fun name => ("stored/" ++ name)%string) "Books" None
       (uploaded "tv.png") "" empty_table
     = (inl (ValueError "Cannot force both insert and updating in model saving."),
        {| rows := {[ 1 := {| Category.pk := Some 1; Category.title := "Books";
                              Category.parent := None;
                              Category.src :=
                                {| file_name := "stored/categories/category_None/images/tv.png";
                                   committed := true |};
                              Category.alt := "" |} ]};
           next_pk := 2 |}).
Proof.
  apply (X26_create_with_a_file_and_no_alt (fun name => ("stored/" ++ name)%string)
           12 "Books" None (uploaded "tv.png") "" empty_table empty_table).
  intros name. discriminate.
Defined.

(** X27. A plain [save] of a new image or category with a file and no
    alt text stores the row in two steps, an insert and a forced update,
    and the alt text it ends with is the name of the file as the storage
    keeps it, without directories and extension. *)
Theorem X27_first_save_derives_the_alt (storage_save : string -> string)
    (image : ProductImage.t) (images : Table ProductImage.t)
    (category : Category.t) (categories : Table Category.t) :
  (forall name, storage_save name <> "") ->
  ProductImage.pk image = None -> file_name (ProductImage.src image) <> "" ->
  ProductImage.alt image = "" ->
  Category.pk category = None -> file_name (Category.src category) <> "" ->
  Category.alt category = "" ->
  let image_file :=
    FileField_pre_save storage_save (product_images_directory_path image)
      (ProductImage.src image) in
  let image' :=
    {| ProductImage.pk := Some (next_pk images);
       ProductImage.product := ProductImage.product image;
       ProductImage.src := image_file;
       ProductImage.alt := stem (file_name image_file) |} in
  let category_file :=
    FileField_pre_save storage_save
      (fun filename => ("categories/category_None/images/" ++ filename)%string)
      (Category.src category) in
  let category' :=
    {| Category.pk := Some (next_pk categories);
       Category.title := Category.title category;
       Category.parent := Category.parent category;
       Category.src := category_file;
       Category.alt := stem (file_name category_file) |} in
  ProductImage_save storage_save plain_save image images
  = (inr image', {| rows := <[next_pk images := image']> (rows images);
                    next_pk := next_pk images + 1 |})
  /\ Category_save storage_save plain_save category categories
     = (inr category', {| rows := <[next_pk categories := category']> (rows categories);
                          next_pk := next_pk categories + 1 |}).
Proof.
  intros Hstorage Hpk Hname Halt Hpk' Hname' Halt' image_file image' category_file category'.
  assert (Hfile : category_file
                  = FileField_pre_save storage_save (category_image_directory_path category)
                      (Category.src category)).
  { unfold category_file. destruct category as [pk title parent src alt].
    cbn in Hpk'. subst pk. reflexivity. }
  subst category'. rewrite Hfile. clear Hfile category_file.
  set (category_file := FileField_pre_save storage_save
                          (category_image_directory_path category) (Category.src category)).
  assert (Himage : negb (file_name image_file =? "")%string && ("" =? "")%string = true).
  { apply needs_alt. split; [| reflexivity]. apply FileField_pre_save_named; assumption. }
  assert (Hcategory : negb (file_name category_file =? "")%string && ("" =? "")%string = true).
  { apply needs_alt. split; [| reflexivity]. apply FileField_pre_save_named; assumption. }
  unfold ProductImage_save, ProductImage_Model_save, Category_save, Category_Model_save,
    Model_save, INSERT.
  rewrite Hpk, Hpk'.
  cbn [plain_save force_insert force_update andb no_pk with_force_update].
  cbn [ProductImage.set_pk ProductImage_pre_save ProductImage.set_src ProductImage.src
       ProductImage.alt ProductImage.product ProductImage.pk ProductImage.set_alt
       Category_set_pk Category_pre_save Category_set_src Category.src Category.alt
       Category.title Category.parent Category.pk Category_set_alt rows next_pk].
  rewrite Halt, Halt', !next_key.
  fold image_file. fold category_file. rewrite Himage, Hcategory.
  rewrite !lookup_insert_eq.
  cbn [ProductImage.set_pk ProductImage_pre_save ProductImage.set_src ProductImage.src
       ProductImage.alt ProductImage.product ProductImage.pk ProductImage.set_alt
       Category_set_pk Category_pre_save Category_set_src Category.src Category.alt
       Category.title Category.parent Category.pk Category_set_alt rows next_pk].
  unfold image_file, category_file, image', ProductImage_pre_save, Category_pre_save,
    ProductImage.set_alt, ProductImage.set_pk, ProductImage.set_src,
    Category_set_alt, Category_set_pk, Category_set_src.
  cbn [ProductImage.src ProductImage.alt ProductImage.product ProductImage.pk
       Category.src Category.alt Category.title Category.parent Category.pk].
  rewrite !FileField_pre_save_twice, !insert_insert_eq.
  split; reflexivity.
Qed.

Lemma X27_first_save_derives_the_alt_witness :
  ProductImage_save (fun name => ("stored/" ++ name)%string) plain_save
    {| ProductImage.pk := None; ProductImage.product := 12;
       ProductImage.src := uploaded "tv.png"; ProductImage.alt := "" |}
    empty_table
  = (inr {| ProductImage.pk := Some 1; ProductImage.product := 12;
            ProductImage.src :=
              {| file_name := "stored/products/product_12/images/tv.png";
                 committed := true |};
            ProductImage.alt := "tv" |},
     {| rows := {[ 1 := {| ProductImage.pk := Some 1; ProductImage.product := 12;
                           ProductImage.src :=
                             {| file_name := "stored/products/product_12/images/tv.png";
                                committed := true |};
                           ProductImage.alt := "tv" |} ]};
        next_pk := 2 |})
  /\ Category_save (fun name => ("stored/" ++ name)%string) plain_save
       {| Category.pk := None; Category.title := "Books"; Category.parent := None;
          Category.src := uploaded "shelf.old.png"; Category.alt := "" |}
       empty_table
     = (inr {| Category.pk := Some 1; Category.title := "Books"; Category.parent := None;
               Category.src :=
                 {| file_name := "stored/categories/category_None/images/shelf.old.png";
                    committed := true |};
               Category.alt := "shelf.old" |},
        {| rows := {[ 1 := {| Category.pk := Some 1; Category.title := "Books";
                              Category.parent := None;
                              Category.src :=
                                {| file_name :=
                                     "stored/categories/category_None/images/shelf.old.png";
                                   committed := true |};
                              Category.alt := "shelf.old" |} ]};
           next_pk := 2 |}).
Proof.
  apply (X27_first_save_derives_the_alt (fun name => ("stored/" ++ name)%string)
           {| ProductImage.pk := None; ProductImage.product := 12;
              ProductImage.src := uploaded "tv.png"; ProductImage.alt := "" |}
           empty_table
           {| Category.pk := None; Category.title := "Books"; Category.parent := None;
              Category.src := uploaded "shelf.old.png"; Category.alt := "" |}
           empty_table).
  - intros name. discriminate.
  - reflexivity.
  - discriminate.
  - reflexivity.
  - reflexivity.
  - discriminate.
  - reflexivity.
Defined.

(** X28. A [save] without [force_insert] of an image or a category that
    has a key, a file and no alt text is one forced update: the alt text
    becomes the name of the file as it is before it is stored, without
    directories and extension; the file of a category goes under the
    directory of its key; and when the table has no row of that key the
    save raises DatabaseError and writes nothing. *)
Theorem X28_later_save_is_a_forced_update (storage_save : string -> string)
    (kwargs : SaveKwargs)
    (image : ProductImage.t) (images : Table ProductImage.t) (i : Z)
    (category : Category.t) (categories : Table Category.t) (k : Z) :
  force_insert kwargs = false ->
  ProductImage.pk image = Some i -> i <> 0 ->
  file_name (ProductImage.src image) <> "" -> ProductImage.alt image = "" ->
  Category.pk category = Some k -> k <> 0 ->
  file_name (Category.src category) <> "" -> Category.alt category = "" ->
  let missing := DatabaseError "Forced update did not affect any rows." in
  let image' :=
    {| ProductImage.pk := Some i;
       ProductImage.product := ProductImage.product image;
       ProductImage.src :=
         FileField_pre_save storage_save (product_images_directory_path image)
           (ProductImage.src image);
       ProductImage.alt := stem (file_name (ProductImage.src image)) |} in
  let category' :=
    {| Category.pk := Some k;
       Category.title := Category.title category;
       Category.parent := Category.parent category;
       Category.src :=
         FileField_pre_save storage_save
           (fun filename =>
              ("categories/category_" ++ pretty k ++ "/images/" ++ filename)%string)
           (Category.src category);
       Category.alt := stem (file_name (Category.src category)) |} in
  ProductImage_save storage_save kwargs image images
  = match rows images !! i with
    | Some _ => (inr image', {| rows := <[i := image']> (rows images);
                                next_pk := next_pk images |})
    | None => (inl missing, images)
    end
  /\ Category_save storage_save kwargs category categories
     = match rows categories !! k with
       | Some _ => (inr category', {| rows := <[k := category']> (rows categories);
                                      next_pk := next_pk categories |})
       | None => (inl missing, categories)
       end.
Proof.
  intros Hkw Hpk Hi Hname Halt Hpk' Hk Hname' Halt' missing image' category'.
  destruct image as [pk product src alt]. destruct category as [pk' title parent src' alt'].
  cbn in Hpk, Hname, Halt, Hpk', Hname', Halt'. subst pk alt pk' alt'.
  apply Z.eqb_neq in Hi, Hk.
  unfold ProductImage_save, ProductImage_Model_save, Category_save, Category_Model_save,
    Model_save, with_force_update.
  cbn [no_pk ProductImage.pk Category.pk ProductImage.src Category.src
       ProductImage.alt Category.alt force_insert force_update
       ProductImage.set_alt Category_set_alt].
  rewrite Hi, Hk, Hkw.
  cbn [ProductImage.pk Category.pk ProductImage.src Category.src
       ProductImage.alt Category.alt].
  rewrite (proj2 (needs_alt (file_name src) "")), (proj2 (needs_alt (file_name src') ""))
    by (split; [assumption | reflexivity]).
  subst image' category'.
  unfold ProductImage_pre_save, Category_pre_save, ProductImage.set_src, Category_set_src.
  cbn [andb ProductImage.pk Category.pk ProductImage.src Category.src
       ProductImage.alt Category.alt ProductImage.product Category.title Category.parent].
  split.
  - destruct (rows images !! i); reflexivity.
  - destruct (rows categories !! k); reflexivity.
Qed.

Lemma X28_later_save_is_a_forced_update_witness :
  ProductImage_save (fun name => ("stored/" ++ name)%string) plain_save
    {| ProductImage.pk := Some 1; ProductImage.product := 12;
       ProductImage.src := uploaded "shopapp/test_images/default_image.png";
       ProductImage.alt := "" |}
    empty_table
  = (inl (DatabaseError "Forced update did not affect any rows."), empty_table)
  /\ Category_save (fun name => ("stored/" ++ name)%string) plain_save
       {| Category.pk := Some 1; Category.title := "Books"; Category.parent := None;
          Category.src := uploaded "default_image.png"; Category.alt := "" |}
       {| rows := {[ 1 := Category_set_pk 1 (plain_category "Books" None) ]};
          next_pk := 2 |}
     = (inr {| Category.pk := Some 1; Category.title := "Books"; Category.parent := None;
               Category.src :=
                 {| file_name := "stored/categories/category_1/images/default_image.png";
                    committed := true |};
               Category.alt := "default_image" |},
        {| rows := {[ 1 := {| Category.pk := Some 1; Category.title := "Books";
                              Category.parent := None;
                              Category.src :=
                                {| file_name :=
                                     "stored/categories/category_1/images/default_image.png";
                                   committed := true |};
                              Category.alt := "default_image" |} ]};
           next_pk := 2 |}).
Proof.
  generalize (X28_later_save_is_a_forced_update (fun name => ("stored/" ++ name)%string)
           plain_save
           {| ProductImage.pk := Some 1; ProductImage.product := 12;
              ProductImage.src := uploaded "shopapp/test_images/default_image.png";
              ProductImage.alt := "" |}
           empty_table 1
           {| Category.pk := Some 1; Category.title := "Books"; Category.parent := None;
              Category.src := uploaded "default_image.png"; Category.alt := "" |}
           {| rows := {[ 1 := Category_set_pk 1 (plain_category "Books" None) ]};
              next_pk := 2 |} 1
           eq_refl eq_refl ltac:(discriminate) ltac:(discriminate) eq_refl
           eq_refl ltac:(discriminate) ltac:(discriminate) eq_refl).
  vm_compute. intros H. exact H.
Defined.

(** * Reviews *)

(** X29. [ReviewView] never answers 401: the permission class refuses
    the anonymous user with 403 before the method runs, so the branch of
    the method for a user who is not authenticated is never taken; a
    refused request writes no review. *)
Theorem X29_review_is_never_unauthorized {Data Errors : Type}
    (run_validation : Data -> Errors + ReviewSerializer.ValidatedData)
    (u : User) (pk : Z) (data : Data)
    (products : gmap Z Product.t) (reviews : list Review.t) :
  review_status (ReviewView_dispatch run_validation u pk data products reviews).1
  <> HTTP_401_UNAUTHORIZED
  /\ (IsAuthenticated u = false ->
      ReviewView_dispatch run_validation u pk data products reviews
      = (ReviewDetail HTTP_403_FORBIDDEN "Authentication credentials were not provided.",
         reviews)).
Proof.
  unfold ReviewView_dispatch, ReviewView_post. split.
  - destruct (IsAuthenticated u); cbn [negb]; [| discriminate].
    destruct (run_validation data) as [errors | validated_data]; [discriminate |].
    unfold ReviewSerializer.create. destruct (products !! pk); discriminate.
  - intros ->. reflexivity.
Qed.

(** X30. A review with valid fields for a product that does not exist
    is answered with 400 and the message of [ReviewSerializer.create],
    not with 404, and nothing is written; for a product that exists the
    answer is 201 and one review of that product, with the validated
    fields, is added; invalid fields are answered with 400 and their
    errors, whether the product exists or not. *)
Theorem X30_review_of_a_product {Data Errors : Type}
    (run_validation : Data -> Errors + ReviewSerializer.ValidatedData)
    (u : User) (pk : Z) (data : Data)
    (products : gmap Z Product.t) (reviews : list Review.t) :
  IsAuthenticated u = true ->
  match run_validation data with
  | inl errors =>
      ReviewView_dispatch run_validation u pk data products reviews
      = (ReviewErrors HTTP_400_BAD_REQUEST errors, reviews)
  | inr validated_data =>
      let review :=
        {| Review.product := pk;
           Review.author := ReviewSerializer.author validated_data;
           Review.email := ReviewSerializer.email validated_data;
           Review.text := ReviewSerializer.text validated_data;
           Review.rate := ReviewSerializer.rate validated_data |} in
      ReviewView_dispatch run_validation u pk data products reviews
      = match products !! pk with
        | Some _ => (ReviewCreated HTTP_201_CREATED review, reviews ++ [review])
        | None =>
            (ReviewInvalid HTTP_400_BAD_REQUEST
               [("Not found product with id: " ++ pretty pk)%string], reviews)
        end
  end.
Proof.
  intros Hu. unfold ReviewView_dispatch, ReviewView_post. rewrite Hu. cbn [negb].
  destruct (run_validation data) as [errors | validated_data]; [reflexivity |].
  unfold ReviewSerializer.create. destruct (products !! pk); reflexivity.
Qed.

Lemma X30_review_of_a_product_witness :
  ReviewView_dispatch
    (fun rate : Z =>
       if (1 <=? rate) && (rate <=? 5)
       then inr {| ReviewSerializer.author := "John Doe";
                   ReviewSerializer.email := "john@example.com";
                   ReviewSerializer.text := "Great product!";
                   ReviewSerializer.rate := rate |}
       else inl "rate")
    (AuthenticatedUser (Some 7)) 99 5 (Product_objects example_db) []
  = (ReviewInvalid HTTP_400_BAD_REQUEST ["Not found product with id: 99"], []).
Proof.
  generalize (X30_review_of_a_product
           (fun rate : Z =>
              if (1 <=? rate) && (rate <=? 5)
              then inr {| ReviewSerializer.author := "John Doe";
                          ReviewSerializer.email := "john@example.com";
                          ReviewSerializer.text := "Great product!";
                          ReviewSerializer.rate := rate |}
              else @inl string _ "rate")
           (AuthenticatedUser (Some 7)) 99 5 (Product_objects example_db) [] eq_refl).
  vm_compute. intros H. exact H.
Defined.
